(** * Azure VM client: orchestration workflows and configuration assembly

    A shallow embedding of the [VmClient] methods of package [azure]
    (virtual machine creation, role operations, provisioning configuration)
    together with the properties the design document states about them.

    Go values are embedded as follows.
    - [string] is Go's [string]: a sequence of bytes; [len] is its length
      in bytes, and [range] over it decodes UTF-8 into runes.
    - [bytes] is Go's [[]byte].
    - [error] is a Go [error] value, identified with its message;
      [option error] is a returned [error] with [None] for [nil].
    - A Go result pair [(v, err)] in which the value is meaningless on
      failure is a [result]; where the code returns a partly filled value
      together with the error, the pair is kept.
    - Calls that leave the process (HTTP requests, the operation tracker,
      the file system, the clock, the random source) are nodes of a
      program tree [Prog]; running a tree against a handler yields the
      returned value and the trace of the calls made. *)

From Stdlib Require Import String Ascii Strings.Byte List ZArith NArith Bool Lia Permutation.
Import ListNotations.
Open Scope string_scope.
Open Scope Z_scope.

(** ** Go's built-in and standard-library operations used by the client *)

Module Go.

Definition bytes := list byte.
Definition rune := Z.
Definition error := string.

Inductive result (A : Type) : Type :=
| Ok (a : A)
| Err (e : error).
Arguments Ok {A} a.
Arguments Err {A} e.

(** [len(s)] on a string: the number of bytes. *)
Definition len (s : string) : Z := Z.of_nat (String.length s).

(** [string(b)] for [b []byte] and [[]byte(s)]. *)
Definition string_of_bytes (b : bytes) : string := string_of_list_byte b.
Definition bytes_of_string (s : string) : bytes := list_byte_of_string s.

(** [fmt.Sprintf] restricted to the [%s] verb with string operands, which
    is the only form the client uses with operands.  A verb without an
    operand prints as [%!s(MISSING)], operands left over are listed after
    [%!(EXTRA]. *)
Definition extra (args : list string) : string :=
  match args with
  | [] => EmptyString
  | _ => "%!(EXTRA " ++ String.concat ", " (map (fun a => "string=" ++ a) args) ++ ")"
  end.

Fixpoint Sprintf (format : string) (args : list string) : string :=
  match format with
  | EmptyString => extra args
  | String "%"%char (String "s"%char rest) =>
      match args with
      | a :: args' => a ++ Sprintf rest args'
      | [] => "%!s(MISSING)" ++ Sprintf rest []
      end
  | String c rest => String c (Sprintf rest args)
  end.

(** [fmt.Errorf] and [errors.New]. *)
Definition Errorf (format : string) (args : list string) : error :=
  Sprintf format args.
Definition errors_New (msg : string) : error := msg.

(** The built-in [append(s, x)] with one element. *)
Definition append {A : Type} (s : list A) (x : A) : list A := (s ++ [x])%list.

(** [strings.Split(s, sep)] for a one-byte separator: the pieces between
    the separators, never an empty list. *)
Fixpoint Split (s : string) (sep : ascii) : list string :=
  match s with
  | EmptyString => [EmptyString]
  | String c rest =>
      if Ascii.eqb c sep then EmptyString :: Split rest sep
      else match Split rest sep with
           | piece :: pieces => String c piece :: pieces
           | [] => [String c EmptyString]
           end
  end.

(** [strings.Trim(s, cutset)] for a cutset of ASCII bytes: the bytes of
    the cutset are cut off both ends. *)
Definition in_cutset (cutset : string) (c : ascii) : bool :=
  existsb (Ascii.eqb c) (list_ascii_of_string cutset).

Fixpoint TrimLeft (s cutset : string) : string :=
  match s with
  | EmptyString => EmptyString
  | String c rest => if in_cutset cutset c then TrimLeft rest cutset else s
  end.

Fixpoint TrimRight (s cutset : string) : string :=
  match s with
  | EmptyString => EmptyString
  | String c rest =>
      match TrimRight rest cutset with
      | EmptyString => if in_cutset cutset c then EmptyString else String c EmptyString
      | kept => String c kept
      end
  end.

Definition Trim (s cutset : string) : string := TrimRight (TrimLeft s cutset) cutset.


(** *** UTF-8 decoding, as performed by [for _, r := range s] *)

Definition RuneError : rune := 0xFFFD.

Definition byteZ (c : ascii) : Z := Z.of_N (N_of_ascii c).

Definition between (lo x hi : Z) : bool := (lo <=? x)%Z && (x <=? hi)%Z.

(** Continuation byte. *)
Definition cont (b : Z) : bool := between 0x80 b 0xBF.

(** Accepted range of the second byte, by first byte (the decoder's
    [acceptRanges] table). *)
Definition second_ok (b0 b1 : Z) : bool :=
  if (b0 =? 0xE0)%Z then between 0xA0 b1 0xBF
  else if (b0 =? 0xED)%Z then between 0x80 b1 0x9F
  else if (b0 =? 0xF0)%Z then between 0x90 b1 0xBF
  else if (b0 =? 0xF4)%Z then between 0x80 b1 0x8F
  else cont b1.

Definition low (n : Z) (b : Z) : Z := Z.land b (Z.ones n).

(** The runes of a string in order.  An ill-formed sequence yields
    [RuneError] and consumes a single byte. *)
Fixpoint runes (s : string) : list rune :=
  match s with
  | EmptyString => []
  | String c0 rest =>
      let b0 := byteZ c0 in
      if (b0 <? 0x80)%Z then b0 :: runes rest
      else if between 0xC2 b0 0xDF then
        match rest with
        | String c1 rest1 =>
            let b1 := byteZ c1 in
            if second_ok b0 b1
            then Z.lor (Z.shiftl (low 5 b0) 6) (low 6 b1) :: runes rest1
            else RuneError :: runes rest
        | _ => RuneError :: runes rest
        end
      else if between 0xE0 b0 0xEF then
        match rest with
        | String c1 (String c2 rest2) =>
            let b1 := byteZ c1 in
            let b2 := byteZ c2 in
            if second_ok b0 b1 && cont b2
            then Z.lor (Z.shiftl (low 4 b0) 12)
                   (Z.lor (Z.shiftl (low 6 b1) 6) (low 6 b2)) :: runes rest2
            else RuneError :: runes rest
        | _ => RuneError :: runes rest
        end
      else if between 0xF0 b0 0xF4 then
        match rest with
        | String c1 (String c2 (String c3 rest3)) =>
            let b1 := byteZ c1 in
            let b2 := byteZ c2 in
            let b3 := byteZ c3 in
            if second_ok b0 b1 && cont b2 && cont b3
            then Z.lor (Z.shiftl (low 3 b0) 18)
                   (Z.lor (Z.shiftl (low 6 b1) 12)
                      (Z.lor (Z.shiftl (low 6 b2) 6) (low 6 b3))) :: runes rest3
            else RuneError :: runes rest
        | _ => RuneError :: runes rest
        end
      else RuneError :: runes rest
  end.


(** *** Package [unicode] *)

(** A range table: ranges [(Lo, Hi, Stride)]. *)
Definition RangeTable := list (Z * Z * Z).

(** [unicode.Is]. *)
Definition Is (tab : RangeTable) (r : rune) : bool :=
  existsb (fun '(lo, hi, stride) =>
             between lo r hi && ((r - lo) mod stride =? 0)%Z) tab.

(** [unicode.IsOneOf]. *)
Definition IsOneOf (ranges : list RangeTable) (r : rune) : bool :=
  existsb (fun tab => Is tab r) ranges.

(** The category tables the client consults.  Their contents belong to
    the Unicode version of the Go release in use. *)
Record Tables : Type := {
  Upper : RangeTable;
  Title : RangeTable;
  Lower : RangeTable;
  Number : RangeTable;
  Digit : RangeTable
}.

(** The part of the tables that covers U+0000..U+00FF. *)
Definition latin1 : Tables := {|
  Upper := [(0x41, 0x5A, 1); (0xC0, 0xD6, 1); (0xD8, 0xDE, 1)];
  Title := [];
  Lower := [(0x61, 0x7A, 1); (0xB5, 0xDF, 42); (0xE0, 0xF6, 1); (0xF8, 0xFF, 1)];
  Number := [(0x30, 0x39, 1); (0xB2, 0xB3, 1); (0xB9, 0xBC, 3); (0xBD, 0xBE, 1)];
  Digit := [(0x30, 0x39, 1)]
|}.

(** Tables that classify the ASCII range as every Unicode version does:
    upper case is A-Z, lower case is a-z, numbers are 0-9. *)
Definition ascii_faithful (t : Tables) : bool :=
  forallb (fun n =>
             let r := Z.of_nat n in
             Bool.eqb (IsOneOf [Upper t; Title t] r) (between 0x41 r 0x5A)
             && Bool.eqb (IsOneOf [Lower t] r) (between 0x61 r 0x7A)
             && Bool.eqb (IsOneOf [Number t; Digit t] r) (between 0x30 r 0x39))
          (seq 0%nat 128%nat).

(** *** Package [crypto/sha1] and the [%X] verb *)

Definition Z_of_byte (b : byte) : Z := Z.of_N (Byte.to_N b).

Definition byte_of_Z (z : Z) : byte :=
  match Byte.of_N (Z.to_N (z mod 256)) with
  | Some b => b
  | None => x00
  end.

(** 32-bit words as [Z] with the wrap-around written out. *)
Definition w32 (x : Z) : Z := x mod 2 ^ 32.
Definition add32 (x y : Z) : Z := w32 (x + y).
Definition not32 (x : Z) : Z := Z.lxor x 0xFFFFFFFF.
Definition rotl (n x : Z) : Z :=
  w32 (Z.lor (Z.shiftl x n) (Z.shiftr x (32 - n))).

(** The [n] low bytes of [x], most significant first. *)
Fixpoint be_bytes (n : nat) (x : Z) : list Z :=
  match n with
  | O => []
  | S n' => Z.shiftr x (8 * Z.of_nat n') mod 256 :: be_bytes n' x
  end.

Definition be_word (bs : list Z) : Z :=
  fold_left (fun acc b => acc * 256 + b) bs 0.

(** Message padding: a one bit, zeros up to 56 modulo 64, then the length
    in bits as a 64-bit big-endian number. *)
Definition sha1_pad (msg : list Z) : list Z :=
  let l := Z.of_nat (length msg) in
  msg ++ [0x80] ++ repeat 0 (Z.to_nat ((55 - l) mod 64)) ++ be_bytes 8%nat (8 * l).

Fixpoint chunks (n : nat) (size : nat) (l : list Z) : list (list Z) :=
  match n with
  | O => []
  | S n' => firstn size l :: chunks n' size (skipn size l)
  end.

(** The message schedule: sixteen words of the block, extended to eighty. *)
Fixpoint sha1_extend (n : nat) (ws : list Z) : list Z :=
  match n with
  | O => ws
  | S n' =>
      let t := length ws in
      let w i := nth (t - i)%nat ws 0 in
      sha1_extend n'
        (ws ++ [rotl 1 (Z.lxor (Z.lxor (w 3%nat) (w 8%nat))
                                (Z.lxor (w 14%nat) (w 16%nat)))])
  end.

Definition sha1_schedule (block : list Z) : list Z :=
  sha1_extend 64%nat (map be_word (chunks 16%nat 4%nat block)).

Definition sha1_state : Type := Z * Z * Z * Z * Z.

Definition sha1_round (st : sha1_state) (tw : nat * Z) : sha1_state :=
  let '(a, b, c, d, e) := st in
  let '(t, w) := tw in
  let '(f, k) :=
    if (t <? 20)%nat then (Z.lor (Z.land b c) (Z.land (not32 b) d), 0x5A827999)
    else if (t <? 40)%nat then (Z.lxor (Z.lxor b c) d, 0x6ED9EBA1)
    else if (t <? 60)%nat then
      (Z.lor (Z.lor (Z.land b c) (Z.land b d)) (Z.land c d), 0x8F1BBCDC)
    else (Z.lxor (Z.lxor b c) d, 0xCA62C1D6) in
  (add32 (add32 (add32 (add32 (rotl 5 a) f) e) k) w, a, rotl 30 b, c, d).

Definition sha1_block (h : sha1_state) (block : list Z) : sha1_state :=
  let '(h0, h1, h2, h3, h4) := h in
  let '(a, b, c, d, e) :=
    fold_left sha1_round (combine (seq 0%nat 80%nat) (sha1_schedule block)) h in
  (add32 h0 a, add32 h1 b, add32 h2 c, add32 h3 d, add32 h4 e).

Definition sha1_init : sha1_state :=
  (0x67452301, 0xEFCDAB89, 0x98BADCFE, 0x10325476, 0xC3D2E1F0).

(** [sha1.Sum]: the 20-byte digest. *)
Definition sha1_Sum (data : bytes) : bytes :=
  let padded := sha1_pad (map Z_of_byte data) in
  let '(h0, h1, h2, h3, h4) :=
    fold_left sha1_block (chunks (length padded / 64)%nat 64%nat padded) sha1_init in
  map byte_of_Z
    (be_bytes 4%nat h0 ++ be_bytes 4%nat h1 ++ be_bytes 4%nat h2 ++ be_bytes 4%nat h3
       ++ be_bytes 4%nat h4).

Definition udigits : string := "0123456789ABCDEF".

Definition hexdigit (n : Z) : ascii :=
  match String.get (Z.to_nat n) udigits with
  | Some c => c
  | None => "0"%char
  end.

(** [fmt.Sprintf("%X", b)] for a byte array or slice: two upper-case
    hexadecimal digits per byte, nothing in between. *)
Fixpoint SprintfX (b : bytes) : string :=
  match b with
  | [] => EmptyString
  | x :: rest =>
      String (hexdigit (Z_of_byte x / 16))
        (String (hexdigit (Z_of_byte x mod 16)) (SprintfX rest))
  end.

End Go.

Import Go.

(** ** Data model

    The structs of the package, with the fields the client code reads or
    writes.  Each lives in a module of its name; [zero] is Go's zero
    value.  A struct that only wraps a slice ([InputEndpoints],
    [PublicKeys], [ConfigurationSets], [RoleList]) is the list itself. *)

Module InputEndpoint.
Record t : Type := mk {
  Name : string;
  Protocol : string;
  Port : Z;
  LocalPort : Z
}.
Definition zero : t := mk "" "" 0 0.
End InputEndpoint.

Module PublicKey.
Record t : Type := mk {
  Fingerprint : string;
  Path : string
}.
Definition zero : t := mk "" "".
End PublicKey.

Module SSH.
Record t : Type := mk {
  PublicKeys : list PublicKey.t
}.
Definition zero : t := mk [].
End SSH.

Module ConfigurationSet.
Record t : Type := mk {
  ConfigurationSetType : string;
  HostName : string;
  UserName : string;
  UserPassword : string;
  DisableSshPasswordAuthentication : bool;
  SSH : SSH.t;
  InputEndpoints : list InputEndpoint.t
}.
Definition zero : t := mk "" "" "" "" false SSH.zero [].
End ConfigurationSet.

Module OSVirtualHardDisk.
Record t : Type := mk {
  SourceImageName : string;
  MediaLink : string
}.
Definition zero : t := mk "" "".
End OSVirtualHardDisk.

Module Role.
Record t : Type := mk {
  RoleName : string;
  RoleSize : string;
  RoleType : string;
  ProvisionGuestAgent : bool;
  OSVirtualHardDisk : OSVirtualHardDisk.t;
  ConfigurationSets : list ConfigurationSet.t;
  UseCertAuth : bool;
  CertPath : string
}.
Definition zero : t := mk "" "" "" false OSVirtualHardDisk.zero [] false "".
End Role.

Module VMDeployment.
Record t : Type := mk {
  Name : string;
  Xmlns : string;
  DeploymentSlot : string;
  Label : string;
  RoleList : list Role.t
}.
Definition zero : t := mk "" "" "" "" [].
End VMDeployment.

Module ServiceCertificate.
Record t : Type := mk {
  Xmlns : string;
  Data : string;
  CertificateFormat : string
}.
Definition zero : t := mk "" "" "".
End ServiceCertificate.

(** [StartRoleOperation], [ShutdownRoleOperation] and
    [RestartRoleOperation] have the same two fields. *)
Module RoleOperation.
Record t : Type := mk {
  Xmlns : string;
  OperationType : string
}.
Definition zero : t := mk "" "".
End RoleOperation.

Module Location.
Record t : Type := mk {
  VirtualMachineRoleSizes : list string
}.
End Location.

(** A decoded PEM block ([pem.Block]). *)
Module Block.
Record t : Type := mk {
  Type_ : string;
  Bytes : bytes
}.
End Block.

Module ResourceExtensionParameter.
Record t : Type := mk {
  Key : string;
  Value : string;
  Type_ : string
}.
End ResourceExtensionParameter.

Module ResourceExtensionReference.
Record t : Type := mk {
  ReferenceName : string;
  Publisher : string;
  Name : string;
  Version : string;
  ResourceExtensionParameterValues : list ResourceExtensionParameter.t;
  State : string
}.
Definition zero : t := mk "" "" "" "" [] "".
End ResourceExtensionReference.

Module RoleSize.
Record t : Type := mk {
  Name : string
}.
End RoleSize.

(** What [xml.Marshal] is applied to. *)
Inductive Document : Type :=
| DocVMDeployment (d : VMDeployment.t)
| DocServiceCertificate (c : ServiceCertificate.t)
| DocStartRoleOperation (o : RoleOperation.t)
| DocShutdownRoleOperation (o : RoleOperation.t)
| DocRestartRoleOperation (o : RoleOperation.t).

(** ** The client *)

(** Pointers to [Role]: [nil] or an address in a store of roles. *)
Definition addr := nat.
Definition heap := addr -> Role.t.
Definition store (h : heap) (a : addr) (r : Role.t) : heap :=
  fun a' => if Nat.eqb a' a then r else h a'.

Section Client.

(** Declarations of the package that live in other files: the type of
    storage services and four string constants. *)
Variable StorageService : Type.
Variable paramNotSpecifiedError : string.
Variable invalidDnsLengthError : string.
Variable azureDeploymentListURL : string.
Variable azureXmlns : string.

(** Pure standard-library functions the client calls: the Unicode
    category tables, [xml.Marshal], [pem.Decode] and
    [base64.StdEncoding.EncodeToString]. *)
Variable unicode : Tables.
Variable xml_Marshal : Document -> result bytes.
Variable pem_Decode : bytes -> option Block.t * bytes.
Variable base64_EncodeToString : bytes -> string.

Definition azureRoleURL := "services/hostedservices/%s/deployments/%s/roles/%s".
Definition azureOperationsURL :=
  "services/hostedservices/%s/deployments/%s/roleinstances/%s/Operations".
Definition azureCertificatListURL := "services/hostedservices/%s/certificates".
Definition osLinux := "Linux".
Definition osWindows := "Windows".
Definition invalidCertExtensionError :=
  "Certificate %s is invalid. Please specify %s certificate.".
Definition invalidOSError :=
  "You must specify correct OS param. Valid values are 'Linux' and 'Windows'".
Definition invalidPasswordLengthError :=
  "Password must be between 4 and 30 characters.".
Definition invalidPasswordError :=
  "Password must have at least one upper case, lower case and numeric character.".
Definition invalidRoleSizeInLocationError :=
  "Role size: %s not available in location: %s.".

(** *** Calls that leave the process *)

Inductive call : Type :=
| CreateHostedService (dnsName location label : string)
| DeleteHostedService (dnsName : string)
| waitAsyncOperation (requestId : string)
| sendAzurePostRequest (url : string) (data : bytes)
| sendAzureDeleteRequest (url : string)
| ReadFile (filename : string)
| GetLocation (location : string)
| ResolveImageName (imageName : string)
| GetStorageServiceByLocation (location : string)
| CreateStorageService (name location : string)
| GetBlobEndpoint (storageService : option StorageService)
| newUUID
| Now_Format (layout : string).

(** What each call hands back.  A [*StorageService] may be [nil]. *)
Definition reply (c : call) : Type :=
  match c with
  | CreateHostedService _ _ _ => result string
  | DeleteHostedService _ => option error
  | waitAsyncOperation _ => option error
  | sendAzurePostRequest _ _ => result string
  | sendAzureDeleteRequest _ => result string
  | ReadFile _ => result bytes
  | GetLocation _ => result Location.t
  | ResolveImageName _ => option error
  | GetStorageServiceByLocation _ => result (option StorageService)
  | CreateStorageService _ _ => result (option StorageService)
  | GetBlobEndpoint _ => result string
  | newUUID => result string
  | Now_Format _ => string
  end.

Inductive Prog (A : Type) : Type :=
| Ret (a : A)
| Do (c : call) (k : reply c -> Prog A).
Arguments Ret {A} a.
Arguments Do {A} c k.

Fixpoint bind {A B : Type} (p : Prog A) (f : A -> Prog B) : Prog B :=
  match p with
  | Ret a => f a
  | Do c k => Do c (fun r => bind (k r) f)
  end.

Definition perform (c : call) : Prog (reply c) := Do c Ret.

Notation "x <- p ;; q" := (bind p (fun x => q))
  (at level 61, p at next level, right associativity).

(** One call as it happened: the request and what came back. *)
Record event : Type := Event { made : call; got : reply made }.

Definition trace := list event.

(** Running a program against the outside world: [handle] answers each
    call and moves the world on. *)
Section Run.
Variable World : Type.
Variable handle : forall c : call, World -> reply c * World.

Fixpoint run {A : Type} (p : Prog A) (w : World) : A * trace * World :=
  match p with
  | Ret a => (a, [], w)
  | Do c k =>
      let (r, w1) := handle c w in
      let '(a, tr, w2) := run (k r) w1 in
      (a, Event c r :: tr, w2)
  end.

Definition returned {A : Type} (p : Prog A) (w : World) : A := fst (fst (run p w)).
Definition calls {A : Type} (p : Prog A) (w : World) : trace := snd (fst (run p w)).
End Run.
Arguments run {World} handle {A} p w.
Arguments returned {World} handle {A} p w.
Arguments calls {World} handle {A} p w.

(** Classification of calls in a trace. *)
Definition is_DeleteHostedService (ev : event) : bool :=
  match made ev with DeleteHostedService _ => true | _ => false end.

(** How often the hosted-service deletion was issued. *)
Definition deletions (tr : trace) : nat :=
  length (filter is_DeleteHostedService tr).

(** *** Validation helpers *)

Definition verifyDNSname (dns : string) : option error :=
  if (len dns <? 3) || (25 <? len dns)
  then Some (Errorf invalidDnsLengthError [])
  else None.

(** The character classes of [verifyPassword], keyed by their label. *)
Definition passwordClasses : list (string * list RangeTable) :=
  [ ("upper case", [Upper unicode; Title unicode]);
    ("lower case", [Lower unicode]);
    ("numeric", [Number unicode; Digit unicode]) ].

(** The loop labelled [next]: for each class, in the order the map is
    iterated, look for a rune of the password in the class. *)
Fixpoint verifyClasses (m : list (string * list RangeTable)) (password : string)
  : option error :=
  match m with
  | [] => None
  | (_, classes) :: m' =>
      if existsb (IsOneOf classes) (runes password)
      then verifyClasses m' password
      else Some (Errorf invalidPasswordError [])
  end.

(** [verifyPassword] for a given iteration order of the map literal; Go
    leaves the iteration order of a map unspecified. *)
Definition verifyPassword_in (order : list (string * list RangeTable))
    (password : string) : option error :=
  if (len password <? 4) || (30 <? len password)
  then Some (Errorf invalidPasswordLengthError [])
  else verifyClasses order password.

Definition verifyPassword (password : string) : option error :=
  verifyPassword_in passwordClasses password.

Definition isInstanceSizeAvailableInLocation (location : Location.t)
    (instanceSize : string) : bool * option error :=
  if len instanceSize =? 0
  then (false, Some (Errorf paramNotSpecifiedError ["vmSize"]))
  else (existsb (fun availableRoleSize => String.eqb availableRoleSize instanceSize)
          (Location.VirtualMachineRoleSizes location), None).

Definition checkServiceCertExtension (certPath : string) : option error :=
  let certParts := Split certPath "."%char in
  let certExt := last certParts "" in
  let acceptedExtension := "pem" in
  if negb (String.eqb certExt acceptedExtension)
  then Some (errors_New
               (Sprintf invalidCertExtensionError [certPath; acceptedExtension]))
  else None.

(** *** Configuration assembly *)

Definition createEndpoint (name protocol : string) (extertalPort internalPort : Z)
  : InputEndpoint.t :=
  InputEndpoint.mk name protocol extertalPort internalPort.

Definition createNetworkConfig (os : string) (sshPort : Z)
  : ConfigurationSet.t * option error :=
  let networkConfig :=
    ConfigurationSet.mk "NetworkConfiguration" "" "" "" false SSH.zero [] in
  if String.eqb os osLinux then
    let endpoint := createEndpoint "ssh" "tcp" sshPort 22 in
    (ConfigurationSet.mk "NetworkConfiguration" "" "" "" false SSH.zero
       (append [] endpoint), None)
  else if String.eqb os osWindows then
    (ConfigurationSet.mk "NetworkConfiguration" "" "" "" false SSH.zero
       (append [] InputEndpoint.zero), None)
  else (networkConfig, Some (errors_New (Sprintf invalidOSError []))).

Definition getServiceCertFingerprint (certPath : string)
  : Prog (string * option error) :=
  r <- perform (ReadFile certPath) ;;
  match r with
  | Err readErr => Ret ("", Some readErr)
  | Ok certData =>
      match pem_Decode certData with
      | (None, rest) => Ret ("", Some (errors_New (string_of_bytes rest)))
      | (Some block, _) =>
          let sha1sum := sha1_Sum (Block.Bytes block) in
          let fingerprint := SprintfX sha1sum in
          Ret (fingerprint, None)
      end
  end.

Definition createSshConfig (certPath userName : string)
  : Prog (SSH.t * option error) :=
  let sshConfig := SSH.zero in
  match checkServiceCertExtension certPath with
  | Some err => Ret (sshConfig, Some err)
  | None =>
      r <- getServiceCertFingerprint certPath ;;
      match r with
      | (_, Some err) => Ret (sshConfig, Some err)
      | (fingerprint, None) =>
          let publicKey :=
            PublicKey.mk fingerprint ("/home/" ++ userName ++ "/.ssh/authorized_keys") in
          Ret (SSH.mk (append (SSH.PublicKeys sshConfig) publicKey), None)
      end
  end.

Definition createLinuxProvisioningConfig
    (dnsName userName userPassword certPath : string)
  : Prog (ConfigurationSet.t * option error) :=
  let provisioningConfig := ConfigurationSet.zero in
  let fill (disableSshPasswordAuthentication : bool) (userPassword : string)
    : Prog (ConfigurationSet.t * option error) :=
    let provisioningConfig :=
      ConfigurationSet.mk "LinuxProvisioningConfiguration" dnsName userName
        userPassword disableSshPasswordAuthentication SSH.zero [] in
    if 0 <? len certPath then
      r <- createSshConfig certPath userName ;;
      let provisioningConfig :=
        ConfigurationSet.mk "LinuxProvisioningConfiguration" dnsName userName
          userPassword disableSshPasswordAuthentication (fst r) [] in
      match snd r with
      | Some err => Ret (provisioningConfig, Some err)
      | None => Ret (provisioningConfig, None)
      end
    else Ret (provisioningConfig, None) in
  if len userPassword =? 0 then
    (* We need to set dummy password otherwise azure API will throw an error *)
    fill true "P@ssword1"
  else
    match verifyPassword userPassword with
    | Some err => Ret (provisioningConfig, Some err)
    | None => fill false userPassword
    end.

(** [AddAzureLinuxProvisioningConfig] writes through its [*Role] argument
    and returns the same pointer; [h] is the store before the call and
    the returned store the one after it. *)
Definition AddAzureLinuxProvisioningConfig (h : heap)
    (azureVMConfiguration : option addr)
    (userName password certPath : string) (sshPort : Z)
  : Prog (heap * (option addr * option error)) :=
  match azureVMConfiguration with
  | None => Ret (h, (None, Some (Errorf paramNotSpecifiedError ["azureVMConfiguration"])))
  | Some a =>
      if len userName =? 0
      then Ret (h, (None, Some (Errorf paramNotSpecifiedError ["userName"])))
      else
        let configurationSets : list ConfigurationSet.t := [] in
        r <- createLinuxProvisioningConfig (Role.RoleName (h a)) userName
               password certPath ;;
        let '(provisioningConfig, err) := r in
        match err with
        | Some _ => Ret (h, (None, err))
        | None =>
            let configurationSets := append configurationSets provisioningConfig in
            let '(networkConfig, networkErr) := createNetworkConfig osLinux sshPort in
            match networkErr with
            | Some _ => Ret (h, (None, err))
            | None =>
                let configurationSets := append configurationSets networkConfig in
                let role := h a in
                let role :=
                  Role.mk (Role.RoleName role) (Role.RoleSize role)
                    (Role.RoleType role) (Role.ProvisionGuestAgent role)
                    (Role.OSVirtualHardDisk role) configurationSets
                    (Role.UseCertAuth role) (Role.CertPath role) in
                let role :=
                  if 0 <? len certPath
                  then Role.mk (Role.RoleName role) (Role.RoleSize role)
                         (Role.RoleType role) (Role.ProvisionGuestAgent role)
                         (Role.OSVirtualHardDisk role) (Role.ConfigurationSets role)
                         true certPath
                  else role in
                Ret (store h a role, (Some a, None))
            end
        end
  end.

Definition createServiceCertDeploymentConf (certPath : string)
  : Prog (ServiceCertificate.t * option error) :=
  let certConfig := ServiceCertificate.mk azureXmlns "" "" in
  r <- perform (ReadFile certPath) ;;
  match r with
  | Err err => Ret (certConfig, Some err)
  | Ok data =>
      let certData := base64_EncodeToString data in
      Ret (ServiceCertificate.mk azureXmlns certData "pfx", None)
  end.

Definition createVMDeploymentConfig (role : Role.t) : VMDeployment.t :=
  VMDeployment.mk (Role.RoleName role) azureXmlns "Production"
    (Role.RoleName role) (append [] role).

Definition createStartRoleOperation : RoleOperation.t :=
  RoleOperation.mk azureXmlns "StartRoleOperation".

Definition createShutdowRoleOperation : RoleOperation.t :=
  RoleOperation.mk azureXmlns "ShutdownRoleOperation".

Definition createRestartRoleOperation : RoleOperation.t :=
  RoleOperation.mk azureXmlns "RestartRoleOperation".

(** *** Disk media link *)

Definition getVHDMediaLink (dnsName location : string)
  : Prog (string * option error) :=
  r <- perform (GetStorageServiceByLocation location) ;;
  match r with
  | Err err => Ret ("", Some err)
  | Ok storageService =>
      let derive (storageService : option StorageService)
        : Prog (string * option error) :=
        r <- perform (GetBlobEndpoint storageService) ;;
        match r with
        | Err err => Ret ("", Some err)
        | Ok blobEndpoint =>
            now <- perform (Now_Format "20060102150405") ;;
            let vhdMediaLink :=
              blobEndpoint ++ "vhds/" ++ dnsName ++ "-" ++ now ++ ".vhd" in
            Ret (vhdMediaLink, None)
        end in
      match storageService with
      | None =>
          r <- perform newUUID ;;
          match r with
          | Err err => Ret ("", Some err)
          | Ok uuid =>
              let serviceName := "portalvhds" ++ uuid in
              r <- perform (CreateStorageService serviceName location) ;;
              match r with
              | Err err => Ret ("", Some err)
              | Ok storageService => derive storageService
              end
          end
      | Some _ => derive storageService
      end
  end.

Definition createOSVirtualHardDisk (dnsName imageName location : string)
  : Prog (OSVirtualHardDisk.t * option error) :=
  let oSVirtualHardDisk := OSVirtualHardDisk.zero in
  r <- perform (ResolveImageName imageName) ;;
  match r with
  | Some err => Ret (oSVirtualHardDisk, Some err)
  | None =>
      r <- getVHDMediaLink dnsName location ;;
      let '(mediaLink, err) := r in
      Ret (OSVirtualHardDisk.mk imageName mediaLink, err)
  end.

(** [new(Role)]: the role is returned by value; [None] is [nil]. *)
Definition createAzureVMRole (name instanceSize imageName location : string)
  : Prog (option Role.t * option error) :=
  r <- createOSVirtualHardDisk name imageName location ;;
  let '(disk, err) := r in
  match err with
  | Some _ => Ret (None, err)
  | None =>
      Ret (Some (Role.mk name instanceSize "PersistentVMRole" true disk [] false ""),
           None)
  end.

(** *** Public methods *)

Definition CreateAzureVMConfiguration (dnsName instanceSize imageName location : string)
  : Prog (option Role.t * option error) :=
  if len dnsName =? 0 then
    Ret (None, Some (Errorf paramNotSpecifiedError ["dnsName"]))
  else if len instanceSize =? 0 then
    Ret (None, Some (Errorf paramNotSpecifiedError ["instanceSize"]))
  else if len imageName =? 0 then
    Ret (None, Some (Errorf paramNotSpecifiedError ["imageName"]))
  else if len location =? 0 then
    Ret (None, Some (Errorf paramNotSpecifiedError ["location"]))
  else
    match verifyDNSname dnsName with
    | Some err => Ret (None, Some err)
    | None =>
        r <- perform (GetLocation location) ;;
        match r with
        | Err err => Ret (None, Some err)
        | Ok locationInfo =>
            let '(sizeAvailable, err) :=
              isInstanceSizeAvailableInLocation locationInfo instanceSize in
            match err with
            | Some _ => Ret (None, err)
            | None =>
                if Bool.eqb sizeAvailable false then
                  Ret (None, Some (Errorf invalidRoleSizeInLocationError
                                     [instanceSize; location]))
                else
                  r <- createAzureVMRole dnsName instanceSize imageName location ;;
                  let '(role, err) := r in
                  match err with
                  | Some _ => Ret (None, err)
                  | None => Ret (role, None)
                  end
            end
        end
    end.

Definition uploadServiceCert (dnsName certPath : string) : Prog (option error) :=
  r <- createServiceCertDeploymentConf certPath ;;
  let '(certificateConfig, err) := r in
  match err with
  | Some _ => Ret err
  | None =>
      match xml_Marshal (DocServiceCertificate certificateConfig) with
      | Err err => Ret (Some err)
      | Ok certificateConfigBytes =>
          let requestURL := Sprintf azureCertificatListURL [dnsName] in
          r <- perform (sendAzurePostRequest requestURL certificateConfigBytes) ;;
          match r with
          | Err azureErr => Ret (Some azureErr)
          | Ok requestId =>
              err <- perform (waitAsyncOperation requestId) ;;
              Ret err
          end
      end
  end.

(** [azureVMConfiguration] is the role the pointer refers to, [None] for
    [nil]; the method only reads it. *)
Definition CreateAzureVM (azureVMConfiguration : option Role.t)
    (dnsName location : string) : Prog (option error) :=
  match azureVMConfiguration with
  | None => Ret (Some (Errorf paramNotSpecifiedError ["azureVMConfiguration"]))
  | Some role =>
  if len dnsName =? 0 then
    Ret (Some (Errorf paramNotSpecifiedError ["dnsName"]))
  else if len location =? 0 then
    Ret (Some (Errorf paramNotSpecifiedError ["location"]))
  else
    match verifyDNSname dnsName with
    | Some err => Ret (Some err)
    | None =>
        r <- perform (CreateHostedService dnsName location "") ;;
        match r with
        | Err err => Ret (Some err)
        | Ok requestId =>
            _ <- perform (waitAsyncOperation requestId) ;;
            let deploy : Prog (option error) :=
              let vMDeployment := createVMDeploymentConfig role in
              match xml_Marshal (DocVMDeployment vMDeployment) with
              | Err err =>
                  _ <- perform (DeleteHostedService dnsName) ;;
                  Ret (Some err)
              | Ok vMDeploymentBytes =>
                  let requestURL :=
                    Sprintf azureDeploymentListURL [Role.RoleName role] in
                  r <- perform (sendAzurePostRequest requestURL vMDeploymentBytes) ;;
                  match r with
                  | Err err =>
                      _ <- perform (DeleteHostedService dnsName) ;;
                      Ret (Some err)
                  | Ok requestId =>
                      _ <- perform (waitAsyncOperation requestId) ;;
                      Ret None
                  end
              end in
            if Role.UseCertAuth role then
              err <- uploadServiceCert dnsName (Role.CertPath role) ;;
              match err with
              | Some _ =>
                  _ <- perform (DeleteHostedService dnsName) ;;
                  Ret err
              | None => deploy
              end
            else deploy
        end
    end
  end.

Definition StartRole (cloudserviceName deploymentName roleName : string)
  : Prog (option error) :=
  if len cloudserviceName =? 0 then
    Ret (Some (Errorf paramNotSpecifiedError ["cloudserviceName"]))
  else if len deploymentName =? 0 then
    Ret (Some (Errorf paramNotSpecifiedError ["deploymentName"]))
  else if len roleName =? 0 then
    Ret (Some (Errorf paramNotSpecifiedError ["roleName"]))
  else
    let startRoleOperation := createStartRoleOperation in
    match xml_Marshal (DocStartRoleOperation startRoleOperation) with
    | Err err => Ret (Some err)
    | Ok startRoleOperationBytes =>
        let requestURL :=
          Sprintf azureOperationsURL [cloudserviceName; deploymentName; roleName] in
        r <- perform (sendAzurePostRequest requestURL startRoleOperationBytes) ;;
        match r with
        | Err azureErr => Ret (Some azureErr)
        | Ok requestId =>
            _ <- perform (waitAsyncOperation requestId) ;;
            Ret None
        end
    end.

Definition ShutdownRole (cloudserviceName deploymentName roleName : string)
  : Prog (option error) :=
  if len cloudserviceName =? 0 then
    Ret (Some (Errorf paramNotSpecifiedError ["cloudserviceName"]))
  else if len deploymentName =? 0 then
    Ret (Some (Errorf paramNotSpecifiedError ["deploymentName"]))
  else if len roleName =? 0 then
    Ret (Some (Errorf paramNotSpecifiedError ["roleName"]))
  else
    let shutdownRoleOperation := createShutdowRoleOperation in
    match xml_Marshal (DocShutdownRoleOperation shutdownRoleOperation) with
    | Err err => Ret (Some err)
    | Ok shutdownRoleOperationBytes =>
        let requestURL :=
          Sprintf azureOperationsURL [cloudserviceName; deploymentName; roleName] in
        r <- perform (sendAzurePostRequest requestURL shutdownRoleOperationBytes) ;;
        match r with
        | Err azureErr => Ret (Some azureErr)
        | Ok requestId =>
            _ <- perform (waitAsyncOperation requestId) ;;
            Ret None
        end
    end.

Definition RestartRole (cloudserviceName deploymentName roleName : string)
  : Prog (option error) :=
  if len cloudserviceName =? 0 then
    Ret (Some (Errorf paramNotSpecifiedError ["cloudserviceName"]))
  else if len deploymentName =? 0 then
    Ret (Some (Errorf paramNotSpecifiedError ["deploymentName"]))
  else if len roleName =? 0 then
    Ret (Some (Errorf paramNotSpecifiedError ["roleName"]))
  else
    let restartRoleOperation := createRestartRoleOperation in
    match xml_Marshal (DocRestartRoleOperation restartRoleOperation) with
    | Err err => Ret (Some err)
    | Ok restartRoleOperationBytes =>
        let requestURL :=
          Sprintf azureOperationsURL [cloudserviceName; deploymentName; roleName] in
        r <- perform (sendAzurePostRequest requestURL restartRoleOperationBytes) ;;
        match r with
        | Err azureErr => Ret (Some azureErr)
        | Ok requestId =>
            _ <- perform (waitAsyncOperation requestId) ;;
            Ret None
        end
    end.

Definition DeleteRole (cloudserviceName deploymentName roleName : string)
  : Prog (option error) :=
  if len cloudserviceName =? 0 then
    Ret (Some (Errorf paramNotSpecifiedError ["cloudserviceName"]))
  else if len deploymentName =? 0 then
    Ret (Some (Errorf paramNotSpecifiedError ["deploymentName"]))
  else if len roleName =? 0 then
    Ret (Some (Errorf paramNotSpecifiedError ["roleName"]))
  else
    let requestURL :=
      Sprintf azureRoleURL [cloudserviceName; deploymentName; roleName] in
    r <- perform (sendAzureDeleteRequest requestURL) ;;
    match r with
    | Err azureErr => Ret (Some azureErr)
    | Ok requestId =>
        _ <- perform (waitAsyncOperation requestId) ;;
        Ret None
    end.

(** ** Properties *)

(** *** Password validation *)

(** A rune of the password lies in one of the tables. *)
Definition has_class (classes : list RangeTable) (password : string) : Prop :=
  exists r, In r (runes password) /\ IsOneOf classes r = true.

Definition has_upper (password : string) : Prop :=
  has_class [Upper unicode; Title unicode] password.
Definition has_lower (password : string) : Prop :=
  has_class [Lower unicode] password.
Definition has_numeric (password : string) : Prop :=
  has_class [Number unicode; Digit unicode] password.


(** The rule with the length taken in bytes, as [len] does. *)
Definition valid_by_bytes (password : string) : Prop :=
  4 <= len password <= 30
  /\ has_upper password /\ has_lower password /\ has_numeric password.

Lemma has_class_existsb classes password :
  existsb (IsOneOf classes) (runes password) = true <-> has_class classes password.
Proof.
  unfold has_class. rewrite existsb_exists. reflexivity.
Qed.

Lemma Errorf_invalidPasswordError :
  Errorf invalidPasswordError [] = invalidPasswordError.
Proof. reflexivity. Qed.

Lemma Errorf_invalidPasswordLengthError :
  Errorf invalidPasswordLengthError [] = invalidPasswordLengthError.
Proof. reflexivity. Qed.

(** The loop either finds every class or reports the character-class
    error; which class it misses first does not show in the result. *)
Lemma verifyClasses_cases m password :
  (verifyClasses m password = None
   /\ Forall (fun e => has_class (snd e) password) m)
  \/ (verifyClasses m password = Some invalidPasswordError
      /\ ~ Forall (fun e => has_class (snd e) password) m).
Proof.
  induction m as [|[label classes] m IH]; simpl.
  - left. split; [reflexivity | constructor].
  - destruct (existsb (IsOneOf classes) (runes password)) eqn:E.
    + apply has_class_existsb in E.
      destruct IH as [[H1 H2] | [H1 H2]].
      * left. split; [exact H1 | constructor; assumption].
      * right. split; [exact H1 |].
        intros HF. inversion HF; subst. contradiction.
    + right. split; [reflexivity |].
      intros HF. inversion HF as [| ? ? Hc _]; subst. simpl in Hc.
      apply has_class_existsb in Hc. congruence.
Qed.

Lemma Forall_passwordClasses password :
  Forall (fun e => has_class (snd e) password) passwordClasses
  <-> has_upper password /\ has_lower password /\ has_numeric password.
Proof.
  unfold passwordClasses, has_upper, has_lower, has_numeric. split.
  - intros H. inversion H as [| ? ? H1 H']; subst.
    inversion H' as [| ? ? H2 H'']; subst.
    inversion H'' as [| ? ? H3 _]; subst. auto.
  - intros (H1 & H2 & H3). repeat constructor; assumption.
Qed.


Lemma verifyPassword_length_error password :
  len password < 4 \/ 30 < len password ->
  verifyPassword password = Some invalidPasswordLengthError.
Proof.
  intros H. unfold verifyPassword, verifyPassword_in.
  replace ((len password <? 4) || (30 <? len password)) with true; [reflexivity |].
  symmetry. apply orb_true_iff.
  destruct H; [left; apply Z.ltb_lt | right; apply Z.ltb_lt]; assumption.
Qed.

Lemma verifyPassword_in_range password :
  4 <= len password <= 30 ->
  verifyPassword password = verifyClasses passwordClasses password.
Proof.
  intros H. unfold verifyPassword, verifyPassword_in.
  replace ((len password <? 4) || (30 <? len password)) with false; [reflexivity |].
  symmetry. apply orb_false_iff. split; apply Z.ltb_ge; lia.
Qed.

Lemma verifyPassword_None_iff password :
  verifyPassword password = None <-> valid_by_bytes password.
Proof.
  unfold valid_by_bytes. split.
  - intros H.
    assert (Hlen : 4 <= len password <= 30).
    { destruct (Z_lt_dec (len password) 4) as [Hlt | Hge].
      - rewrite verifyPassword_length_error in H by auto. discriminate.
      - destruct (Z_lt_dec 30 (len password)) as [Hlt | Hge'].
        + rewrite verifyPassword_length_error in H by auto. discriminate.
        + lia. }
    split; [exact Hlen |].
    rewrite verifyPassword_in_range in H by exact Hlen.
    destruct (verifyClasses_cases passwordClasses password) as [[H1 H2] | [H1 H2]].
    + apply Forall_passwordClasses. exact H2.
    + congruence.
  - intros (Hlen & Hc).
    rewrite verifyPassword_in_range by exact Hlen.
    destruct (verifyClasses_cases passwordClasses password) as [[H1 H2] | [H1 H2]].
    + exact H1.
    + exfalso. apply H2. apply Forall_passwordClasses. exact Hc.
Qed.


Lemma ascii_faithful_spec t r :
  ascii_faithful t = true -> 0 <= r < 128 ->
  IsOneOf [Upper t; Title t] r = between 0x41 r 0x5A
  /\ IsOneOf [Lower t] r = between 0x61 r 0x7A
  /\ IsOneOf [Number t; Digit t] r = between 0x30 r 0x39.
Proof.
  intros H Hr. unfold ascii_faithful in H.
  rewrite forallb_forall in H.
  specialize (H (Z.to_nat r)).
  rewrite Z2Nat.id in H by lia.
  assert (Hin : In (Z.to_nat r) (seq 0 128)) by (apply in_seq; lia).
  apply H in Hin.
  apply andb_true_iff in Hin. destruct Hin as [Hin H3].
  apply andb_true_iff in Hin. destruct Hin as [H1 H2].
  apply eqb_prop in H1, H2, H3. auto.
Qed.




(** *** Reasoning about runs *)

Section Runs.
Variable World : Type.
Variable handle : forall c : call, World -> reply c * World.

Lemma run_bind {A B : Type} (p : Prog A) (f : A -> Prog B) (w : World) :
  run handle (bind p f) w =
  let '(a, tr1, w1) := run handle p w in
  let '(b, tr2, w2) := run handle (f a) w1 in
  (b, (tr1 ++ tr2)%list, w2).
Proof.
  revert w. induction p as [a | c k IH]; intros w; simpl.
  - destruct (run handle (f a) w) as [[b tr2] w2]. reflexivity.
  - destruct (handle c w) as [r w1]. rewrite IH.
    destruct (run handle (k r) w1) as [[a tr1] w1'].
    destruct (run handle (f a) w1') as [[b tr2] w2]. reflexivity.
Qed.

Lemma run_perform (c : call) (w : World) :
  run handle (perform c) w =
  (fst (handle c w), [Event c (fst (handle c w))], snd (handle c w)).
Proof.
  unfold perform. simpl. destruct (handle c w). reflexivity.
Qed.

(** A program that never issues [DeleteHostedService]. *)
Inductive no_delete {A : Type} : Prog A -> Prop :=
| nd_Ret (a : A) : no_delete (Ret a)
| nd_Do (c : call) (k : reply c -> Prog A) :
    (forall d, c <> DeleteHostedService d) ->
    (forall r, no_delete (k r)) ->
    no_delete (Do c k).

Lemma no_delete_bind {A B : Type} (p : Prog A) (f : A -> Prog B) :
  no_delete p -> (forall a, no_delete (f a)) -> no_delete (bind p f).
Proof.
  intros Hp Hf. induction Hp as [a | c k Hc Hk IH]; simpl.
  - apply Hf.
  - constructor; assumption.
Qed.

Lemma no_delete_deletions {A : Type} (p : Prog A) :
  no_delete p -> forall w, deletions (calls handle p w) = 0%nat.
Proof.
  unfold deletions, calls.
  induction 1 as [a | c k Hc Hk IH]; intros w; simpl.
  - reflexivity.
  - destruct (handle c w) as [r w1]. specialize (IH r w1).
    destruct (run handle (k r) w1) as [[a tr] w2]. simpl in *.
    unfold is_DeleteHostedService at 1. simpl.
    destruct c; try exact IH. exfalso. eapply Hc. reflexivity.
Qed.

(** *** VM creation: compensation after a failed certificate upload *)

Lemma createServiceCertDeploymentConf_no_delete certPath :
  no_delete (createServiceCertDeploymentConf certPath).
Proof.
  unfold createServiceCertDeploymentConf, perform. simpl.
  constructor; [discriminate |].
  intros [data | err]; constructor.
Qed.

Lemma uploadServiceCert_no_delete dnsName certPath :
  no_delete (uploadServiceCert dnsName certPath).
Proof.
  unfold uploadServiceCert.
  apply no_delete_bind; [apply createServiceCertDeploymentConf_no_delete |].
  intros [certificateConfig [err |]]; [constructor |].
  destruct (xml_Marshal (DocServiceCertificate certificateConfig)) as [b | err];
    [| constructor].
  unfold perform. simpl. constructor; [discriminate |].
  intros [requestId | azureErr]; [| constructor].
  simpl. constructor; [discriminate |]. intros r. constructor.
Qed.

Lemma verifyDNSname_ok dns :
  3 <= len dns <= 25 -> verifyDNSname dns = None.
Proof.
  intros H. unfold verifyDNSname.
  replace ((len dns <? 3) || (25 <? len dns)) with false; [reflexivity |].
  symmetry. apply orb_false_iff. split; apply Z.ltb_ge; lia.
Qed.

(** C3.  When the hosted service has been created and the certificate
    upload then fails with [e], [CreateAzureVM] issues the deletion of
    that hosted service exactly once, as its last call, and returns [e]
    itself. *)
Theorem cert_upload_failure_compensated_once
    role dnsName location w requestId w1 verdict w2 e :
  3 <= len dnsName <= 25 ->
  len location <> 0 ->
  Role.UseCertAuth role = true ->
  handle (CreateHostedService dnsName location "") w = (Ok requestId, w1) ->
  handle (waitAsyncOperation requestId) w1 = (verdict, w2) ->
  returned handle (uploadServiceCert dnsName (Role.CertPath role)) w2 = Some e ->
  returned handle (CreateAzureVM (Some role) dnsName location) w = Some e
  /\ deletions (calls handle (CreateAzureVM (Some role) dnsName location) w) = 1%nat
  /\ exists before r,
       calls handle (CreateAzureVM (Some role) dnsName location) w
       = (before ++ [Event (DeleteHostedService dnsName) r])%list.
Proof.
  intros Hdns Hloc Hcert Hcreate Hwait Hupload.
  pose proof (no_delete_deletions (uploadServiceCert dnsName (Role.CertPath role))
                (uploadServiceCert_no_delete _ _) w2) as Hnd.
  unfold returned, calls in *.
  unfold CreateAzureVM.
  replace (len dnsName =? 0) with false by (symmetry; apply Z.eqb_neq; lia).
  replace (len location =? 0) with false by (symmetry; apply Z.eqb_neq; lia).
  rewrite (verifyDNSname_ok _ Hdns). rewrite Hcert.
  remember (uploadServiceCert dnsName (Role.CertPath role)) as upload.
  simpl. rewrite Hcreate. simpl. rewrite Hwait.
  rewrite run_bind.
  destruct (run handle upload w2) as [[err tr] w3].
  simpl in Hupload, Hnd. subst err. simpl.
  destruct (handle (DeleteHostedService dnsName) w3) as [r w4]. simpl.
  split; [reflexivity |]. split.
  - unfold deletions in *. simpl.
    rewrite filter_app, length_app, Hnd. reflexivity.
  - exists (Event (CreateHostedService dnsName location "") (Ok requestId)
            :: Event (waitAsyncOperation requestId) verdict :: tr), r.
    reflexivity.
Qed.

(** *** The tracker's verdict is not looked at *)

(** Whatever the tracker says about the creation of the hosted service,
    and about the deployment, [CreateAzureVM] on a role without certificate
    returns [nil] once both requests have been accepted. *)
Lemma CreateAzureVM_ignores_verdicts
    role dnsName location w requestId w1 verdict w2 vMDeploymentBytes
    requestId' w3 verdict' w4 :
  3 <= len dnsName <= 25 ->
  len location <> 0 ->
  Role.UseCertAuth role = false ->
  handle (CreateHostedService dnsName location "") w = (Ok requestId, w1) ->
  handle (waitAsyncOperation requestId) w1 = (verdict, w2) ->
  xml_Marshal (DocVMDeployment (createVMDeploymentConfig role)) = Ok vMDeploymentBytes ->
  handle (sendAzurePostRequest (Sprintf azureDeploymentListURL [Role.RoleName role])
            vMDeploymentBytes) w2 = (Ok requestId', w3) ->
  handle (waitAsyncOperation requestId') w3 = (verdict', w4) ->
  returned handle (CreateAzureVM (Some role) dnsName location) w = None.
Proof.
  intros Hdns Hloc Hcert Hcreate Hwait Hxml Hpost Hwait'.
  unfold returned, CreateAzureVM, perform.
  replace (len dnsName =? 0) with false by (symmetry; apply Z.eqb_neq; lia).
  replace (len location =? 0) with false by (symmetry; apply Z.eqb_neq; lia).
  rewrite (verifyDNSname_ok _ Hdns), Hcert, Hxml.
  cbn [bind run]. rewrite Hcreate. cbn [bind run]. rewrite Hwait.
  cbn [bind run]. rewrite Hpost. cbn [bind run]. rewrite Hwait'.
  reflexivity.
Qed.

(** The same for the role operations: once the request is accepted the
    method returns [nil], whatever the tracker says. *)
Lemma DeleteRole_ignores_verdict
    cloudserviceName deploymentName roleName w requestId w1 verdict w2 :
  len cloudserviceName <> 0 -> len deploymentName <> 0 -> len roleName <> 0 ->
  handle (sendAzureDeleteRequest
            (Sprintf azureRoleURL [cloudserviceName; deploymentName; roleName])) w
  = (Ok requestId, w1) ->
  handle (waitAsyncOperation requestId) w1 = (verdict, w2) ->
  returned handle (DeleteRole cloudserviceName deploymentName roleName) w = None.
Proof.
  intros Hc Hd Hr Hsend Hwait.
  unfold returned, DeleteRole, perform.
  replace (len cloudserviceName =? 0) with false by (symmetry; apply Z.eqb_neq; lia).
  replace (len deploymentName =? 0) with false by (symmetry; apply Z.eqb_neq; lia).
  replace (len roleName =? 0) with false by (symmetry; apply Z.eqb_neq; lia).
  cbn [bind run]. rewrite Hsend. cbn [bind run]. rewrite Hwait. reflexivity.
Qed.

Ltac role_operation Hc Hd Hr Hxml Hpost Hwait :=
  unfold returned, perform;
  match goal with
  | |- context [len ?c =? 0] =>
      replace (len c =? 0) with false by (symmetry; apply Z.eqb_neq; lia)
  end;
  repeat match goal with
  | |- context [len ?c =? 0] =>
      replace (len c =? 0) with false by (symmetry; apply Z.eqb_neq; lia)
  end;
  cbv zeta; rewrite Hxml; cbn [bind run]; rewrite Hpost; cbn [bind run];
  rewrite Hwait; reflexivity.

Lemma StartRole_ignores_verdict
    cloudserviceName deploymentName roleName w operationBytes requestId w1
    verdict w2 :
  len cloudserviceName <> 0 -> len deploymentName <> 0 -> len roleName <> 0 ->
  xml_Marshal (DocStartRoleOperation createStartRoleOperation) = Ok operationBytes ->
  handle (sendAzurePostRequest
            (Sprintf azureOperationsURL [cloudserviceName; deploymentName; roleName])
            operationBytes) w
  = (Ok requestId, w1) ->
  handle (waitAsyncOperation requestId) w1 = (verdict, w2) ->
  returned handle (StartRole cloudserviceName deploymentName roleName) w = None.
Proof.
  intros Hc Hd Hr Hxml Hpost Hwait. unfold StartRole.
  role_operation Hc Hd Hr Hxml Hpost Hwait.
Qed.

Lemma ShutdownRole_ignores_verdict
    cloudserviceName deploymentName roleName w operationBytes requestId w1
    verdict w2 :
  len cloudserviceName <> 0 -> len deploymentName <> 0 -> len roleName <> 0 ->
  xml_Marshal (DocShutdownRoleOperation createShutdowRoleOperation)
  = Ok operationBytes ->
  handle (sendAzurePostRequest
            (Sprintf azureOperationsURL [cloudserviceName; deploymentName; roleName])
            operationBytes) w
  = (Ok requestId, w1) ->
  handle (waitAsyncOperation requestId) w1 = (verdict, w2) ->
  returned handle (ShutdownRole cloudserviceName deploymentName roleName) w = None.
Proof.
  intros Hc Hd Hr Hxml Hpost Hwait. unfold ShutdownRole.
  role_operation Hc Hd Hr Hxml Hpost Hwait.
Qed.

Lemma RestartRole_ignores_verdict
    cloudserviceName deploymentName roleName w operationBytes requestId w1
    verdict w2 :
  len cloudserviceName <> 0 -> len deploymentName <> 0 -> len roleName <> 0 ->
  xml_Marshal (DocRestartRoleOperation createRestartRoleOperation)
  = Ok operationBytes ->
  handle (sendAzurePostRequest
            (Sprintf azureOperationsURL [cloudserviceName; deploymentName; roleName])
            operationBytes) w
  = (Ok requestId, w1) ->
  handle (waitAsyncOperation requestId) w1 = (verdict, w2) ->
  returned handle (RestartRole cloudserviceName deploymentName roleName) w = None.
Proof.
  intros Hc Hd Hr Hxml Hpost Hwait. unfold RestartRole.
  role_operation Hc Hd Hr Hxml Hpost Hwait.
Qed.

(** The certificate upload does hand the verdict on. *)
Lemma uploadServiceCert_hands_verdict_on
    dnsName certPath w data w1 certificateConfigBytes requestId w2 verdict w3 :
  handle (ReadFile certPath) w = (Ok data, w1) ->
  xml_Marshal (DocServiceCertificate
                 (ServiceCertificate.mk azureXmlns (base64_EncodeToString data) "pfx"))
  = Ok certificateConfigBytes ->
  handle (sendAzurePostRequest (Sprintf azureCertificatListURL [dnsName])
            certificateConfigBytes) w1
  = (Ok requestId, w2) ->
  handle (waitAsyncOperation requestId) w2 = (verdict, w3) ->
  returned handle (uploadServiceCert dnsName certPath) w = verdict.
Proof.
  intros Hread Hxml Hpost Hwait.
  unfold returned, uploadServiceCert, createServiceCertDeploymentConf, perform.
  cbn [bind run]. rewrite Hread. cbn [bind run]. rewrite Hxml.
  cbn [bind run]. rewrite Hpost. cbn [bind run]. rewrite Hwait. reflexivity.
Qed.

(** *** VM creation: what becomes of a failed compensation *)

(** A program in which every [DeleteHostedService] is the last call and
    is followed by the return of an error fixed before the call: the
    reply to the deletion is not looked at. *)
Inductive deletes_last : Prog (option error) -> Prop :=
| dl_Ret (a : option error) : deletes_last (Ret a)
| dl_Delete (d : string) (k : option error -> Prog (option error)) (e : error) :
    (forall r, k r = Ret (Some e)) ->
    deletes_last (Do (DeleteHostedService d) k)
| dl_Do (c : call) (k : reply c -> Prog (option error)) :
    (forall d, c <> DeleteHostedService d) ->
    (forall r, deletes_last (k r)) ->
    deletes_last (Do c k).

Lemma deletes_last_bind {A : Type} (p : Prog A) (f : A -> Prog (option error)) :
  no_delete p -> (forall a, deletes_last (f a)) -> deletes_last (bind p f).
Proof.
  intros Hp Hf. induction Hp as [a | c k Hc Hk IH]; simpl.
  - apply Hf.
  - apply dl_Do; assumption.
Qed.

Lemma CreateAzureVM_deletes_last azureVMConfiguration dnsName location :
  deletes_last (CreateAzureVM azureVMConfiguration dnsName location).
Proof.
  unfold CreateAzureVM.
  destruct azureVMConfiguration as [role |]; [| constructor].
  destruct (len dnsName =? 0); [constructor |].
  destruct (len location =? 0); [constructor |].
  destruct (verifyDNSname dnsName); [constructor |].
  unfold perform. cbn [bind].
  apply dl_Do; [discriminate |]. intros [requestId | err]; [| constructor].
  apply dl_Do; [discriminate |]. intros verdict.
  match goal with
  | |- deletes_last (if _ then _ else ?deploy) =>
      assert (Hdeploy : deletes_last deploy)
  end.
  { destruct (xml_Marshal (DocVMDeployment (createVMDeploymentConfig role)))
      as [b | err]; cbn [bind].
    - apply dl_Do; [discriminate |]. intros [requestId0 | err].
      + apply dl_Do; [discriminate |]. intros r. constructor.
      + apply dl_Delete with (e := err). reflexivity.
    - apply dl_Delete with (e := err). reflexivity. }
  destruct (Role.UseCertAuth role); [| exact Hdeploy].
  apply deletes_last_bind; [apply uploadServiceCert_no_delete |].
  intros [err |]; [| exact Hdeploy].
  apply dl_Delete with (e := err). reflexivity.
Qed.

Lemma deletes_last_outcome (handle' : forall c : call, World -> reply c * World) p :
  deletes_last p ->
  (forall c w, (forall d, c <> DeleteHostedService d) -> handle' c w = handle c w) ->
  forall w,
    returned handle' p w = returned handle p w
    /\ (deletions (calls handle p w) <> 0%nat -> returned handle p w <> None).
Proof.
  intros Hp Hagree. unfold returned, calls, deletions.
  induction Hp as [a | d k e Hk | c k Hc Hk IH]; intros w; simpl.
  - split; [reflexivity |]. intros H. congruence.
  - destruct (handle' (DeleteHostedService d) w) as [r' w1'].
    destruct (handle (DeleteHostedService d) w) as [r w1].
    rewrite !Hk. simpl. split; [reflexivity | discriminate].
  - rewrite (Hagree c w Hc).
    destruct (handle c w) as [r w1]. specialize (IH r w1).
    destruct (run handle' (k r) w1) as [[a' tr'] w2'].
    destruct (run handle (k r) w1) as [[a tr] w2]. simpl in *.
    destruct IH as [IH1 IH2]. split; [exact IH1 |].
    unfold is_DeleteHostedService at 1. simpl.
    destruct c; try exact IH2. exfalso. eapply Hc. reflexivity.
Qed.

(** *** Certificate fingerprint *)

(** An upper-case hexadecimal digit. *)
Definition is_upper_hex (c : ascii) : bool :=
  existsb (Ascii.eqb c) (list_ascii_of_string udigits).

Lemma sha1_Sum_length data : length (sha1_Sum data) = 20%nat.
Proof.
  unfold sha1_Sum.
  destruct (fold_left sha1_block _ sha1_init) as [[[[h0 h1] h2] h3] h4].
  rewrite length_map. reflexivity.
Qed.

Lemma SprintfX_length b : String.length (SprintfX b) = (2 * length b)%nat.
Proof.
  induction b as [| x b IH]; simpl; [reflexivity |].
  rewrite IH. lia.
Qed.

Lemma SprintfX_upper_hex b :
  forallb is_upper_hex (list_ascii_of_string (SprintfX b)) = true.
Proof.
  induction b as [| x b IH]; [reflexivity |].
  cbn [SprintfX list_ascii_of_string forallb]. rewrite IH.
  destruct x; reflexivity.
Qed.

(** C7.  When the file is read and its contents decode as PEM, the
    fingerprint is the SHA-1 digest of the block's bytes printed with
    [%X]: forty upper-case hexadecimal digits and nothing else.  It is a
    function of the file contents alone: any other run, in any world, that
    reads the same contents computes the same string. *)
Theorem fingerprint_is_sha1_upper_hex certPath w certData w1 block rest :
  handle (ReadFile certPath) w = (Ok certData, w1) ->
  pem_Decode certData = (Some block, rest) ->
  let fingerprint := SprintfX (sha1_Sum (Block.Bytes block)) in
  returned handle (getServiceCertFingerprint certPath) w = (fingerprint, None)
  /\ String.length fingerprint = 40%nat
  /\ forallb is_upper_hex (list_ascii_of_string fingerprint) = true
  /\ forall (World' : Type) (handle' : forall c : call, World' -> reply c * World')
            certPath' w' w1',
       handle' (ReadFile certPath') w' = (Ok certData, w1') ->
       returned handle' (getServiceCertFingerprint certPath') w'
       = returned handle (getServiceCertFingerprint certPath) w.
Proof.
  intros Hread Hpem fingerprint.
  assert (Hrun : forall (W : Type) (h : forall c : call, W -> reply c * W) path v v1,
             h (ReadFile path) v = (Ok certData, v1) ->
             returned h (getServiceCertFingerprint path) v = (fingerprint, None)).
  { intros W h path v v1 Hr. unfold returned, getServiceCertFingerprint, perform.
    simpl. rewrite Hr. simpl. rewrite Hpem. reflexivity. }
  split; [eapply Hrun; eassumption |].
  split; [unfold fingerprint; rewrite SprintfX_length, sha1_Sum_length; reflexivity |].
  split; [apply SprintfX_upper_hex |].
  intros World' handle' certPath' w' w1' Hread'.
  rewrite (Hrun _ _ _ _ _ Hread'). symmetry. eapply Hrun; eassumption.
Qed.

(** *** Instance size against the location *)

Lemma size_absent (sizes : list string) (instanceSize : string) :
  ~ In instanceSize sizes ->
  existsb (fun availableRoleSize => String.eqb availableRoleSize instanceSize) sizes
  = false.
Proof.
  intros Hn. apply not_true_is_false. intros H.
  apply existsb_exists in H. destruct H as (x & Hin & Heq).
  apply String.eqb_eq in Heq. subst x. contradiction.
Qed.

(** C8.  When [CreateAzureVMConfiguration] is given a DNS name of 3 to 25
    bytes and a size, an image name and a location that are not empty, and
    the location lookup answers with a location whose size list lacks the
    requested size, the method returns no role and the error "Role size:
    <size> not available in location: <location>.", and the lookup is the
    only call the run makes: the image is not resolved, no storage service
    is looked up or created, no role is built. *)
Theorem absent_size_fails_before_creation
    dnsName instanceSize imageName location w locationInfo w1 :
  3 <= len dnsName <= 25 ->
  len instanceSize <> 0 ->
  len imageName <> 0 ->
  len location <> 0 ->
  handle (GetLocation location) w = (Ok locationInfo, w1) ->
  ~ In instanceSize (Location.VirtualMachineRoleSizes locationInfo) ->
  returned handle
    (CreateAzureVMConfiguration dnsName instanceSize imageName location) w
  = (None, Some (Errorf invalidRoleSizeInLocationError [instanceSize; location]))
  /\ Errorf invalidRoleSizeInLocationError [instanceSize; location]
     = "Role size: " ++ instanceSize ++ " not available in location: "
         ++ location ++ "."
  /\ calls handle
       (CreateAzureVMConfiguration dnsName instanceSize imageName location) w
     = [Event (GetLocation location) (Ok locationInfo)].
Proof.
  intros Hdns Hsize Himage Hlocation Hlookup Habsent.
  unfold returned, calls, CreateAzureVMConfiguration.
  replace (len dnsName =? 0) with false by (symmetry; apply Z.eqb_neq; lia).
  replace (len instanceSize =? 0) with false by (symmetry; apply Z.eqb_neq; lia).
  replace (len imageName =? 0) with false by (symmetry; apply Z.eqb_neq; lia).
  replace (len location =? 0) with false by (symmetry; apply Z.eqb_neq; lia).
  rewrite (verifyDNSname_ok _ Hdns).
  unfold perform. cbn [bind run]. rewrite Hlookup.
  unfold isInstanceSizeAvailableInLocation.
  replace (len instanceSize =? 0) with false by (symmetry; apply Z.eqb_neq; lia).
  rewrite (size_absent _ _ Habsent). cbn [Bool.eqb run fst snd].
  repeat split; reflexivity.
Qed.

(** *** Disk media link *)

(** The last leg: ask for the blob endpoint of the service, then form the
    link from it, the DNS name and the local time. *)
Inductive derive_run (dnsName : string) (storageService : option StorageService)
  : trace -> string * option error -> Prop :=
| endpoint_failed (e : error) :
    derive_run dnsName storageService
      [Event (GetBlobEndpoint storageService) (Err e)] ("", Some e)
| link_formed (blobEndpoint now : string) :
    derive_run dnsName storageService
      [Event (GetBlobEndpoint storageService) (Ok blobEndpoint);
       Event (Now_Format "20060102150405") now]
      (blobEndpoint ++ "vhds/" ++ dnsName ++ "-" ++ now ++ ".vhd", None).

(** The runs the design allows: look up, create if absent under a name
    made of "portalvhds" and a fresh UUID, only then derive the link. *)
Inductive media_link_run (dnsName location : string)
  : trace -> string * option error -> Prop :=
| lookup_failed (e : error) :
    media_link_run dnsName location
      [Event (GetStorageServiceByLocation location) (Err e)] ("", Some e)
| found_existing (s : StorageService) tr out :
    derive_run dnsName (Some s) tr out ->
    media_link_run dnsName location
      (Event (GetStorageServiceByLocation location) (Ok (Some s)) :: tr) out
| uuid_failed (e : error) :
    media_link_run dnsName location
      [Event (GetStorageServiceByLocation location) (Ok None);
       Event newUUID (Err e)] ("", Some e)
| create_failed (uuid : string) (e : error) :
    media_link_run dnsName location
      [Event (GetStorageServiceByLocation location) (Ok None);
       Event newUUID (Ok uuid);
       Event (CreateStorageService ("portalvhds" ++ uuid) location) (Err e)]
      ("", Some e)
| created (uuid : string) (storageService : option StorageService) tr out :
    derive_run dnsName storageService tr out ->
    media_link_run dnsName location
      (Event (GetStorageServiceByLocation location) (Ok None)
       :: Event newUUID (Ok uuid)
       :: Event (CreateStorageService ("portalvhds" ++ uuid) location)
            (Ok storageService)
       :: tr) out.




(** *** Linux provisioning configuration *)

(** The configuration sets of a role by kind. *)
Definition provisioning_sets (role : Role.t) : list ConfigurationSet.t :=
  filter (fun c => String.eqb (ConfigurationSet.ConfigurationSetType c)
                     "LinuxProvisioningConfiguration")
    (Role.ConfigurationSets role).
Definition network_sets (role : Role.t) : list ConfigurationSet.t :=
  filter (fun c => String.eqb (ConfigurationSet.ConfigurationSetType c)
                     "NetworkConfiguration")
    (Role.ConfigurationSets role).

(** The hard-wired password is one the validator would accept. *)
Lemma placeholder_valid :
  ascii_faithful unicode = true -> verifyPassword "P@ssword1" = None.
Proof.
  intros HF. apply verifyPassword_None_iff. unfold valid_by_bytes.
  split; [vm_compute; split; discriminate |].
  repeat split.
  - exists 80. split; [vm_compute; tauto |].
    apply (ascii_faithful_spec unicode 80 HF). lia.
  - exists 115. split; [vm_compute; tauto |].
    apply (ascii_faithful_spec unicode 115 HF). lia.
  - exists 49. split; [vm_compute; tauto |].
    apply (ascii_faithful_spec unicode 49 HF). lia.
Qed.

(** With an empty password the method does not branch on the validator. *)
Lemma createLinuxProvisioningConfig_empty dnsName userName certPath :
  createLinuxProvisioningConfig dnsName userName "" certPath =
  if 0 <? len certPath then
    r <- createSshConfig certPath userName ;;
    match snd r with
    | Some err =>
        Ret (ConfigurationSet.mk "LinuxProvisioningConfiguration" dnsName userName
               "P@ssword1" true (fst r) [], Some err)
    | None =>
        Ret (ConfigurationSet.mk "LinuxProvisioningConfiguration" dnsName userName
               "P@ssword1" true (fst r) [], None)
    end
  else
    Ret (ConfigurationSet.mk "LinuxProvisioningConfiguration" dnsName userName
           "P@ssword1" true SSH.zero [], None).
Proof. reflexivity. Qed.

Lemma empty_password_fields dnsName userName certPath w :
  let out :=
    returned handle (createLinuxProvisioningConfig dnsName userName "" certPath) w in
  ConfigurationSet.DisableSshPasswordAuthentication (fst out) = true
  /\ ConfigurationSet.UserPassword (fst out) = "P@ssword1"
  /\ (len certPath = 0 -> snd out = None).
Proof.
  rewrite createLinuxProvisioningConfig_empty. unfold returned.
  destruct (0 <? len certPath) eqn:Hc.
  - rewrite run_bind.
    destruct (run handle (createSshConfig certPath userName) w) as [[[ssh err] tr] w1].
    apply Z.ltb_lt in Hc.
    destruct err; cbn; repeat split; intros; lia.
  - cbn. repeat split.
Qed.

(** A configuration returned without error is a Linux provisioning set. *)
Lemma createLinuxProvisioningConfig_type dnsName userName userPassword certPath w :
  let out :=
    returned handle
      (createLinuxProvisioningConfig dnsName userName userPassword certPath) w in
  snd out = None ->
  ConfigurationSet.ConfigurationSetType (fst out) = "LinuxProvisioningConfiguration".
Proof.
  unfold returned, createLinuxProvisioningConfig.
  assert (Hfill : forall disable pw,
    let p :=
      if 0 <? len certPath then
        r <- createSshConfig certPath userName ;;
        match snd r with
        | Some err =>
            Ret (ConfigurationSet.mk "LinuxProvisioningConfiguration" dnsName userName
                   pw disable (fst r) [], Some err)
        | None =>
            Ret (ConfigurationSet.mk "LinuxProvisioningConfiguration" dnsName userName
                   pw disable (fst r) [], None)
        end
      else
        Ret (ConfigurationSet.mk "LinuxProvisioningConfiguration" dnsName userName
               pw disable SSH.zero [], None) in
    ConfigurationSet.ConfigurationSetType (fst (fst (fst (run handle p w))))
    = "LinuxProvisioningConfiguration").
  { intros disable pw. cbv zeta.
    destruct (0 <? len certPath); [| reflexivity].
    rewrite run_bind.
    destruct (run handle (createSshConfig certPath userName) w) as [[[ssh err] tr] w1].
    destruct err; reflexivity. }
  cbv zeta.
  destruct (len userPassword =? 0); [intros _; apply Hfill |].
  destruct (verifyPassword userPassword); [cbn; discriminate |].
  intros _. apply Hfill.
Qed.

(** C10.  A call of [AddAzureLinuxProvisioningConfig] that returns no
    error returns the pointer it was given, and the role behind it then
    has exactly two configuration sets, a [LinuxProvisioningConfiguration]
    followed by a [NetworkConfiguration], whatever sets it had before; so
    it has one provisioning set and one network set, also after repeated
    calls.  No other role of the store changes. *)
Theorem AddAzureLinuxProvisioningConfig_replaces_sets
    h azureVMConfiguration userName password certPath sshPort w h' p' :
  returned handle
    (AddAzureLinuxProvisioningConfig h azureVMConfiguration userName password
       certPath sshPort) w
  = (h', (p', None)) ->
  exists a provisioningConfig networkConfig,
    azureVMConfiguration = Some a /\ p' = Some a
    /\ Role.ConfigurationSets (h' a) = [provisioningConfig; networkConfig]
    /\ ConfigurationSet.ConfigurationSetType provisioningConfig
       = "LinuxProvisioningConfiguration"
    /\ ConfigurationSet.ConfigurationSetType networkConfig = "NetworkConfiguration"
    /\ provisioning_sets (h' a) = [provisioningConfig]
    /\ network_sets (h' a) = [networkConfig]
    /\ (forall a', a' <> a -> h' a' = h a').
Proof.
  unfold returned, AddAzureLinuxProvisioningConfig.
  destruct azureVMConfiguration as [a |]; [| cbn; discriminate].
  destruct (len userName =? 0); [cbn; discriminate |].
  rewrite run_bind.
  pose proof (createLinuxProvisioningConfig_type (Role.RoleName (h a)) userName
                password certPath w) as Htype.
  unfold returned in Htype. cbv zeta in Htype.
  destruct (run handle
              (createLinuxProvisioningConfig (Role.RoleName (h a)) userName
                 password certPath) w) as [[[prov err] tr] w1].
  cbn [fst snd] in Htype.
  destruct err as [e |]; [cbn; discriminate |].
  specialize (Htype eq_refl).
  cbn. intros H. injection H as <- <-.
  eexists a, prov, _.
  repeat split.
  - unfold store. rewrite Nat.eqb_refl.
    destruct (0 <? len certPath); reflexivity.
  - exact Htype.
  - reflexivity.
  - unfold provisioning_sets, store. rewrite Nat.eqb_refl.
    assert (Hsets : forall r : Role.t,
               Role.ConfigurationSets r
               = [prov; ConfigurationSet.mk "NetworkConfiguration" "" "" "" false
                          SSH.zero [createEndpoint "ssh" "tcp" sshPort 22]] ->
               filter (fun c => String.eqb (ConfigurationSet.ConfigurationSetType c)
                                  "LinuxProvisioningConfiguration")
                 (Role.ConfigurationSets r) = [prov]).
    { intros r ->. cbn. rewrite Htype. reflexivity. }
    apply Hsets. destruct (0 <? len certPath); reflexivity.
  - unfold network_sets, store. rewrite Nat.eqb_refl.
    assert (Hsets : forall r : Role.t,
               Role.ConfigurationSets r
               = [prov; ConfigurationSet.mk "NetworkConfiguration" "" "" "" false
                          SSH.zero [createEndpoint "ssh" "tcp" sshPort 22]] ->
               filter (fun c => String.eqb (ConfigurationSet.ConfigurationSetType c)
                                  "NetworkConfiguration")
                 (Role.ConfigurationSets r)
               = [ConfigurationSet.mk "NetworkConfiguration" "" "" "" false
                    SSH.zero [createEndpoint "ssh" "tcp" sshPort 22]]).
    { intros r ->. cbn. rewrite Htype. reflexivity. }
    apply Hsets. destruct (0 <? len certPath); reflexivity.
  - intros a' Ha. unfold store.
    destruct (Nat.eqb_spec a' a); [contradiction | reflexivity].
Qed.

(** *** More on runs *)

Lemma calls_Do {A : Type} (c : call) (k : reply c -> Prog A) (w : World) :
  calls handle (Do c k) w
  = Event c (fst (handle c w))
      :: calls handle (k (fst (handle c w))) (snd (handle c w)).
Proof.
  unfold calls. simpl. destruct (handle c w) as [r w1]. simpl.
  destruct (run handle (k r) w1) as [[a tr] w2]. reflexivity.
Qed.

Lemma returned_Do {A : Type} (c : call) (k : reply c -> Prog A) (w : World) :
  returned handle (Do c k) w
  = returned handle (k (fst (handle c w))) (snd (handle c w)).
Proof.
  unfold returned. simpl. destruct (handle c w) as [r w1]. simpl.
  destruct (run handle (k r) w1) as [[a tr] w2]. reflexivity.
Qed.

Lemma deletions_app (tr1 tr2 : trace) :
  deletions (tr1 ++ tr2)%list = (deletions tr1 + deletions tr2)%nat.
Proof.
  unfold deletions. rewrite filter_app, length_app. reflexivity.
Qed.

(** *** VM creation: argument checks, compensation, success *)

(** X1.  [CreateAzureVM] makes no call at all exactly when its arguments
    are refused: a [nil] role, a DNS name shorter than 3 or longer than 25
    bytes, or an empty location; and a run without a call returns an error. *)
Theorem CreateAzureVM_refuses_without_call azureVMConfiguration dnsName location w :
  (calls handle (CreateAzureVM azureVMConfiguration dnsName location) w = []
   <-> azureVMConfiguration = None \/ len dnsName < 3 \/ 25 < len dnsName
       \/ len location = 0)
  /\ (calls handle (CreateAzureVM azureVMConfiguration dnsName location) w = [] ->
      returned handle (CreateAzureVM azureVMConfiguration dnsName location) w <> None).
Proof.
  unfold CreateAzureVM.
  destruct azureVMConfiguration as [role |];
    [| split; [split; [intros _; left; reflexivity | reflexivity] | discriminate]].
  destruct (Z.eqb_spec (len dnsName) 0) as [Hd | Hd];
    [split; [split; [intros _; right; left; lia | reflexivity] | discriminate] |].
  destruct (Z.eqb_spec (len location) 0) as [Hl | Hl];
    [split; [split; [intros _; auto | reflexivity] | discriminate] |].
  unfold verifyDNSname.
  destruct (Z.ltb_spec (len dnsName) 3) as [H3 | H3]; cbn [orb];
    [split; [split; [intros _; auto | reflexivity] | discriminate] |].
  destruct (Z.ltb_spec 25 (len dnsName)) as [H25 | H25];
    [split; [split; [intros _; auto | reflexivity] | discriminate] |].
  unfold perform. cbn [bind]. rewrite calls_Do.
  split; [split |]; try discriminate.
  intros [H | [H | [H | H]]]; [discriminate | lia | lia | lia].
Qed.

(** A program whose only deletions are of the hosted service [dnsName],
    each as the last call. *)
Inductive compensates (dnsName : string) : Prog (option error) -> Prop :=
| cp_Ret (a : option error) : compensates dnsName (Ret a)
| cp_Delete (k : option error -> Prog (option error)) (e : error) :
    (forall r, k r = Ret (Some e)) ->
    compensates dnsName (Do (DeleteHostedService dnsName) k)
| cp_Do (c : call) (k : reply c -> Prog (option error)) :
    (forall d, c <> DeleteHostedService d) ->
    (forall r, compensates dnsName (k r)) ->
    compensates dnsName (Do c k).

Lemma compensates_bind {A : Type} dnsName (p : Prog A) (f : A -> Prog (option error)) :
  no_delete p -> (forall a, compensates dnsName (f a)) -> compensates dnsName (bind p f).
Proof.
  intros Hp Hf. induction Hp as [a | c k Hc Hk IH]; simpl.
  - apply Hf.
  - apply cp_Do; assumption.
Qed.

Lemma CreateAzureVM_compensates azureVMConfiguration dnsName location :
  compensates dnsName (CreateAzureVM azureVMConfiguration dnsName location).
Proof.
  unfold CreateAzureVM.
  destruct azureVMConfiguration as [role |]; [| constructor].
  destruct (len dnsName =? 0); [constructor |].
  destruct (len location =? 0); [constructor |].
  destruct (verifyDNSname dnsName); [constructor |].
  unfold perform. cbn [bind].
  apply cp_Do; [discriminate |]. intros [requestId | err]; [| constructor].
  apply cp_Do; [discriminate |]. intros verdict.
  match goal with
  | |- compensates _ (if _ then _ else ?deploy) =>
      assert (Hdeploy : compensates dnsName deploy)
  end.
  { destruct (xml_Marshal (DocVMDeployment (createVMDeploymentConfig role)))
      as [b | err]; cbn [bind].
    - apply cp_Do; [discriminate |]. intros [requestId0 | err].
      + apply cp_Do; [discriminate |]. intros r. constructor.
      + apply cp_Delete with (e := err). reflexivity.
    - apply cp_Delete with (e := err). reflexivity. }
  destruct (Role.UseCertAuth role); [| exact Hdeploy].
  apply compensates_bind; [apply uploadServiceCert_no_delete |].
  intros [err |]; [| exact Hdeploy].
  apply cp_Delete with (e := err). reflexivity.
Qed.

Lemma compensates_once dnsName p :
  compensates dnsName p ->
  forall w,
    (deletions (calls handle p w) = 0%nat
     \/ deletions (calls handle p w) = 1%nat
        /\ exists before r,
             calls handle p w = (before ++ [Event (DeleteHostedService dnsName) r])%list
             /\ deletions before = 0%nat).
Proof.
  induction 1 as [a | k e Hk | c k Hc Hk IH]; intros w.
  - left. reflexivity.
  - right. rewrite calls_Do, Hk. split; [reflexivity |].
    exists [], (fst (handle (DeleteHostedService dnsName) w)). split; reflexivity.
  - rewrite calls_Do.
    assert (Hhead : forall tr,
               deletions (Event c (fst (handle c w)) :: tr) = deletions tr).
    { intros tr. unfold deletions. simpl. unfold is_DeleteHostedService at 1. simpl.
      destruct c; try reflexivity. exfalso. eapply Hc. reflexivity. }
    rewrite Hhead.
    destruct (IH (fst (handle c w)) (snd (handle c w)))
      as [H0 | (H1 & before & r & Heq & Hb)].
    + left. exact H0.
    + right. split; [exact H1 |].
      exists (Event c (fst (handle c w)) :: before), r.
      rewrite Heq. split; [reflexivity |]. rewrite Hhead. exact Hb.
Qed.

(** X2.  In every run of [CreateAzureVM] the hosted service is deleted at
    most once, and when it is, the deletion is the last call of the run and
    names the very service the run was asked to create. *)
Theorem CreateAzureVM_deletes_at_most_once azureVMConfiguration dnsName location w :
  let tr := calls handle (CreateAzureVM azureVMConfiguration dnsName location) w in
  (deletions tr <= 1)%nat
  /\ (deletions tr = 1%nat ->
      exists before r,
        tr = (before ++ [Event (DeleteHostedService dnsName) r])%list
        /\ deletions before = 0%nat).
Proof.
  cbv zeta.
  destruct (compensates_once dnsName _
              (CreateAzureVM_compensates azureVMConfiguration dnsName location) w)
    as [H0 | (H1 & Hlast)].
  - rewrite H0. split; [lia | discriminate].
  - rewrite H1. split; [lia | intros _; exact Hlast].
Qed.

(** The last stage of [CreateAzureVM]: marshal the deployment, post it,
    wait; delete the hosted service if the document cannot be marshalled
    or the request is refused. *)
Definition submitDeployment (role : Role.t) (dnsName : string) : Prog (option error) :=
  match xml_Marshal (DocVMDeployment (createVMDeploymentConfig role)) with
  | Err err =>
      _ <- perform (DeleteHostedService dnsName) ;;
      Ret (Some err)
  | Ok vMDeploymentBytes =>
      r <- perform (sendAzurePostRequest
                      (Sprintf azureDeploymentListURL [Role.RoleName role])
                      vMDeploymentBytes) ;;
      match r with
      | Err err =>
          _ <- perform (DeleteHostedService dnsName) ;;
          Ret (Some err)
      | Ok requestId =>
          _ <- perform (waitAsyncOperation requestId) ;;
          Ret None
      end
  end.

(** [CreateAzureVM] once its arguments are accepted. *)
Lemma CreateAzureVM_stages role dnsName location :
  3 <= len dnsName <= 25 -> len location <> 0 ->
  CreateAzureVM (Some role) dnsName location =
  Do (CreateHostedService dnsName location "")
     (fun r =>
        match r with
        | Err err => Ret (Some err)
        | Ok requestId =>
            Do (waitAsyncOperation requestId)
               (fun _ =>
                  if Role.UseCertAuth role then
                    err <- uploadServiceCert dnsName (Role.CertPath role) ;;
                    match err with
                    | Some _ => _ <- perform (DeleteHostedService dnsName) ;; Ret err
                    | None => submitDeployment role dnsName
                    end
                  else submitDeployment role dnsName)
        end).
Proof.
  intros Hdns Hloc. unfold CreateAzureVM.
  replace (len dnsName =? 0) with false by (symmetry; apply Z.eqb_neq; lia).
  replace (len location =? 0) with false by (symmetry; apply Z.eqb_neq; lia).
  rewrite (verifyDNSname_ok _ Hdns). reflexivity.
Qed.

(** The three ways the last stage can go. *)
Lemma submitDeployment_run role dnsName w :
  (exists vMDeploymentBytes requestId verdict,
     xml_Marshal (DocVMDeployment (createVMDeploymentConfig role))
     = Ok vMDeploymentBytes
     /\ returned handle (submitDeployment role dnsName) w = None
     /\ calls handle (submitDeployment role dnsName) w
        = [ Event (sendAzurePostRequest
                     (Sprintf azureDeploymentListURL [Role.RoleName role])
                     vMDeploymentBytes) (Ok requestId);
            Event (waitAsyncOperation requestId) verdict ])
  \/ (exists vMDeploymentBytes e r,
        xml_Marshal (DocVMDeployment (createVMDeploymentConfig role))
        = Ok vMDeploymentBytes
        /\ returned handle (submitDeployment role dnsName) w = Some e
        /\ calls handle (submitDeployment role dnsName) w
           = [ Event (sendAzurePostRequest
                        (Sprintf azureDeploymentListURL [Role.RoleName role])
                        vMDeploymentBytes) (Err e);
               Event (DeleteHostedService dnsName) r ])
  \/ (exists e r,
        xml_Marshal (DocVMDeployment (createVMDeploymentConfig role)) = Err e
        /\ returned handle (submitDeployment role dnsName) w = Some e
        /\ calls handle (submitDeployment role dnsName) w
           = [ Event (DeleteHostedService dnsName) r ]).
Proof.
  unfold submitDeployment, perform.
  destruct (xml_Marshal (DocVMDeployment (createVMDeploymentConfig role)))
    as [b | e]; cbn [bind].
  - rewrite calls_Do, returned_Do.
    destruct (handle (sendAzurePostRequest
                        (Sprintf azureDeploymentListURL [Role.RoleName role]) b) w)
      as [[requestId | e] w1]; cbn [fst snd].
    + left. exists b, requestId, (fst (handle (waitAsyncOperation requestId) w1)).
      rewrite calls_Do, returned_Do. repeat split.
    + right. left. exists b, e, (fst (handle (DeleteHostedService dnsName) w1)).
      rewrite calls_Do, returned_Do. repeat split.
  - right. right. exists e, (fst (handle (DeleteHostedService dnsName) w)).
    rewrite calls_Do, returned_Do. repeat split.
Qed.

Lemma calls_bind {A B : Type} (p : Prog A) (f : A -> Prog B) (w : World) :
  calls handle (bind p f) w
  = (calls handle p w
       ++ calls handle (f (returned handle p w)) (snd (run handle p w)))%list.
Proof.
  unfold calls, returned. rewrite run_bind.
  destruct (run handle p w) as [[a tr1] w1]. simpl.
  destruct (run handle (f a) w1) as [[b tr2] w2]. reflexivity.
Qed.

Lemma returned_bind {A B : Type} (p : Prog A) (f : A -> Prog B) (w : World) :
  returned handle (bind p f) w
  = returned handle (f (returned handle p w)) (snd (run handle p w)).
Proof.
  unfold returned. rewrite run_bind.
  destruct (run handle p w) as [[a tr1] w1]. simpl.
  destruct (run handle (f a) w1) as [[b tr2] w2]. reflexivity.
Qed.

Lemma CreateAzureVM_refuses_args azureVMConfiguration dnsName location :
  (forall w,
     returned handle (CreateAzureVM azureVMConfiguration dnsName location) w = None ->
     False)
  \/ exists role,
       azureVMConfiguration = Some role /\ 3 <= len dnsName <= 25
       /\ len location <> 0.
Proof.
  unfold CreateAzureVM.
  destruct azureVMConfiguration as [role |]; [| left; discriminate].
  destruct (Z.eqb_spec (len dnsName) 0) as [Hd | Hd]; [left; discriminate |].
  destruct (Z.eqb_spec (len location) 0) as [Hl | Hl]; [left; discriminate |].
  unfold verifyDNSname.
  destruct (Z.ltb_spec (len dnsName) 3) as [H3 | H3]; cbn [orb];
    [left; discriminate |].
  destruct (Z.ltb_spec 25 (len dnsName)) as [H25 | H25]; [left; discriminate |].
  right. exists role. repeat split; assumption.
Qed.

(** *** VM creation: what a compensated run returns *)

(** The certificate stage of [CreateAzureVM] from the world [w2] it
    starts in: the calls it makes and the error it ends with.  A role
    without certificate has none. *)
Definition upload_stage (role : Role.t) (dnsName : string) (w2 : World)
  : trace * option error :=
  if Role.UseCertAuth role then
    (calls handle (uploadServiceCert dnsName (Role.CertPath role)) w2,
     returned handle (uploadServiceCert dnsName (Role.CertPath role)) w2)
  else ([], None).

(** What makes [CreateAzureVM] compensate: the calls made after the wait
    on the hosted service, up to the failure, and the error of the step
    that failed.  It is the certificate upload; or, the upload done if
    there is one, the marshalling of the deployment or its post. *)
Inductive compensation_cause (role : Role.t) (dnsName : string) (w2 : World)
  : trace -> error -> Prop :=
| certificate_not_uploaded (tr : trace) (e : error) :
    upload_stage role dnsName w2 = (tr, Some e) ->
    compensation_cause role dnsName w2 tr e
| deployment_not_marshalled (tr : trace) (e : error) :
    upload_stage role dnsName w2 = (tr, None) ->
    xml_Marshal (DocVMDeployment (createVMDeploymentConfig role)) = Err e ->
    compensation_cause role dnsName w2 tr e
| deployment_not_accepted (tr : trace) (vMDeploymentBytes : bytes) (e : error) :
    upload_stage role dnsName w2 = (tr, None) ->
    xml_Marshal (DocVMDeployment (createVMDeploymentConfig role))
    = Ok vMDeploymentBytes ->
    compensation_cause role dnsName w2
      (tr ++ [Event (sendAzurePostRequest
                       (Sprintf azureDeploymentListURL [Role.RoleName role])
                       vMDeploymentBytes) (Err e)])%list
      e.

Lemma deletions_cons (c : call) (r : reply c) (tr : trace) :
  (forall d, c <> DeleteHostedService d) ->
  deletions (Event c r :: tr) = deletions tr.
Proof.
  intros Hc. unfold deletions. simpl. unfold is_DeleteHostedService at 1. simpl.
  destruct c; try reflexivity. exfalso. eapply Hc. reflexivity.
Qed.

(** The last stage, when it deletes. *)
Lemma submitDeployment_cause role dnsName w3 :
  deletions (calls handle (submitDeployment role dnsName) w3) <> 0%nat ->
  exists r e,
    returned handle (submitDeployment role dnsName) w3 = Some e
    /\ (xml_Marshal (DocVMDeployment (createVMDeploymentConfig role)) = Err e
        /\ calls handle (submitDeployment role dnsName) w3
           = [Event (DeleteHostedService dnsName) r]
        \/ exists vMDeploymentBytes,
             xml_Marshal (DocVMDeployment (createVMDeploymentConfig role))
             = Ok vMDeploymentBytes
             /\ calls handle (submitDeployment role dnsName) w3
                = [ Event (sendAzurePostRequest
                             (Sprintf azureDeploymentListURL [Role.RoleName role])
                             vMDeploymentBytes) (Err e);
                    Event (DeleteHostedService dnsName) r ]).
Proof.
  destruct (submitDeployment_run role dnsName w3)
    as [(b & requestId & verdict & Hx & Hr & Hc)
       | [(b & e & r & Hx & Hr & Hc) | (e & r & Hx & Hr & Hc)]];
    rewrite Hc, Hr; intros Hdel.
  - exfalso. apply Hdel. reflexivity.
  - exists r, e. split; [reflexivity |]. right. exists b. split; [exact Hx | reflexivity].
  - exists r, e. split; [reflexivity |]. left. split; [exact Hx | reflexivity].
Qed.

(** A run of [CreateAzureVM] that deletes the hosted service has created
    it first, ends with the deletion, and returns the error of the step
    that failed in between. *)
Lemma CreateAzureVM_compensation_cause azureVMConfiguration dnsName location w :
  deletions (calls handle (CreateAzureVM azureVMConfiguration dnsName location) w)
  <> 0%nat ->
  exists role requestId w1 verdict w2 between r e,
    azureVMConfiguration = Some role
    /\ handle (CreateHostedService dnsName location "") w = (Ok requestId, w1)
    /\ handle (waitAsyncOperation requestId) w1 = (verdict, w2)
    /\ compensation_cause role dnsName w2 between e
    /\ calls handle (CreateAzureVM azureVMConfiguration dnsName location) w
       = (Event (CreateHostedService dnsName location "") (Ok requestId)
          :: Event (waitAsyncOperation requestId) verdict
          :: between ++ [Event (DeleteHostedService dnsName) r])%list
    /\ returned handle (CreateAzureVM azureVMConfiguration dnsName location) w
       = Some e.
Proof.
  intros Hdel.
  assert (Hargs : exists role,
             azureVMConfiguration = Some role /\ 3 <= len dnsName <= 25
             /\ len location <> 0).
  { revert Hdel. unfold CreateAzureVM.
    destruct azureVMConfiguration as [role |];
      [| intros H; exfalso; apply H; reflexivity].
    destruct (Z.eqb_spec (len dnsName) 0) as [Hd | Hd];
      [intros H; exfalso; apply H; reflexivity |].
    destruct (Z.eqb_spec (len location) 0) as [Hl | Hl];
      [intros H; exfalso; apply H; reflexivity |].
    unfold verifyDNSname.
    destruct (Z.ltb_spec (len dnsName) 3) as [H3 | H3]; cbn [orb];
      [intros H; exfalso; apply H; reflexivity |].
    destruct (Z.ltb_spec 25 (len dnsName)) as [H25 | H25];
      [intros H; exfalso; apply H; reflexivity |].
    intros _. exists role. split; [reflexivity |]. split; [lia | exact Hl]. }
  destruct Hargs as (role & -> & Hdns & Hloc).
  revert Hdel. rewrite (CreateAzureVM_stages role dnsName location Hdns Hloc).
  rewrite calls_Do, returned_Do.
  destruct (handle (CreateHostedService dnsName location "") w)
    as [[requestId | e0] w1] eqn:Hcreate; cbn [fst snd];
    [| intros H; exfalso; apply H; reflexivity].
  rewrite calls_Do, returned_Do.
  destruct (handle (waitAsyncOperation requestId) w1) as [verdict w2] eqn:Hwait.
  cbn [fst snd]. rewrite !deletions_cons by discriminate.
  intros Hdel.
  enough (Hrest : exists between r e,
             compensation_cause role dnsName w2 between e
             /\ calls handle
                  (if Role.UseCertAuth role
                   then err <- uploadServiceCert dnsName (Role.CertPath role) ;;
                        match err with
                        | Some _ => _ <- perform (DeleteHostedService dnsName) ;; Ret err
                        | None => submitDeployment role dnsName
                        end
                   else submitDeployment role dnsName) w2
                = (between ++ [Event (DeleteHostedService dnsName) r])%list
             /\ returned handle
                  (if Role.UseCertAuth role
                   then err <- uploadServiceCert dnsName (Role.CertPath role) ;;
                        match err with
                        | Some _ => _ <- perform (DeleteHostedService dnsName) ;; Ret err
                        | None => submitDeployment role dnsName
                        end
                   else submitDeployment role dnsName) w2
                = Some e).
  { destruct Hrest as (between & r & e & Hcause & Hcalls & Hret).
    exists role, requestId, w1, verdict, w2, between, r, e.
    rewrite Hcalls, Hret. repeat split; assumption. }
  revert Hdel.
  destruct (Role.UseCertAuth role) eqn:Hcert.
  - rewrite calls_bind, returned_bind.
    destruct (returned handle (uploadServiceCert dnsName (Role.CertPath role)) w2)
      as [e |] eqn:Hup.
    + intros _. unfold perform. cbn [bind]. rewrite calls_Do, returned_Do.
      exists (calls handle (uploadServiceCert dnsName (Role.CertPath role)) w2),
        (fst (handle (DeleteHostedService dnsName)
                (snd (run handle
                        (uploadServiceCert dnsName (Role.CertPath role)) w2)))),
        e.
      split; [| split; reflexivity].
      apply certificate_not_uploaded. unfold upload_stage. rewrite Hcert, Hup.
      reflexivity.
    + rewrite deletions_app.
      rewrite (no_delete_deletions _ (uploadServiceCert_no_delete _ _)).
      intros Hdel.
      destruct (submitDeployment_cause role dnsName _ Hdel)
        as (r & e & Hr & [(Hx & Hc) | (b & Hx & Hc)]); rewrite Hc, Hr.
      * exists (calls handle (uploadServiceCert dnsName (Role.CertPath role)) w2),
          r, e.
        split; [| split; reflexivity].
        apply deployment_not_marshalled; [| exact Hx].
        unfold upload_stage. rewrite Hcert, Hup. reflexivity.
      * exists (calls handle (uploadServiceCert dnsName (Role.CertPath role)) w2
                  ++ [Event (sendAzurePostRequest
                               (Sprintf azureDeploymentListURL [Role.RoleName role])
                               b) (Err e)])%list,
          r, e.
        split; [| split; [rewrite <- app_assoc; reflexivity | reflexivity]].
        apply deployment_not_accepted; [| exact Hx].
        unfold upload_stage. rewrite Hcert, Hup. reflexivity.
  - intros Hdel.
    destruct (submitDeployment_cause role dnsName _ Hdel)
      as (r & e & Hr & [(Hx & Hc) | (b & Hx & Hc)]); rewrite Hc, Hr.
    + exists [], r, e. split; [| split; reflexivity].
      apply deployment_not_marshalled; [| exact Hx].
      unfold upload_stage. rewrite Hcert. reflexivity.
    + exists ([] ++ [Event (sendAzurePostRequest
                             (Sprintf azureDeploymentListURL [Role.RoleName role])
                             b) (Err e)])%list,
        r, e.
      split; [| split; reflexivity].
      apply deployment_not_accepted; [| exact Hx].
      unfold upload_stage. rewrite Hcert. reflexivity.
Qed.

(** C4 (amended).  Whenever [CreateAzureVM] issues the compensating
    deletion, it has created the hosted service, the deletion is its last
    call, and it returns the error of the step that failed in between: the
    error of the certificate upload, of the marshalling of the deployment
    or of the refused deployment request.  What it returns does not depend
    on how the deletion itself went: a world that answers the deletion
    differently, and every other call alike, gets the same return value.
    The failure of the compensation never takes the place of the error
    that triggered it, and it is not passed on to the caller. *)
Theorem compensation_outcome_not_returned
    (handle' : forall c : call, World -> reply c * World)
    azureVMConfiguration dnsName location w :
  (forall c w, (forall d, c <> DeleteHostedService d) -> handle' c w = handle c w) ->
  returned handle' (CreateAzureVM azureVMConfiguration dnsName location) w
  = returned handle (CreateAzureVM azureVMConfiguration dnsName location) w
  /\ (deletions (calls handle (CreateAzureVM azureVMConfiguration dnsName location) w)
      <> 0%nat ->
      exists role requestId w1 verdict w2 between r e,
        azureVMConfiguration = Some role
        /\ handle (CreateHostedService dnsName location "") w = (Ok requestId, w1)
        /\ handle (waitAsyncOperation requestId) w1 = (verdict, w2)
        /\ compensation_cause role dnsName w2 between e
        /\ calls handle (CreateAzureVM azureVMConfiguration dnsName location) w
           = (Event (CreateHostedService dnsName location "") (Ok requestId)
              :: Event (waitAsyncOperation requestId) verdict
              :: between ++ [Event (DeleteHostedService dnsName) r])%list
        /\ returned handle (CreateAzureVM azureVMConfiguration dnsName location) w
           = Some e
        /\ returned handle' (CreateAzureVM azureVMConfiguration dnsName location) w
           = Some e).
Proof.
  intros Hagree.
  destruct (deletes_last_outcome handle' _
              (CreateAzureVM_deletes_last azureVMConfiguration dnsName location)
              Hagree w) as [Hsame _].
  split; [exact Hsame |]. intros Hdel.
  destruct (CreateAzureVM_compensation_cause azureVMConfiguration dnsName location w
              Hdel)
    as (role & requestId & w1 & verdict & w2 & between & r & e
        & Hcfg & Hcreate & Hwait & Hcause & Hcalls & Hret).
  exists role, requestId, w1, verdict, w2, between, r, e.
  repeat split; try assumption. rewrite Hsame. exact Hret.
Qed.

(** X3.  [CreateAzureVM] returns [nil] only after the hosted service
    request and the deployment request have both been accepted: the run
    starts with the creation of the hosted service, ends with the post of
    the marshalled deployment to the deployment list of the role's name and
    the wait on its request id, and deletes nothing. *)
Theorem CreateAzureVM_success_means_deployed azureVMConfiguration dnsName location w :
  returned handle (CreateAzureVM azureVMConfiguration dnsName location) w = None ->
  exists role vMDeploymentBytes requestId between requestId' verdict,
    azureVMConfiguration = Some role
    /\ xml_Marshal (DocVMDeployment (createVMDeploymentConfig role))
       = Ok vMDeploymentBytes
    /\ calls handle (CreateAzureVM azureVMConfiguration dnsName location) w
       = (Event (CreateHostedService dnsName location "") (Ok requestId)
          :: between
          ++ [ Event (sendAzurePostRequest
                        (Sprintf azureDeploymentListURL [Role.RoleName role])
                        vMDeploymentBytes) (Ok requestId');
               Event (waitAsyncOperation requestId') verdict ])%list
    /\ deletions (calls handle (CreateAzureVM azureVMConfiguration dnsName location) w)
       = 0%nat.
Proof.
  intros Hnil.
  assert (Hdel : deletions
            (calls handle (CreateAzureVM azureVMConfiguration dnsName location) w)
          = 0%nat).
  { destruct (deletes_last_outcome handle _
                (CreateAzureVM_deletes_last azureVMConfiguration dnsName location)
                (fun c w _ => eq_refl) w) as [_ H].
    destruct (Nat.eq_dec
                (deletions
                   (calls handle
                      (CreateAzureVM azureVMConfiguration dnsName location) w)) 0)
      as [H0 | H0]; [exact H0 |].
    exfalso. exact (H H0 Hnil). }
  revert Hnil Hdel.
  destruct (CreateAzureVM_refuses_args azureVMConfiguration dnsName location)
    as [Hbad | (role & -> & Hdns & Hloc)].
  { intros Hnil. exfalso. apply Hbad in Hnil. exact Hnil. }
  rewrite (CreateAzureVM_stages role dnsName location Hdns Hloc).
  rewrite calls_Do, returned_Do.
  destruct (handle (CreateHostedService dnsName location "") w)
    as [[requestId | e] w1]; cbn [fst snd]; [| discriminate].
  rewrite calls_Do, returned_Do.
  set (verdict := fst (handle (waitAsyncOperation requestId) w1)).
  set (w2 := snd (handle (waitAsyncOperation requestId) w1)).
  assert (Hlast : forall w3,
             returned handle (submitDeployment role dnsName) w3 = None ->
             exists b requestId' verdict',
               xml_Marshal (DocVMDeployment (createVMDeploymentConfig role)) = Ok b
               /\ calls handle (submitDeployment role dnsName) w3
                  = [ Event (sendAzurePostRequest
                               (Sprintf azureDeploymentListURL [Role.RoleName role]) b)
                        (Ok requestId');
                      Event (waitAsyncOperation requestId') verdict' ]).
  { intros w3 H.
    destruct (submitDeployment_run role dnsName w3)
      as [(b & r' & v' & Hx & _ & Hc)
         | [(b & e & r & _ & Hr & _) | (e & r & _ & Hr & _)]];
      [| congruence | congruence].
    exists b, r', v'. split; assumption. }
  destruct (Role.UseCertAuth role).
  - rewrite calls_bind, returned_bind.
    destruct (returned handle (uploadServiceCert dnsName (Role.CertPath role)) w2)
      as [e |].
    + unfold perform. cbn [bind]. rewrite returned_Do. discriminate.
    + intros Hnil Hdel.
      destruct (Hlast _ Hnil) as (b & r' & v' & Hx & Hc).
      exists role, b, requestId,
        (Event (waitAsyncOperation requestId) verdict
           :: calls handle (uploadServiceCert dnsName (Role.CertPath role)) w2),
        r', v'.
      rewrite Hc. repeat split; try assumption;
        try (rewrite Hc in Hdel; exact Hdel).
  - intros Hnil Hdel.
    destruct (Hlast _ Hnil) as (b & r' & v' & Hx & Hc).
    exists role, b, requestId, [Event (waitAsyncOperation requestId) verdict], r', v'.
    rewrite Hc. repeat split; try assumption;
      try (rewrite Hc in Hdel; exact Hdel).
Qed.

Lemma submitDeployment_fails role dnsName w e :
  xml_Marshal (DocVMDeployment (createVMDeploymentConfig role)) = Err e
  \/ (exists vMDeploymentBytes,
        xml_Marshal (DocVMDeployment (createVMDeploymentConfig role))
        = Ok vMDeploymentBytes
        /\ fst (handle (sendAzurePostRequest
                          (Sprintf azureDeploymentListURL [Role.RoleName role])
                          vMDeploymentBytes) w) = Err e) ->
  returned handle (submitDeployment role dnsName) w = Some e
  /\ deletions (calls handle (submitDeployment role dnsName) w) = 1%nat.
Proof.
  unfold submitDeployment, perform.
  intros [Hx | (b & Hx & Hpost)]; rewrite Hx; cbn [bind].
  - rewrite calls_Do, returned_Do. split; reflexivity.
  - rewrite calls_Do, returned_Do, Hpost.
    rewrite calls_Do, returned_Do. split; reflexivity.
Qed.

(** X4.  When the hosted service has been created, the certificate upload
    (if the role asks for one) has gone through, and then the deployment
    document cannot be marshalled or its post is refused with [e],
    [CreateAzureVM] deletes the hosted service once and returns [e]. *)
Theorem deployment_failure_compensated_once
    role dnsName location w requestId w1 verdict w2 e :
  3 <= len dnsName <= 25 ->
  len location <> 0 ->
  handle (CreateHostedService dnsName location "") w = (Ok requestId, w1) ->
  handle (waitAsyncOperation requestId) w1 = (verdict, w2) ->
  (Role.UseCertAuth role = true ->
   returned handle (uploadServiceCert dnsName (Role.CertPath role)) w2 = None) ->
  let w3 :=
    if Role.UseCertAuth role
    then snd (run handle (uploadServiceCert dnsName (Role.CertPath role)) w2)
    else w2 in
  xml_Marshal (DocVMDeployment (createVMDeploymentConfig role)) = Err e
  \/ (exists vMDeploymentBytes,
        xml_Marshal (DocVMDeployment (createVMDeploymentConfig role))
        = Ok vMDeploymentBytes
        /\ fst (handle (sendAzurePostRequest
                          (Sprintf azureDeploymentListURL [Role.RoleName role])
                          vMDeploymentBytes) w3) = Err e) ->
  returned handle (CreateAzureVM (Some role) dnsName location) w = Some e
  /\ deletions (calls handle (CreateAzureVM (Some role) dnsName location) w) = 1%nat.
Proof.
  intros Hdns Hloc Hcreate Hwait Hupload w3 Hfail.
  rewrite (CreateAzureVM_stages role dnsName location Hdns Hloc).
  rewrite calls_Do, returned_Do, Hcreate. cbn [fst snd].
  rewrite calls_Do, returned_Do, Hwait. cbn [fst snd].
  destruct (submitDeployment_fails role dnsName w3 e Hfail) as [Hr Hd].
  assert (Hcons : forall c (r : reply c) tr,
             (forall d, c <> DeleteHostedService d) ->
             deletions (Event c r :: tr) = deletions tr).
  { intros c r tr Hc. unfold deletions. simpl.
    unfold is_DeleteHostedService at 1. simpl.
    destruct c; try reflexivity. exfalso. eapply Hc. reflexivity. }
  rewrite !Hcons by discriminate.
  subst w3. destruct (Role.UseCertAuth role).
  - rewrite calls_bind, returned_bind, (Hupload eq_refl).
    rewrite deletions_app.
    rewrite (no_delete_deletions _ (uploadServiceCert_no_delete _ _)).
    split; assumption.
  - split; assumption.
Qed.

(** *** Building the role configuration *)

Lemma getVHDMediaLink_run dnsName location w :
  media_link_run dnsName location
    (calls handle (getVHDMediaLink dnsName location) w)
    (returned handle (getVHDMediaLink dnsName location) w).
Proof.
  unfold getVHDMediaLink, perform. cbn [bind].
  rewrite calls_Do, returned_Do.
  destruct (handle (GetStorageServiceByLocation location) w) as [[[s |] | e] w1];
    cbn [fst snd bind].
  - apply found_existing. rewrite calls_Do, returned_Do.
    destruct (handle (GetBlobEndpoint (Some s)) w1) as [[ep | e] w2];
      cbn [fst snd bind].
    + rewrite calls_Do, returned_Do. apply link_formed.
    + apply endpoint_failed.
  - rewrite calls_Do, returned_Do.
    destruct (handle newUUID w1) as [[uuid | e] w2]; cbn [fst snd bind].
    + rewrite calls_Do, returned_Do.
      destruct (handle (CreateStorageService ("portalvhds" ++ uuid) location) w2)
        as [[s' | e] w3]; cbn [fst snd bind].
      * apply created. rewrite calls_Do, returned_Do.
        destruct (handle (GetBlobEndpoint s') w3) as [[ep | e] w4];
          cbn [fst snd bind].
        -- rewrite calls_Do, returned_Do. apply link_formed.
        -- apply endpoint_failed.
      * apply create_failed.
    + apply uuid_failed.
  - apply lookup_failed.
Qed.

(** The first of the named parameters that is empty, in the order in
    which they are checked. *)
Fixpoint first_missing (params : list (string * string)) : option string :=
  match params with
  | [] => None
  | (name, value) :: rest =>
      if len value =? 0 then Some name else first_missing rest
  end.

Ltac first_missing_known :=
  cbn [first_missing];
  repeat match goal with
         | H : (len ?v =? 0) = _ |- context [len ?v =? 0] => rewrite H
         end;
  try reflexivity.

(** The parameters of [CreateAzureVMConfiguration], and when they pass
    its checks: none is empty and the DNS name has 3 to 25 bytes. *)
Definition configuration_arguments (dnsName instanceSize imageName location : string)
  : list (string * string) :=
  [ ("dnsName", dnsName); ("instanceSize", instanceSize);
    ("imageName", imageName); ("location", location) ].

Definition arguments_accepted (dnsName instanceSize imageName location : string)
  : Prop :=
  first_missing (configuration_arguments dnsName instanceSize imageName location)
  = None
  /\ 3 <= len dnsName <= 25.

(** The runs of [CreateAzureVMConfiguration]: arguments first, then the
    location and the size against it, then the image, and only then the
    storage service and the disk link.  A call is made only with accepted
    arguments. *)
Inductive configuration_run (dnsName instanceSize imageName location : string)
  : trace -> option Role.t * option error -> Prop :=
| argument_missing (name : string) :
    first_missing (configuration_arguments dnsName instanceSize imageName location)
    = Some name ->
    configuration_run dnsName instanceSize imageName location []
      (None, Some (Errorf paramNotSpecifiedError [name]))
| dns_name_refused :
    first_missing (configuration_arguments dnsName instanceSize imageName location)
    = None ->
    len dnsName < 3 \/ 25 < len dnsName ->
    configuration_run dnsName instanceSize imageName location []
      (None, Some (Errorf invalidDnsLengthError []))
| location_unknown (e : error) :
    arguments_accepted dnsName instanceSize imageName location ->
    configuration_run dnsName instanceSize imageName location
      [Event (GetLocation location) (Err e)] (None, Some e)
| size_not_offered (locationInfo : Location.t) :
    arguments_accepted dnsName instanceSize imageName location ->
    ~ In instanceSize (Location.VirtualMachineRoleSizes locationInfo) ->
    configuration_run dnsName instanceSize imageName location
      [Event (GetLocation location) (Ok locationInfo)]
      (None, Some (Errorf invalidRoleSizeInLocationError [instanceSize; location]))
| image_unknown (locationInfo : Location.t) (e : error) :
    arguments_accepted dnsName instanceSize imageName location ->
    In instanceSize (Location.VirtualMachineRoleSizes locationInfo) ->
    configuration_run dnsName instanceSize imageName location
      [Event (GetLocation location) (Ok locationInfo);
       Event (ResolveImageName imageName) (Some e)]
      (None, Some e)
| link_failed (locationInfo : Location.t) tr (link : string) (e : error) :
    arguments_accepted dnsName instanceSize imageName location ->
    In instanceSize (Location.VirtualMachineRoleSizes locationInfo) ->
    media_link_run dnsName location tr (link, Some e) ->
    configuration_run dnsName instanceSize imageName location
      (Event (GetLocation location) (Ok locationInfo)
       :: Event (ResolveImageName imageName) None :: tr)
      (None, Some e)
| role_built (locationInfo : Location.t) tr (link : string) :
    arguments_accepted dnsName instanceSize imageName location ->
    In instanceSize (Location.VirtualMachineRoleSizes locationInfo) ->
    media_link_run dnsName location tr (link, None) ->
    configuration_run dnsName instanceSize imageName location
      (Event (GetLocation location) (Ok locationInfo)
       :: Event (ResolveImageName imageName) None :: tr)
      (Some (Role.mk dnsName instanceSize "PersistentVMRole" true
               (OSVirtualHardDisk.mk imageName link) [] false ""),
       None).

Lemma size_listed (sizes : list string) (instanceSize : string) :
  existsb (fun availableRoleSize => String.eqb availableRoleSize instanceSize) sizes
  = true ->
  In instanceSize sizes.
Proof.
  intros H. apply existsb_exists in H. destruct H as (x & Hin & Heq).
  apply String.eqb_eq in Heq. subst x. exact Hin.
Qed.

Lemma calls_Ret {A : Type} (a : A) (w : World) : calls handle (Ret a) w = [].
Proof. reflexivity. Qed.

Lemma returned_Ret {A : Type} (a : A) (w : World) : returned handle (Ret a) w = a.
Proof. reflexivity. Qed.

Lemma createOSVirtualHardDisk_run dnsName imageName location w :
  (exists e,
     calls handle (createOSVirtualHardDisk dnsName imageName location) w
     = [Event (ResolveImageName imageName) (Some e)]
     /\ returned handle (createOSVirtualHardDisk dnsName imageName location) w
        = (OSVirtualHardDisk.zero, Some e))
  \/ (exists tr link err,
        calls handle (createOSVirtualHardDisk dnsName imageName location) w
        = Event (ResolveImageName imageName) None :: tr
        /\ media_link_run dnsName location tr (link, err)
        /\ returned handle (createOSVirtualHardDisk dnsName imageName location) w
           = (OSVirtualHardDisk.mk imageName link, err)).
Proof.
  unfold createOSVirtualHardDisk, perform. cbn [bind].
  rewrite calls_Do, returned_Do.
  destruct (handle (ResolveImageName imageName) w) as [[e |] w1]; cbn [fst snd].
  - left. exists e. split; reflexivity.
  - right. rewrite calls_bind, returned_bind.
    pose proof (getVHDMediaLink_run dnsName location w1) as Hlink.
    destruct (returned handle (getVHDMediaLink dnsName location) w1) as [link err].
    rewrite calls_Ret, returned_Ret, app_nil_r.
    exists (calls handle (getVHDMediaLink dnsName location) w1), link, err.
    repeat split. exact Hlink.
Qed.

Lemma configuration_run_holds dnsName instanceSize imageName location w :
  configuration_run dnsName instanceSize imageName location
    (calls handle
       (CreateAzureVMConfiguration dnsName instanceSize imageName location) w)
    (returned handle
       (CreateAzureVMConfiguration dnsName instanceSize imageName location) w).
Proof.
  unfold CreateAzureVMConfiguration.
  destruct (len dnsName =? 0) eqn:Hd;
    [apply argument_missing; unfold configuration_arguments; first_missing_known |].
  destruct (len instanceSize =? 0) eqn:Hs;
    [apply argument_missing; unfold configuration_arguments; first_missing_known |].
  destruct (len imageName =? 0) eqn:Hi;
    [apply argument_missing; unfold configuration_arguments; first_missing_known |].
  destruct (len location =? 0) eqn:Hl;
    [apply argument_missing; unfold configuration_arguments; first_missing_known |].
  assert (Hnone : first_missing
                    (configuration_arguments dnsName instanceSize imageName location)
                  = None)
    by (unfold configuration_arguments; first_missing_known).
  unfold verifyDNSname.
  destruct (Z.ltb_spec (len dnsName) 3) as [H3 | H3]; cbn [orb];
    [apply dns_name_refused; [exact Hnone | lia] |].
  destruct (Z.ltb_spec 25 (len dnsName)) as [H25 | H25];
    [apply dns_name_refused; [exact Hnone | lia] |].
  assert (Hacc : arguments_accepted dnsName instanceSize imageName location)
    by (split; [exact Hnone | lia]).
  unfold perform. cbn [bind]. rewrite calls_Do, returned_Do.
  destruct (handle (GetLocation location) w) as [[locationInfo | e] w1];
    cbn [fst snd]; [| apply location_unknown; exact Hacc].
  unfold isInstanceSizeAvailableInLocation. rewrite Hs.
  destruct (existsb _ (Location.VirtualMachineRoleSizes locationInfo)) eqn:Hsize;
    cbn [Bool.eqb].
  - apply size_listed in Hsize.
    rewrite calls_bind, returned_bind.
    unfold createAzureVMRole. rewrite calls_bind, returned_bind.
    destruct (createOSVirtualHardDisk_run dnsName imageName location w1)
      as [(e & Hc & Hr) | (tr & link & err & Hc & Hlink & Hr)];
      rewrite Hc, Hr.
    + rewrite !calls_Ret, !returned_Ret, !app_nil_r.
      apply image_unknown; assumption.
    + destruct err as [e |];
        rewrite !calls_Ret, !returned_Ret, !app_nil_r.
      * eapply link_failed; eassumption.
      * eapply role_built; eassumption.
  - apply size_not_offered; [exact Hacc |]. intros Hin.
    assert (Ht : existsb
                   (fun availableRoleSize => String.eqb availableRoleSize instanceSize)
                   (Location.VirtualMachineRoleSizes locationInfo) = true).
    { apply existsb_exists. exists instanceSize. split; [exact Hin |].
      apply String.eqb_refl. }
    congruence.
Qed.

(** X5.  Every run of [CreateAzureVMConfiguration] follows the order
    arguments, location, size, image, storage.  With an empty parameter
    it makes no call and its error names the first empty one; with a DNS
    name shorter than 3 or longer than 25 bytes it makes no call either;
    every other run starts with the location lookup.  A failed lookup, a
    size the location does not list or an image that does not resolve
    ends the run before any storage service is looked up or created; and
    a role is returned only at the end of a complete media-link run, with
    the name, size and image it was asked for, type "PersistentVMRole",
    the guest agent on and no configuration sets.  An error always comes
    with a [nil] role. *)
Theorem CreateAzureVMConfiguration_run dnsName instanceSize imageName location w :
  configuration_run dnsName instanceSize imageName location
    (calls handle
       (CreateAzureVMConfiguration dnsName instanceSize imageName location) w)
    (returned handle
       (CreateAzureVMConfiguration dnsName instanceSize imageName location) w).
Proof. exact (configuration_run_holds dnsName instanceSize imageName location w). Qed.

(** X6.  [CreateAzureVMConfiguration] returns either a role and no
    error, or no role and an error.  A returned role has the requested
    name, size and image, type "PersistentVMRole", the guest agent on, no
    configuration sets and no certificate; its size is one the looked-up
    location lists, and its media link is the one a complete media-link
    run for that name and location produced. *)
Theorem CreateAzureVMConfiguration_result dnsName instanceSize imageName location w :
  match returned handle
          (CreateAzureVMConfiguration dnsName instanceSize imageName location) w
  with
  | (Some role, err) =>
      err = None
      /\ role = Role.mk dnsName instanceSize "PersistentVMRole" true
                  (OSVirtualHardDisk.mk imageName
                     (OSVirtualHardDisk.MediaLink (Role.OSVirtualHardDisk role)))
                  [] false ""
      /\ exists locationInfo tr,
           calls handle
             (CreateAzureVMConfiguration dnsName instanceSize imageName location) w
           = Event (GetLocation location) (Ok locationInfo)
               :: Event (ResolveImageName imageName) None :: tr
           /\ In instanceSize (Location.VirtualMachineRoleSizes locationInfo)
           /\ media_link_run dnsName location tr
                (OSVirtualHardDisk.MediaLink (Role.OSVirtualHardDisk role), None)
  | (None, err) => err <> None
  end.
Proof.
  pose proof (configuration_run_holds dnsName instanceSize imageName location w)
    as Hrun.
  remember (calls handle
              (CreateAzureVMConfiguration dnsName instanceSize imageName location) w)
    as tr eqn:Htr.
  remember (returned handle
              (CreateAzureVMConfiguration dnsName instanceSize imageName location) w)
    as out eqn:Hout.
  clear Htr Hout.
  destruct Hrun as [ | | | | | | l tr link Hacc Hin Hlink]; try discriminate.
  split; [reflexivity |]. split; [reflexivity |].
  exists l, tr. repeat split; assumption.
Qed.

(** *** Certificate path and SSH configuration *)

(** [s] holds no separator. *)
Definition unsplit (sep : ascii) (s : string) : Prop :=
  forall q r, s <> q ++ String sep r.

Lemma unsplit_empty sep : unsplit sep "".
Proof. intros [| c q] r H; discriminate H. Qed.

Lemma unsplit_cons sep c s : c <> sep -> unsplit sep s -> unsplit sep (String c s).
Proof.
  intros Hc Hs [| c' q] r H; simpl in H.
  - injection H as H1 _. contradiction.
  - injection H as _ H2. exact (Hs q r H2).
Qed.

Lemma unsplit_tail sep c s : unsplit sep (String c s) -> unsplit sep s.
Proof. intros H q r Heq. apply (H (String c q) r). simpl. rewrite Heq. reflexivity. Qed.

Lemma Split_nonempty s sep : exists piece pieces, Split s sep = piece :: pieces.
Proof.
  destruct s as [| c s]; simpl; [eauto |].
  destruct (Ascii.eqb c sep); [eauto |].
  destruct (Split s sep); eauto.
Qed.

Lemma Split_single s sep piece : Split s sep = [piece] -> s = piece.
Proof.
  revert piece. induction s as [| c s IH]; intros piece H; simpl in H.
  - congruence.
  - destruct (Ascii.eqb c sep).
    + destruct (Split_nonempty s sep) as (p & ps & Hs). rewrite Hs in H. discriminate H.
    + destruct (Split_nonempty s sep) as (p & ps & Hs). rewrite Hs in H.
      injection H as <- ->. rewrite (IH p Hs). reflexivity.
Qed.

Lemma Split_unsplit s sep : unsplit sep s -> Split s sep = [s].
Proof.
  induction s as [| c s IH]; intros H; simpl; [reflexivity |].
  destruct (Ascii.eqb_spec c sep) as [-> | Hc].
  - exfalso. apply (H "" s). reflexivity.
  - rewrite (IH (unsplit_tail _ _ _ H)). reflexivity.
Qed.

(** The last piece holds no separator, and the string is that piece, or
    something, the separator and that piece. *)
Lemma Split_last s sep :
  unsplit sep (last (Split s sep) "")
  /\ (s = last (Split s sep) ""
      \/ exists q, s = q ++ String sep (last (Split s sep) "")).
Proof.
  induction s as [| c s IH].
  - split; [apply unsplit_empty | left; reflexivity].
  - destruct IH as [Hu Hs].
    destruct (Split_nonempty s sep) as (p & ps & Hsplit).
    cbn [Split]. destruct (Ascii.eqb_spec c sep) as [-> | Hc].
    + rewrite Hsplit in *.
      change (last ("" :: p :: ps) "") with (last (p :: ps) "").
      split; [exact Hu |]. right.
      destruct Hs as [Hs | (q & Hs)].
      * exists "". cbn [String.append]. f_equal. exact Hs.
      * exists (String sep q). cbn [String.append]. f_equal. exact Hs.
    + rewrite Hsplit in *. destruct ps as [| p' ps].
      * apply Split_single in Hsplit. subst p.
        change (last [String c s] "") with (String c s).
        split; [| left; reflexivity].
        apply unsplit_cons; [exact Hc | exact Hu].
      * change (last (String c p :: p' :: ps) "") with (last (p :: p' :: ps) "").
        split; [exact Hu |]. right.
        destruct Hs as [Hs | (q & Hs)].
        -- exfalso. rewrite <- Hs in Hu. apply Split_unsplit in Hu.
           rewrite Hu in Hsplit. discriminate Hsplit.
        -- exists (String c q). cbn [String.append]. f_equal. exact Hs.
Qed.

Lemma after_last_unique sep q e q' e' :
  q ++ String sep e = q' ++ String sep e' ->
  unsplit sep e -> unsplit sep e' -> e = e'.
Proof.
  revert q'. induction q as [| c q IH]; intros [| c' q'] H He He'; simpl in H.
  - congruence.
  - injection H as _ H. exfalso. exact (He q' e' H).
  - injection H as _ H. exfalso. exact (He' q e (eq_sym H)).
  - injection H as _ H. exact (IH q' H He He').
Qed.

Lemma Split_last_iff s sep e :
  unsplit sep e ->
  (last (Split s sep) "" = e <-> s = e \/ exists q, s = q ++ String sep e).
Proof.
  intros He. destruct (Split_last s sep) as [Hu Hs]. split.
  - intros <-. exact Hs.
  - intros [-> | (q & ->)].
    + rewrite (Split_unsplit _ _ He). reflexivity.
    + destruct Hs as [Hs | (q' & Hs)].
      * exfalso. rewrite <- Hs in Hu. exact (Hu q e eq_refl).
      * symmetry. exact (after_last_unique sep q e q' _ Hs He Hu).
Qed.

Lemma unsplit_pem : unsplit "."%char "pem".
Proof.
  intros q r H.
  destruct q as [| a [| b [| c [| d q]]]]; simpl in H; discriminate H.
Qed.

(** X7.  [checkServiceCertExtension] accepts exactly the path "pem"
    itself and the paths that end in ".pem" (lower case); every other
    path, the empty one included, gets the message "Certificate <path> is
    invalid. Please specify pem certificate.". *)
Theorem checkServiceCertExtension_accepts certPath :
  (checkServiceCertExtension certPath = None
   <-> certPath = "pem" \/ exists base, certPath = base ++ ".pem")
  /\ (checkServiceCertExtension certPath <> None ->
      checkServiceCertExtension certPath
      = Some ("Certificate " ++ certPath
                ++ " is invalid. Please specify pem certificate.")).
Proof.
  unfold checkServiceCertExtension.
  pose proof (Split_last_iff certPath "."%char "pem" unsplit_pem) as Hlast.
  destruct (String.eqb_spec (last (Split certPath ".") "") "pem") as [Heq | Hne];
    cbn [negb].
  - split; [| intros H; contradiction].
    split; [intros _; apply Hlast; exact Heq | reflexivity].
  - split; [| intros _; reflexivity].
    split; [discriminate |]. intros H. apply Hlast in H. contradiction.
Qed.

(** The provisioning set under construction once the password is
    settled, and what the certificate stage makes of it. *)
Definition linuxSet (dnsName userName password : string) (disable : bool) (ssh : SSH.t)
  : ConfigurationSet.t :=
  ConfigurationSet.mk "LinuxProvisioningConfiguration" dnsName userName password
    disable ssh [].

Inductive certificate_run (dnsName userName certPath password : string) (disable : bool)
  : trace -> ConfigurationSet.t * option error -> Prop :=
| no_certificate :
    len certPath = 0 ->
    certificate_run dnsName userName certPath password disable []
      (linuxSet dnsName userName password disable SSH.zero, None)
| extension_refused (e : error) :
    0 < len certPath ->
    checkServiceCertExtension certPath = Some e ->
    certificate_run dnsName userName certPath password disable []
      (linuxSet dnsName userName password disable SSH.zero, Some e)
| certificate_unreadable (e : error) :
    0 < len certPath ->
    checkServiceCertExtension certPath = None ->
    certificate_run dnsName userName certPath password disable
      [Event (ReadFile certPath) (Err e)]
      (linuxSet dnsName userName password disable SSH.zero, Some e)
| certificate_not_pem (certData rest : bytes) :
    0 < len certPath ->
    checkServiceCertExtension certPath = None ->
    pem_Decode certData = (None, rest) ->
    certificate_run dnsName userName certPath password disable
      [Event (ReadFile certPath) (Ok certData)]
      (linuxSet dnsName userName password disable SSH.zero,
       Some (string_of_bytes rest))
| key_installed (certData rest : bytes) (block : Block.t) :
    0 < len certPath ->
    checkServiceCertExtension certPath = None ->
    pem_Decode certData = (Some block, rest) ->
    certificate_run dnsName userName certPath password disable
      [Event (ReadFile certPath) (Ok certData)]
      (linuxSet dnsName userName password disable
         (SSH.mk [PublicKey.mk (SprintfX (sha1_Sum (Block.Bytes block)))
                    ("/home/" ++ userName ++ "/.ssh/authorized_keys")]),
       None).

(** The runs of [createLinuxProvisioningConfig]: the password is settled
    first, without any call; then comes the certificate. *)
Inductive provisioning_run (dnsName userName userPassword certPath : string)
  : trace -> ConfigurationSet.t * option error -> Prop :=
| password_refused (e : error) :
    len userPassword <> 0 ->
    verifyPassword userPassword = Some e ->
    provisioning_run dnsName userName userPassword certPath []
      (ConfigurationSet.zero, Some e)
| password_replaced tr out :
    len userPassword = 0 ->
    certificate_run dnsName userName certPath "P@ssword1" true tr out ->
    provisioning_run dnsName userName userPassword certPath tr out
| password_kept tr out :
    len userPassword <> 0 ->
    verifyPassword userPassword = None ->
    certificate_run dnsName userName certPath userPassword false tr out ->
    provisioning_run dnsName userName userPassword certPath tr out.

Lemma createSshConfig_run certPath userName w :
  (exists e,
     checkServiceCertExtension certPath = Some e
     /\ calls handle (createSshConfig certPath userName) w = []
     /\ returned handle (createSshConfig certPath userName) w = (SSH.zero, Some e))
  \/ (checkServiceCertExtension certPath = None
      /\ ((exists e,
             calls handle (createSshConfig certPath userName) w
             = [Event (ReadFile certPath) (Err e)]
             /\ returned handle (createSshConfig certPath userName) w
                = (SSH.zero, Some e))
          \/ (exists certData rest,
                pem_Decode certData = (None, rest)
                /\ calls handle (createSshConfig certPath userName) w
                   = [Event (ReadFile certPath) (Ok certData)]
                /\ returned handle (createSshConfig certPath userName) w
                   = (SSH.zero, Some (string_of_bytes rest)))
          \/ (exists certData rest block,
                pem_Decode certData = (Some block, rest)
                /\ calls handle (createSshConfig certPath userName) w
                   = [Event (ReadFile certPath) (Ok certData)]
                /\ returned handle (createSshConfig certPath userName) w
                   = (SSH.mk [PublicKey.mk (SprintfX (sha1_Sum (Block.Bytes block)))
                                ("/home/" ++ userName ++ "/.ssh/authorized_keys")],
                      None)))).
Proof.
  unfold createSshConfig.
  destruct (checkServiceCertExtension certPath) as [e |].
  - left. exists e. repeat split.
  - right. split; [reflexivity |].
    unfold getServiceCertFingerprint, perform. cbn [bind].
    rewrite calls_Do, returned_Do.
    destruct (handle (ReadFile certPath) w) as [[certData | e] w1]; cbn [fst snd bind].
    + destruct (pem_Decode certData) as [[block |] rest] eqn:Hpem; cbn [bind].
      * right. right. exists certData, rest, block. repeat split. exact Hpem.
      * right. left. exists certData, rest. repeat split. exact Hpem.
    + left. exists e. repeat split.
Qed.

Lemma certificate_stage_run dnsName userName certPath password disable w :
  let p : Prog (ConfigurationSet.t * option error) :=
    if 0 <? len certPath then
      r <- createSshConfig certPath userName ;;
      match snd r with
      | Some err =>
          Ret (ConfigurationSet.mk "LinuxProvisioningConfiguration" dnsName userName
                 password disable (fst r) [], Some err)
      | None =>
          Ret (ConfigurationSet.mk "LinuxProvisioningConfiguration" dnsName userName
                 password disable (fst r) [], None)
      end
    else
      Ret (ConfigurationSet.mk "LinuxProvisioningConfiguration" dnsName userName
             password disable SSH.zero [], None) in
  certificate_run dnsName userName certPath password disable
    (calls handle p w) (returned handle p w).
Proof.
  cbv zeta. destruct (Z.ltb_spec 0 (len certPath)) as [Hc | Hc].
  - rewrite calls_bind, returned_bind.
    destruct (createSshConfig_run certPath userName w)
      as [(e & Hext & Hcalls & Hret)
         | (Hext & [(e & Hcalls & Hret)
                   | [(d & rest & Hpem & Hcalls & Hret)
                     | (d & rest & block & Hpem & Hcalls & Hret)]])];
      rewrite Hcalls, Hret; cbn [fst snd];
      rewrite calls_Ret, returned_Ret; cbn [app].
    + apply extension_refused; assumption.
    + apply certificate_unreadable; assumption.
    + apply certificate_not_pem; assumption.
    + eapply key_installed; eassumption.
  - apply no_certificate. unfold len in *. lia.
Qed.

Lemma provisioning_run_holds dnsName userName userPassword certPath w :
  provisioning_run dnsName userName userPassword certPath
    (calls handle
       (createLinuxProvisioningConfig dnsName userName userPassword certPath) w)
    (returned handle
       (createLinuxProvisioningConfig dnsName userName userPassword certPath) w).
Proof.
  unfold createLinuxProvisioningConfig.
  destruct (Z.eqb_spec (len userPassword) 0) as [Hp | Hp].
  - apply password_replaced; [exact Hp |].
    apply (certificate_stage_run dnsName userName certPath "P@ssword1" true w).
  - destruct (verifyPassword userPassword) as [e |] eqn:Hv.
    + apply password_refused; assumption.
    + apply password_kept; [exact Hp | exact Hv |].
      apply (certificate_stage_run dnsName userName certPath userPassword false w).
Qed.

(** X8.  [createLinuxProvisioningConfig] settles the password before
    anything else and without a call: a non-empty password that the
    validator refuses ends the run with the zero configuration set; an
    empty one is replaced by "P@ssword1" with password authentication
    disabled; an accepted one is kept, with password authentication
    enabled.  Only then, and only for a non-empty certificate path with an
    accepted extension, is the certificate file read, once; the set gets
    one public key, for /home/<user>/.ssh/authorized_keys, when the file
    decodes as PEM, and no key together with an error otherwise. *)
Theorem createLinuxProvisioningConfig_run dnsName userName userPassword certPath w :
  provisioning_run dnsName userName userPassword certPath
    (calls handle
       (createLinuxProvisioningConfig dnsName userName userPassword certPath) w)
    (returned handle
       (createLinuxProvisioningConfig dnsName userName userPassword certPath) w).
Proof. exact (provisioning_run_holds dnsName userName userPassword certPath w). Qed.

(** *** Adding the Linux provisioning configuration *)

Lemma certificate_run_calls dnsName userName certPath password disable tr out :
  certificate_run dnsName userName certPath password disable tr out ->
  tr = []
  \/ (exists r, tr = [Event (ReadFile certPath) r])
     /\ 0 < len certPath /\ checkServiceCertExtension certPath = None.
Proof.
  intros H.
  destruct H as [_ | e _ _ | e H1 H2 | d rest H1 H2 _ | d rest block H1 H2 _];
    [left; reflexivity | left; reflexivity | right | right | right];
    (split; [eexists; reflexivity | split; assumption]).
Qed.

Lemma provisioning_run_calls dnsName userName userPassword certPath tr out :
  provisioning_run dnsName userName userPassword certPath tr out ->
  tr = []
  \/ (exists r, tr = [Event (ReadFile certPath) r])
     /\ 0 < len certPath
     /\ checkServiceCertExtension certPath = None
     /\ (len userPassword = 0 \/ verifyPassword userPassword = None).
Proof.
  intros [e _ _ | tr' out' Hp H | tr' out' Hp Hv H].
  - left. reflexivity.
  - destruct (certificate_run_calls _ _ _ _ _ _ _ H) as [-> | (Hr & H1 & H2)];
      [left; reflexivity |].
    right. repeat split; auto.
  - destruct (certificate_run_calls _ _ _ _ _ _ _ H) as [-> | (Hr & H1 & H2)];
      [left; reflexivity |].
    right. repeat split; auto.
Qed.

(** X9.  When [AddAzureLinuxProvisioningConfig] returns an error it
    returns a [nil] role and leaves the store of roles exactly as it was;
    when it returns no error it returns the pointer it was given, which is
    not [nil].  Either way it issues no request: the only call it can make
    is one read of the certificate file, and that only for a non-[nil]
    role, a non-empty user name, an acceptable password and a non-empty
    certificate path with an accepted extension. *)
Theorem AddAzureLinuxProvisioningConfig_all_or_nothing
    h azureVMConfiguration userName password certPath sshPort w :
  let p :=
    AddAzureLinuxProvisioningConfig h azureVMConfiguration userName password
      certPath sshPort in
  (snd (snd (returned handle p w)) <> None ->
   fst (returned handle p w) = h /\ fst (snd (returned handle p w)) = None)
  /\ (snd (snd (returned handle p w)) = None ->
      fst (snd (returned handle p w)) = azureVMConfiguration
      /\ azureVMConfiguration <> None)
  /\ (calls handle p w = []
      \/ (exists r, calls handle p w = [Event (ReadFile certPath) r])
         /\ azureVMConfiguration <> None /\ len userName <> 0
         /\ 0 < len certPath /\ checkServiceCertExtension certPath = None
         /\ (len password = 0 \/ verifyPassword password = None)).
Proof.
  cbv zeta. unfold AddAzureLinuxProvisioningConfig.
  destruct azureVMConfiguration as [a |];
    [| split; [intros _; split; reflexivity |];
       split; [discriminate | left; reflexivity]].
  destruct (Z.eqb_spec (len userName) 0) as [Hu | Hu];
    [split; [intros _; split; reflexivity |];
     split; [discriminate | left; reflexivity] |].
  rewrite calls_bind, returned_bind.
  pose proof (provisioning_run_holds (Role.RoleName (h a)) userName password
                certPath w) as Hrun.
  apply provisioning_run_calls in Hrun.
  destruct (returned handle
              (createLinuxProvisioningConfig (Role.RoleName (h a)) userName
                 password certPath) w) as [prov [e |]];
    cbn [createNetworkConfig osLinux String.eqb Ascii.eqb Bool.eqb];
    rewrite calls_Ret, returned_Ret, app_nil_r; cbn [fst snd].
  - split; [intros _; split; reflexivity |]. split; [discriminate |].
    destruct Hrun as [-> | (Hr & H1 & H2 & H3)]; [left; reflexivity |].
    right. repeat split; try assumption. discriminate.
  - split; [intros H; contradiction |]. split; [intros _; split; [reflexivity | discriminate] |].
    destruct Hrun as [-> | (Hr & H1 & H2 & H3)]; [left; reflexivity |].
    right. repeat split; try assumption. discriminate.
Qed.

Lemma certificate_run_success dnsName userName certPath password disable tr prov :
  certificate_run dnsName userName certPath password disable tr (prov, None) ->
  exists ssh,
    prov = linuxSet dnsName userName password disable ssh
    /\ (len certPath = 0 -> ssh = SSH.zero)
    /\ (0 < len certPath ->
        checkServiceCertExtension certPath = None
        /\ exists certData rest block,
             tr = [Event (ReadFile certPath) (Ok certData)]
             /\ pem_Decode certData = (Some block, rest)
             /\ ssh = SSH.mk [PublicKey.mk (SprintfX (sha1_Sum (Block.Bytes block)))
                                ("/home/" ++ userName ++ "/.ssh/authorized_keys")]).
Proof.
  intros H. remember (prov, None) as out eqn:Hout.
  destruct H as [H0 | e _ _ | e _ _ | d rest _ _ _ | d rest block H1 H2 H3];
    try discriminate Hout; injection Hout as <-.
  - exists SSH.zero. split; [reflexivity |]. split; [reflexivity | lia].
  - eexists. split; [reflexivity |]. split; [lia |].
    intros _. split; [exact H2 |]. exists d, rest, block. repeat split. exact H3.
Qed.

Lemma provisioning_run_success dnsName userName userPassword certPath tr prov :
  provisioning_run dnsName userName userPassword certPath tr (prov, None) ->
  exists ssh,
    prov = linuxSet dnsName userName
             (if len userPassword =? 0 then "P@ssword1" else userPassword)
             (len userPassword =? 0) ssh
    /\ (len userPassword <> 0 -> verifyPassword userPassword = None)
    /\ (len certPath = 0 -> ssh = SSH.zero)
    /\ (0 < len certPath ->
        checkServiceCertExtension certPath = None
        /\ exists certData rest block,
             tr = [Event (ReadFile certPath) (Ok certData)]
             /\ pem_Decode certData = (Some block, rest)
             /\ ssh = SSH.mk [PublicKey.mk (SprintfX (sha1_Sum (Block.Bytes block)))
                                ("/home/" ++ userName ++ "/.ssh/authorized_keys")]).
Proof.
  intros H. remember (prov, None) as out eqn:Hout.
  destruct H as [e _ _ | tr' out' Hp H | tr' out' Hp Hv H]; subst;
    [discriminate | |].
  - destruct (certificate_run_success _ _ _ _ _ _ _ H) as (ssh & -> & H1 & H2).
    exists ssh. rewrite Hp.
    split; [reflexivity |].
    split; [intros Hn; exfalso; apply Hn; reflexivity |].
    split; assumption.
  - destruct (certificate_run_success _ _ _ _ _ _ _ H) as (ssh & -> & H1 & H2).
    exists ssh.
    replace (len userPassword =? 0) with false by (symmetry; apply Z.eqb_neq; exact Hp).
    split; [reflexivity |]. split; [intros _; exact Hv |]. split; assumption.
Qed.

Lemma AddAzureLinuxProvisioningConfig_success
    h azureVMConfiguration userName password certPath sshPort w h' p' :
  returned handle
    (AddAzureLinuxProvisioningConfig h azureVMConfiguration userName password
       certPath sshPort) w
  = (h', (p', None)) ->
  exists a ssh,
    azureVMConfiguration = Some a /\ p' = Some a
    /\ h' a
       = Role.mk (Role.RoleName (h a)) (Role.RoleSize (h a)) (Role.RoleType (h a))
           (Role.ProvisionGuestAgent (h a)) (Role.OSVirtualHardDisk (h a))
           [ linuxSet (Role.RoleName (h a)) userName
               (if len password =? 0 then "P@ssword1" else password)
               (len password =? 0) ssh;
             ConfigurationSet.mk "NetworkConfiguration" "" "" "" false SSH.zero
               [InputEndpoint.mk "ssh" "tcp" sshPort 22] ]
           ((0 <? len certPath) || Role.UseCertAuth (h a))
           (if 0 <? len certPath then certPath else Role.CertPath (h a))
    /\ (len password <> 0 -> verifyPassword password = None)
    /\ (len certPath = 0 -> ssh = SSH.zero)
    /\ (0 < len certPath ->
        checkServiceCertExtension certPath = None
        /\ exists certData rest block,
             calls handle
               (AddAzureLinuxProvisioningConfig h azureVMConfiguration userName
                  password certPath sshPort) w
             = [Event (ReadFile certPath) (Ok certData)]
             /\ pem_Decode certData = (Some block, rest)
             /\ ssh = SSH.mk [PublicKey.mk (SprintfX (sha1_Sum (Block.Bytes block)))
                                ("/home/" ++ userName ++ "/.ssh/authorized_keys")]).
Proof.
  unfold AddAzureLinuxProvisioningConfig.
  destruct azureVMConfiguration as [a |]; [| discriminate].
  destruct (len userName =? 0); [discriminate |].
  rewrite returned_bind, calls_bind.
  pose proof (provisioning_run_holds (Role.RoleName (h a)) userName password
                certPath w) as Hrun.
  destruct (returned handle
              (createLinuxProvisioningConfig (Role.RoleName (h a)) userName
                 password certPath) w) as [prov [e |]];
    cbn [createNetworkConfig osLinux String.eqb Ascii.eqb Bool.eqb];
    rewrite returned_Ret, calls_Ret, app_nil_r; [discriminate |].
  intros H. injection H as <- <-.
  destruct (provisioning_run_success _ _ _ _ _ _ Hrun) as (ssh & -> & H1 & H2 & H3).
  exists a, ssh. split; [reflexivity |]. split; [reflexivity |]. split.
  - unfold store. rewrite Nat.eqb_refl.
    destruct (0 <? len certPath); reflexivity.
  - split; [exact H1 |]. split; [exact H2 |].
    intros Hc. destruct (H3 Hc) as (Hext & d & rest & block & Hcalls & Hpem & Hssh).
    split; [exact Hext |]. exists d, rest, block.
    split; [exact Hcalls |]. split; [exact Hpem | exact Hssh].
Qed.

(** X10.  After a call of [AddAzureLinuxProvisioningConfig] that
    returns no error, the role keeps its name, size, type, guest-agent
    flag and disk.  Its provisioning set names the role as host and the
    given user; it carries the given password with password
    authentication enabled, or "P@ssword1" with it disabled when none was
    given.  Its network set has the single endpoint "ssh", tcp, from
    [sshPort] to 22.  With a certificate path the role is marked
    [UseCertAuth] with that path and the set has one public key for
    /home/<user>/.ssh/authorized_keys, fingerprinted from the file;
    without one the set has no key, and [UseCertAuth] and [CertPath] stay
    as they were, also when an earlier call had set them. *)
Theorem AddAzureLinuxProvisioningConfig_result
    h azureVMConfiguration userName password certPath sshPort w h' p' :
  returned handle
    (AddAzureLinuxProvisioningConfig h azureVMConfiguration userName password
       certPath sshPort) w
  = (h', (p', None)) ->
  exists a ssh,
    azureVMConfiguration = Some a /\ p' = Some a
    /\ h' a
       = Role.mk (Role.RoleName (h a)) (Role.RoleSize (h a)) (Role.RoleType (h a))
           (Role.ProvisionGuestAgent (h a)) (Role.OSVirtualHardDisk (h a))
           [ linuxSet (Role.RoleName (h a)) userName
               (if len password =? 0 then "P@ssword1" else password)
               (len password =? 0) ssh;
             ConfigurationSet.mk "NetworkConfiguration" "" "" "" false SSH.zero
               [InputEndpoint.mk "ssh" "tcp" sshPort 22] ]
           ((0 <? len certPath) || Role.UseCertAuth (h a))
           (if 0 <? len certPath then certPath else Role.CertPath (h a))
    /\ (len password <> 0 -> verifyPassword password = None)
    /\ (len certPath = 0 -> ssh = SSH.zero)
    /\ (0 < len certPath ->
        checkServiceCertExtension certPath = None
        /\ exists certData rest block,
             calls handle
               (AddAzureLinuxProvisioningConfig h azureVMConfiguration userName
                  password certPath sshPort) w
             = [Event (ReadFile certPath) (Ok certData)]
             /\ pem_Decode certData = (Some block, rest)
             /\ ssh = SSH.mk [PublicKey.mk (SprintfX (sha1_Sum (Block.Bytes block)))
                                ("/home/" ++ userName ++ "/.ssh/authorized_keys")]).
Proof.
  exact (AddAzureLinuxProvisioningConfig_success h azureVMConfiguration userName
           password certPath sshPort w h' p').
Qed.

(** *** Certificate upload and role operations *)

(** The runs of [uploadServiceCert]. *)
Inductive upload_run (dnsName certPath : string) : trace -> option error -> Prop :=
| upload_unreadable (e : error) :
    upload_run dnsName certPath [Event (ReadFile certPath) (Err e)] (Some e)
| upload_unmarshalled (data : bytes) (e : error) :
    xml_Marshal (DocServiceCertificate
                   (ServiceCertificate.mk azureXmlns (base64_EncodeToString data) "pfx"))
    = Err e ->
    upload_run dnsName certPath [Event (ReadFile certPath) (Ok data)] (Some e)
| upload_refused (data certificateConfigBytes : bytes) (e : error) :
    xml_Marshal (DocServiceCertificate
                   (ServiceCertificate.mk azureXmlns (base64_EncodeToString data) "pfx"))
    = Ok certificateConfigBytes ->
    upload_run dnsName certPath
      [ Event (ReadFile certPath) (Ok data);
        Event (sendAzurePostRequest
                 ("services/hostedservices/" ++ dnsName ++ "/certificates")
                 certificateConfigBytes) (Err e) ]
      (Some e)
| upload_tracked (data certificateConfigBytes : bytes) (requestId : string)
    (verdict : option error) :
    xml_Marshal (DocServiceCertificate
                   (ServiceCertificate.mk azureXmlns (base64_EncodeToString data) "pfx"))
    = Ok certificateConfigBytes ->
    upload_run dnsName certPath
      [ Event (ReadFile certPath) (Ok data);
        Event (sendAzurePostRequest
                 ("services/hostedservices/" ++ dnsName ++ "/certificates")
                 certificateConfigBytes) (Ok requestId);
        Event (waitAsyncOperation requestId) verdict ]
      verdict.

(** X11.  [uploadServiceCert] reads the certificate file first and sends
    nothing if the file cannot be read or the certificate document cannot
    be marshalled.  Otherwise it posts the document, which holds the file
    contents in base64 and the format "pfx", once to
    services/hostedservices/<dnsName>/certificates; a refused post is
    returned as it is, and after an accepted one the method waits on the
    request id and returns the tracker's verdict. *)
Theorem uploadServiceCert_run dnsName certPath w :
  upload_run dnsName certPath
    (calls handle (uploadServiceCert dnsName certPath) w)
    (returned handle (uploadServiceCert dnsName certPath) w).
Proof.
  unfold uploadServiceCert, createServiceCertDeploymentConf, perform. cbn [bind].
  rewrite calls_Do, returned_Do.
  destruct (handle (ReadFile certPath) w) as [[data | e] w1]; cbn [fst snd bind];
    [| apply upload_unreadable].
  destruct (xml_Marshal
              (DocServiceCertificate
                 (ServiceCertificate.mk azureXmlns (base64_EncodeToString data) "pfx")))
    as [b | e] eqn:Hx; [| apply upload_unmarshalled; exact Hx].
  rewrite calls_Do, returned_Do.
  match goal with
  | |- context [handle (sendAzurePostRequest ?u b) w1] =>
      destruct (handle (sendAzurePostRequest u b) w1) as [[requestId | e] w2]
  end; cbn [fst snd bind].
  - rewrite calls_Do, returned_Do. apply upload_tracked. exact Hx.
  - apply upload_refused. exact Hx.
Qed.

(** What the role operations post to, and what [DeleteRole] deletes. *)
Definition operationsURL (cloudserviceName deploymentName roleName : string) : string :=
  "services/hostedservices/" ++ cloudserviceName ++ "/deployments/" ++ deploymentName
    ++ "/roleinstances/" ++ roleName ++ "/Operations".

Definition roleURL (cloudserviceName deploymentName roleName : string) : string :=
  "services/hostedservices/" ++ cloudserviceName ++ "/deployments/" ++ deploymentName
    ++ "/roles/" ++ roleName.

(** The names a role operation is given, in the order they are checked. *)
Definition role_names (cloudserviceName deploymentName roleName : string)
  : list (string * string) :=
  [ ("cloudserviceName", cloudserviceName); ("deploymentName", deploymentName);
    ("roleName", roleName) ].

(** The runs of a role operation that sends [request]: with an empty
    name, nothing is sent and the error names the first empty one; with
    three names that are not empty, a refused request, or the request and
    the wait on its id. *)
Inductive operation_run (cloudserviceName deploymentName roleName : string)
    (request : call) (accepted : reply request -> option string)
    (refused : reply request -> option error)
  : trace -> option error -> Prop :=
| names_refused (name : string) :
    first_missing (role_names cloudserviceName deploymentName roleName) = Some name ->
    operation_run cloudserviceName deploymentName roleName request accepted refused []
      (Some (Errorf paramNotSpecifiedError [name]))
| request_refused (r : reply request) (e : error) :
    first_missing (role_names cloudserviceName deploymentName roleName) = None ->
    refused r = Some e ->
    operation_run cloudserviceName deploymentName roleName request accepted refused
      [Event request r] (Some e)
| request_tracked (r : reply request) (requestId : string) (verdict : option error) :
    first_missing (role_names cloudserviceName deploymentName roleName) = None ->
    accepted r = Some requestId ->
    operation_run cloudserviceName deploymentName roleName request accepted refused
      [Event request r; Event (waitAsyncOperation requestId) verdict] None.

Definition accepted_id (r : result string) : option string :=
  match r with Ok requestId => Some requestId | Err _ => None end.
Definition refused_with (r : result string) : option error :=
  match r with Ok _ => None | Err e => Some e end.

Lemma append_empty (s : string) : s ++ "" = s.
Proof. induction s as [| c s IH]; simpl; [reflexivity | rewrite IH; reflexivity]. Qed.

Lemma Sprintf_azureRoleURL cloudserviceName deploymentName roleName :
  Sprintf azureRoleURL [cloudserviceName; deploymentName; roleName]
  = roleURL cloudserviceName deploymentName roleName.
Proof.
  unfold roleURL. rewrite <- (append_empty roleName) at 2. reflexivity.
Qed.

(** X12.  [DeleteRole] sends nothing when one of its three names is
    empty, and then names the first empty one in its error.  Otherwise it
    sends one delete request for
    services/hostedservices/<service>/deployments/<deployment>/roles/<role>;
    a refused request is returned as it is, and after an accepted one the
    method waits on the request id and returns [nil]. *)
Theorem DeleteRole_run cloudserviceName deploymentName roleName w :
  operation_run cloudserviceName deploymentName roleName
    (sendAzureDeleteRequest (roleURL cloudserviceName deploymentName roleName))
    accepted_id refused_with
    (calls handle (DeleteRole cloudserviceName deploymentName roleName) w)
    (returned handle (DeleteRole cloudserviceName deploymentName roleName) w).
Proof.
  unfold DeleteRole.
  destruct (len cloudserviceName =? 0) eqn:Hc;
    [apply names_refused; unfold role_names; first_missing_known |].
  destruct (len deploymentName =? 0) eqn:Hd;
    [apply names_refused; unfold role_names; first_missing_known |].
  destruct (len roleName =? 0) eqn:Hr;
    [apply names_refused; unfold role_names; first_missing_known |].
  assert (Hnone : first_missing (role_names cloudserviceName deploymentName roleName)
                  = None)
    by (unfold role_names; first_missing_known).
  unfold perform. cbn [bind].
  rewrite Sprintf_azureRoleURL.
  rewrite calls_Do, returned_Do.
  destruct (handle (sendAzureDeleteRequest
                      (roleURL cloudserviceName deploymentName roleName)) w)
    as [[requestId | e] w1]; cbn [fst snd bind].
  - rewrite calls_Do, returned_Do.
    apply request_tracked with (r := Ok requestId); [exact Hnone | reflexivity].
  - apply request_refused with (r := Err e); [exact Hnone | reflexivity].
Qed.

(** A role operation that posts [document]: with a document that
    marshals it runs as [operation_run] says, posting the marshalled bytes
    to the operations URL of the role; with one that does not, it sends
    nothing, and its error names the first empty name if there is one and
    is the marshaller's otherwise. *)
Definition posts_operation (document : Document) (p : Prog (option error))
    (cloudserviceName deploymentName roleName : string) (w : World) : Prop :=
  match xml_Marshal document with
  | Ok operationBytes =>
      operation_run cloudserviceName deploymentName roleName
        (sendAzurePostRequest
           (operationsURL cloudserviceName deploymentName roleName) operationBytes)
        accepted_id refused_with
        (calls handle p w) (returned handle p w)
  | Err e =>
      calls handle p w = []
      /\ returned handle p w
         = match first_missing (role_names cloudserviceName deploymentName roleName)
           with
           | Some name => Some (Errorf paramNotSpecifiedError [name])
           | None => Some e
           end
  end.

Lemma Sprintf_azureOperationsURL cloudserviceName deploymentName roleName :
  Sprintf azureOperationsURL [cloudserviceName; deploymentName; roleName]
  = operationsURL cloudserviceName deploymentName roleName.
Proof. reflexivity. Qed.

Ltac names_checked :=
  match goal with
  | |- context [if len ?c =? 0 then _ else _] => destruct (len c =? 0) eqn:?
  end;
  [ destruct (xml_Marshal _);
    [ apply names_refused; unfold role_names; first_missing_known
    | split; [reflexivity | unfold role_names; first_missing_known] ] |].

Ltac posts_operation_proof :=
  unfold posts_operation;
  names_checked; names_checked; names_checked;
  cbv zeta;
  match goal with
  | |- context [xml_Marshal ?doc] => destruct (xml_Marshal doc) as [b | e]
  end;
  [| split; [reflexivity | unfold role_names; first_missing_known]];
  unfold perform; cbn [bind];
  rewrite Sprintf_azureOperationsURL;
  rewrite calls_Do, returned_Do;
  match goal with
  | |- context [handle (sendAzurePostRequest ?u ?bs) ?w] =>
      destruct (handle (sendAzurePostRequest u bs) w) as [[requestId | err] w1]
  end; cbn [fst snd bind];
  [ rewrite calls_Do, returned_Do;
    eapply request_tracked with (r := Ok _);
    [unfold role_names; first_missing_known | reflexivity]
  | eapply request_refused with (r := Err _);
    [unfold role_names; first_missing_known | reflexivity] ].

(** X13.  [StartRole], [ShutdownRole] and [RestartRole] send nothing
    when a name is empty (the error names the first empty one) or their
    operation document cannot be marshalled.  Otherwise each posts its
    document, of operation type "StartRoleOperation",
    "ShutdownRoleOperation" or "RestartRoleOperation", once to
    services/hostedservices/<service>/deployments/<deployment>/roleinstances/<role>/Operations;
    a refused post is returned as it is, and after an accepted one the
    method waits on the request id and returns [nil]. *)
Theorem role_operations_run cloudserviceName deploymentName roleName w :
  posts_operation
    (DocStartRoleOperation (RoleOperation.mk azureXmlns "StartRoleOperation"))
    (StartRole cloudserviceName deploymentName roleName)
    cloudserviceName deploymentName roleName w
  /\ posts_operation
       (DocShutdownRoleOperation (RoleOperation.mk azureXmlns "ShutdownRoleOperation"))
       (ShutdownRole cloudserviceName deploymentName roleName)
       cloudserviceName deploymentName roleName w
  /\ posts_operation
       (DocRestartRoleOperation (RoleOperation.mk azureXmlns "RestartRoleOperation"))
       (RestartRole cloudserviceName deploymentName roleName)
       cloudserviceName deploymentName roleName w.
Proof.
  split; [| split].
  - unfold StartRole, createStartRoleOperation. posts_operation_proof.
  - unfold ShutdownRole, createShutdowRoleOperation. posts_operation_proof.
  - unfold RestartRole, createRestartRoleOperation. posts_operation_proof.
Qed.

End Runs.

(** ** Extensions *)

(** The field [ResourceExtensionReferences] of the roles is kept in a
    store of its own, by the address of the role. *)
Definition extensions := addr -> list ResourceExtensionReference.t.
Definition store_extensions (x : extensions) (a : addr)
    (l : list ResourceExtensionReference.t) : extensions :=
  fun a' => if Nat.eqb a' a then l else x a'.

(** [json.Marshal] on a [dockerPublicConfig] with the given port and
    version. *)
Variable json_Marshal_dockerPublicConfig : Z -> Z -> result bytes.

Definition dockerPublicConfigVersion : Z := 2.
Definition provisioningConfDoesNotExistsError :=
  "You should set azure VM provisioning config first".

Definition SetAzureVMExtension (x : extensions) (azureVMConfiguration : option addr)
    (name publisher version referenceName state
       publicConfigurationValue privateConfigurationValue : string)
  : extensions * (option addr * option error) :=
  match azureVMConfiguration with
  | None => (x, (None, Some (Errorf paramNotSpecifiedError ["azureVMConfiguration"])))
  | Some a =>
      if len name =? 0 then
        (x, (None, Some (Errorf paramNotSpecifiedError ["name"])))
      else if len publisher =? 0 then
        (x, (None, Some (Errorf paramNotSpecifiedError ["publisher"])))
      else if len version =? 0 then
        (x, (None, Some (Errorf paramNotSpecifiedError ["version"])))
      else if len referenceName =? 0 then
        (x, (None, Some (Errorf paramNotSpecifiedError ["referenceName"])))
      else
        let values : list ResourceExtensionParameter.t := [] in
        let values :=
          if 0 <? len privateConfigurationValue then
            append values
              (ResourceExtensionParameter.mk "ignored"
                 (base64_EncodeToString (bytes_of_string privateConfigurationValue))
                 "Private")
          else values in
        let values :=
          if 0 <? len publicConfigurationValue then
            append values
              (ResourceExtensionParameter.mk "ignored"
                 (base64_EncodeToString (bytes_of_string publicConfigurationValue))
                 "Public")
          else values in
        let extension :=
          ResourceExtensionReference.mk referenceName publisher name version values
            state in
        (store_extensions x a (append (x a) extension), (Some a, None))
  end.

Definition createDockerPublicConfig (dockerPort : Z) : string * option error :=
  match json_Marshal_dockerPublicConfig dockerPort dockerPublicConfigVersion with
  | Err err => ("", Some err)
  | Ok configJson => (string_of_bytes configJson, None)
  end.

(** The loop of [addDockerPort]: it writes into the elements of the
    slice it is given, so the list returned is what the caller's slice
    holds afterwards. *)
Fixpoint addDockerPort_loop (configurationSets : list ConfigurationSet.t)
    (dockerPort : Z) : list ConfigurationSet.t :=
  match configurationSets with
  | [] => []
  | c :: rest =>
      (if negb (String.eqb (ConfigurationSet.ConfigurationSetType c)
                  "NetworkConfiguration")
       then c
       else
         let dockerEndpoint := createEndpoint "docker" "tcp" dockerPort dockerPort in
         ConfigurationSet.mk (ConfigurationSet.ConfigurationSetType c)
           (ConfigurationSet.HostName c) (ConfigurationSet.UserName c)
           (ConfigurationSet.UserPassword c)
           (ConfigurationSet.DisableSshPasswordAuthentication c)
           (ConfigurationSet.SSH c)
           (append (ConfigurationSet.InputEndpoints c) dockerEndpoint))
      :: addDockerPort_loop rest dockerPort
  end.

Definition addDockerPort (configurationSets : list ConfigurationSet.t) (dockerPort : Z)
  : list ConfigurationSet.t * option error :=
  if Nat.eqb (length configurationSets) 0 then
    (configurationSets, Some (errors_New provisioningConfDoesNotExistsError))
  else (addDockerPort_loop configurationSets dockerPort, None).

(** [SetAzureDockerVMExtension] works on both stores: the configuration
    sets of the role in [h], its extension references in [x]. *)
Definition SetAzureDockerVMExtension (h : heap) (x : extensions)
    (azureVMConfiguration : option addr) (dockerPort : Z) (version : string)
  : (heap * extensions) * (option addr * option error) :=
  match azureVMConfiguration with
  | None =>
      ((h, x), (None, Some (Errorf paramNotSpecifiedError ["azureVMConfiguration"])))
  | Some a =>
      let version := if len version =? 0 then "0.3" else version in
      let '(configurationSets, err) :=
        addDockerPort (Role.ConfigurationSets (h a)) dockerPort in
      let role := h a in
      let h :=
        store h a
          (Role.mk (Role.RoleName role) (Role.RoleSize role) (Role.RoleType role)
             (Role.ProvisionGuestAgent role) (Role.OSVirtualHardDisk role)
             configurationSets (Role.UseCertAuth role) (Role.CertPath role)) in
      match err with
      | Some _ => ((h, x), (None, err))
      | None =>
          let '(publicConfiguration, err) := createDockerPublicConfig dockerPort in
          match err with
          | Some _ => ((h, x), (None, err))
          | None =>
              let privateConfiguration := "{}" in
              let '(x, (azureVMConfiguration, _)) :=
                SetAzureVMExtension x (Some a) "DockerExtension"
                  "MSOpenTech.Extensions" version "DockerExtension" "enable"
                  publicConfiguration privateConfiguration in
              ((h, x), (azureVMConfiguration, None))
          end
      end
  end.

(** *** Properties of the extensions *)



(** A set with the docker endpoint appended to its endpoints. *)
Definition with_docker (dockerPort : Z) (c : ConfigurationSet.t) : ConfigurationSet.t :=
  ConfigurationSet.mk (ConfigurationSet.ConfigurationSetType c)
    (ConfigurationSet.HostName c) (ConfigurationSet.UserName c)
    (ConfigurationSet.UserPassword c)
    (ConfigurationSet.DisableSshPasswordAuthentication c)
    (ConfigurationSet.SSH c)
    (ConfigurationSet.InputEndpoints c
       ++ [InputEndpoint.mk "docker" "tcp" dockerPort dockerPort])%list.

Lemma addDockerPort_loop_nth configurationSets dockerPort i :
  nth_error (addDockerPort_loop configurationSets dockerPort) i
  = match nth_error configurationSets i with
    | Some c =>
        Some (if String.eqb (ConfigurationSet.ConfigurationSetType c)
                   "NetworkConfiguration"
              then with_docker dockerPort c else c)
    | None => None
    end.
Proof.
  revert i. induction configurationSets as [| c rest IH]; intros [| i]; try reflexivity.
  - cbn [addDockerPort_loop nth_error].
    destruct (String.eqb (ConfigurationSet.ConfigurationSetType c)
                "NetworkConfiguration"); reflexivity.
  - cbn [addDockerPort_loop nth_error]. apply IH.
Qed.

Lemma addDockerPort_loop_length configurationSets dockerPort :
  length (addDockerPort_loop configurationSets dockerPort) = length configurationSets.
Proof.
  induction configurationSets as [| c l IH]; cbn [addDockerPort_loop length];
    [reflexivity | rewrite IH; reflexivity].
Qed.

Lemma addDockerPort_loop_other configurationSets dockerPort :
  Forall (fun c => ConfigurationSet.ConfigurationSetType c <> "NetworkConfiguration")
    configurationSets ->
  addDockerPort_loop configurationSets dockerPort = configurationSets.
Proof.
  induction 1 as [| c l Hc _ IH]; cbn [addDockerPort_loop]; [reflexivity |].
  rewrite IH. apply String.eqb_neq in Hc. rewrite Hc. reflexivity.
Qed.

Lemma addDockerPort_nonempty configurationSets dockerPort :
  configurationSets <> [] ->
  addDockerPort configurationSets dockerPort
  = (addDockerPort_loop configurationSets dockerPort, None).
Proof.
  unfold addDockerPort. destruct configurationSets; [contradiction | reflexivity].
Qed.

(** X15.  [addDockerPort] refuses an empty list of configuration sets
    with "You should set azure VM provisioning config first".  On any
    other list it succeeds and leaves the number and order of the sets as
    they are: every set of type "NetworkConfiguration" gets the endpoint
    "docker", tcp, from the port to the same port, after the endpoints it
    had, and every other set stays as it is; so on a list without a
    network set it succeeds without opening any port. *)
Theorem addDockerPort_endpoints configurationSets dockerPort :
  (configurationSets = [] ->
   addDockerPort configurationSets dockerPort
   = ([], Some "You should set azure VM provisioning config first"))
  /\ (configurationSets <> [] ->
      snd (addDockerPort configurationSets dockerPort) = None
      /\ length (fst (addDockerPort configurationSets dockerPort))
         = length configurationSets
      /\ (forall i c,
            nth_error configurationSets i = Some c ->
            nth_error (fst (addDockerPort configurationSets dockerPort)) i
            = Some (if String.eqb (ConfigurationSet.ConfigurationSetType c)
                         "NetworkConfiguration"
                    then with_docker dockerPort c else c))
      /\ (Forall (fun c => ConfigurationSet.ConfigurationSetType c
                           <> "NetworkConfiguration") configurationSets ->
          fst (addDockerPort configurationSets dockerPort) = configurationSets)).
Proof.
  split.
  - intros ->. reflexivity.
  - intros Hne. rewrite (addDockerPort_nonempty _ _ Hne). cbn [fst snd].
    split; [reflexivity |].
    split; [apply addDockerPort_loop_length |].
    split; [| apply addDockerPort_loop_other].
    intros i c Hc. rewrite addDockerPort_loop_nth, Hc. reflexivity.
Qed.






(** *** Provisioning, then docker *)

Section Composition.
Variable World : Type.
Variable handle : forall c : call, World -> reply c * World.

(** X17.  On a role that [AddAzureLinuxProvisioningConfig] has just
    configured, [SetAzureDockerVMExtension] leaves the provisioning set as
    it is and makes the endpoints of the network set "ssh" (from the SSH
    port to 22) followed by "docker" (from the docker port to itself); it
    returns the role and no error whenever the public configuration
    marshals. *)
Theorem docker_after_linux_provisioning
    h x azureVMConfiguration userName password certPath sshPort dockerPort version
    w h1 p1 :
  returned handle
    (AddAzureLinuxProvisioningConfig h azureVMConfiguration userName password
       certPath sshPort) w
  = (h1, (p1, None)) ->
  exists a provisioningConfig,
    p1 = Some a
    /\ Role.ConfigurationSets (h1 a)
       = [ provisioningConfig;
           ConfigurationSet.mk "NetworkConfiguration" "" "" "" false SSH.zero
             [InputEndpoint.mk "ssh" "tcp" sshPort 22] ]
    /\ ConfigurationSet.ConfigurationSetType provisioningConfig
       = "LinuxProvisioningConfiguration"
    /\ Role.ConfigurationSets
         (fst (fst (SetAzureDockerVMExtension h1 x p1 dockerPort version)) a)
       = [ provisioningConfig;
           ConfigurationSet.mk "NetworkConfiguration" "" "" "" false SSH.zero
             [ InputEndpoint.mk "ssh" "tcp" sshPort 22;
               InputEndpoint.mk "docker" "tcp" dockerPort dockerPort ] ]
    /\ (forall configJson,
          json_Marshal_dockerPublicConfig dockerPort 2 = Ok configJson ->
          snd (SetAzureDockerVMExtension h1 x p1 dockerPort version) = (Some a, None)).
Proof.
  intros Hadd.
  destruct (AddAzureLinuxProvisioningConfig_success World handle _ _ _ _ _ _ _ _ _ Hadd)
    as (a & ssh & _ & -> & Hrole & _).
  eexists a, _. split; [reflexivity |].
  assert (Hsets : Role.ConfigurationSets (h1 a)
                  = [ linuxSet (Role.RoleName (h a)) userName
                        (if len password =? 0 then "P@ssword1" else password)
                        (len password =? 0) ssh;
                      ConfigurationSet.mk "NetworkConfiguration" "" "" "" false SSH.zero
                        [InputEndpoint.mk "ssh" "tcp" sshPort 22] ]).
  { rewrite Hrole. reflexivity. }
  split; [exact Hsets |]. split; [reflexivity |].
  unfold SetAzureDockerVMExtension. rewrite Hsets.
  split.
  - cbn [addDockerPort length Nat.eqb fst snd].
    unfold createDockerPublicConfig.
    destruct (json_Marshal_dockerPublicConfig dockerPort dockerPublicConfigVersion);
      cbn [fst snd];
      try match goal with
          | |- context [SetAzureVMExtension ?x0 ?p0 ?n ?pb ?v ?r ?st ?pu ?pr] =>
              destruct (SetAzureVMExtension x0 p0 n pb v r st pu pr) as [x1 [p2 e2]]
          end;
      cbn [fst snd]; unfold store; rewrite Nat.eqb_refl; reflexivity.
  - intros configJson Hjson.
    cbn [addDockerPort length Nat.eqb fst snd].
    unfold createDockerPublicConfig, dockerPublicConfigVersion. rewrite Hjson.
    unfold SetAzureVMExtension.
    replace (len "DockerExtension" =? 0) with false by reflexivity.
    replace (len "MSOpenTech.Extensions" =? 0) with false by reflexivity.
    destruct (Z.eqb_spec (len version) 0) as [H0 | H0].
    + reflexivity.
    + replace (len version =? 0) with false by (symmetry; apply Z.eqb_neq; exact H0).
      reflexivity.
Qed.

End Composition.

(** ** Role sizes *)

(** A GET request changes nothing the methods below look at afterwards;
    its answer is taken as a function of the path.  [xml.Unmarshal] into an
    empty [RoleSizeList] gives the list it has filled in and its error. *)
Variable sendAzureGetRequest : string -> result bytes.
Variable xml_Unmarshal_RoleSizeList : bytes -> list RoleSize.t * option error.

Definition azureRoleSizeListURL := "rolesizes".
Definition invalidRoleSizeError := "Invalid role size: %s. Available role sizes: %s".

Definition GetRoleSizeList : list RoleSize.t * option error :=
  let roleSizeList : list RoleSize.t := [] in
  match sendAzureGetRequest azureRoleSizeListURL with
  | Err err => (roleSizeList, Some err)
  | Ok response =>
      let '(roleSizeList, err) := xml_Unmarshal_RoleSizeList response in
      match err with
      | Some _ => (roleSizeList, err)
      | None => (roleSizeList, err)
      end
  end.

Definition ResolveRoleSize (roleSizeName : string) : option error :=
  if len roleSizeName =? 0 then Some (Errorf paramNotSpecifiedError ["roleSizeName"])
  else
    let '(roleSizeList, err) := GetRoleSizeList in
    match err with
    | Some _ => err
    | None =>
        if existsb (fun roleSize => String.eqb (RoleSize.Name roleSize) roleSizeName)
             roleSizeList
        then None
        else
          let availableSizes :=
            fold_left (fun buffer existingSize =>
                         buffer ++ (RoleSize.Name existingSize ++ ", "))
              roleSizeList "" in
          Some (errors_New
                  (Sprintf invalidRoleSizeError
                     [roleSizeName; Trim availableSizes ", "]))
    end.

(** *** Properties of the role-size check *)

(** X18.  [ResolveRoleSize] returns [nil] exactly when the name is not
    empty, the list of role sizes was fetched and decoded without error,
    and the name is, letter for letter, the name of one of the sizes.  An
    empty name is refused whatever the service would answer, and an error
    of the request or of the decoding is returned as it is. *)
Theorem ResolveRoleSize_accepts roleSizeName :
  (ResolveRoleSize roleSizeName = None
   <-> len roleSizeName <> 0
       /\ exists response roleSizes,
            sendAzureGetRequest "rolesizes" = Ok response
            /\ xml_Unmarshal_RoleSizeList response = (roleSizes, None)
            /\ In roleSizeName (map RoleSize.Name roleSizes))
  /\ (len roleSizeName = 0 ->
      ResolveRoleSize roleSizeName
      = Some (Errorf paramNotSpecifiedError ["roleSizeName"]))
  /\ (len roleSizeName <> 0 ->
      forall e,
        (sendAzureGetRequest "rolesizes" = Err e
         \/ exists response roleSizes,
              sendAzureGetRequest "rolesizes" = Ok response
              /\ xml_Unmarshal_RoleSizeList response = (roleSizes, Some e)) ->
        ResolveRoleSize roleSizeName = Some e).
Proof.
  unfold ResolveRoleSize, GetRoleSizeList, azureRoleSizeListURL.
  destruct (Z.eqb_spec (len roleSizeName) 0) as [H0 | H0].
  { split; [split; [discriminate | intros [H _]; contradiction] |].
    split; [reflexivity | intros H; contradiction]. }
  split; [| split; [intros H; contradiction |]].
  - destruct (sendAzureGetRequest "rolesizes") as [response | e].
    + destruct (xml_Unmarshal_RoleSizeList response) as [roleSizes [e |]] eqn:Hu.
      * split; [discriminate |].
        intros (_ & r & l & Hr & Hl & _). injection Hr as <-. congruence.
      * destruct (existsb _ roleSizes) eqn:Hex.
        -- split; [| reflexivity]. intros _. split; [exact H0 |].
           exists response, roleSizes.
           split; [reflexivity |]. split; [exact Hu |].
           apply existsb_exists in Hex. destruct Hex as (s & Hin & Heq).
           apply String.eqb_eq in Heq. subst roleSizeName.
           apply in_map. exact Hin.
        -- split; [discriminate |].
           intros (_ & r & l & Hr & Hl & Hin). exfalso.
           injection Hr as <-. rewrite Hu in Hl. injection Hl as <-.
           apply in_map_iff in Hin. destruct Hin as (s & Hs & Hin).
           assert (Ht : existsb
                          (fun roleSize => String.eqb (RoleSize.Name roleSize)
                                             roleSizeName) roleSizes = true).
           { apply existsb_exists. exists s. split; [exact Hin |].
             apply String.eqb_eq. exact Hs. }
           congruence.
    + split; [discriminate |]. intros (_ & r & l & Hr & _). discriminate Hr.
  - intros _ e [He | (r & l & Hr & Hl)].
    + rewrite He. reflexivity.
    + rewrite Hr, Hl. reflexivity.
Qed.

Lemma append_assoc_string (a b c : string) : (a ++ b) ++ c = a ++ (b ++ c).
Proof. induction a as [| x a IH]; simpl; [reflexivity | rewrite IH; reflexivity]. Qed.

Lemma TrimLeft_head c rest cutset :
  in_cutset cutset c = false -> TrimLeft (String c rest) cutset = String c rest.
Proof. intros H. simpl. rewrite H. reflexivity. Qed.

Lemma TrimRight_cut s t cutset :
  Forall (fun c => in_cutset cutset c = true) (list_ascii_of_string t) ->
  TrimRight (s ++ t) cutset = TrimRight s cutset.
Proof.
  intros Ht. induction s as [| c s IH].
  - simpl. induction t as [| c t IHt]; [reflexivity |].
    simpl in Ht. inversion Ht as [| ? ? Hc Ht']; subst.
    cbn [TrimRight]. rewrite (IHt Ht'), Hc. reflexivity.
  - cbn [String.append TrimRight]. rewrite IH. reflexivity.
Qed.

Lemma TrimRight_kept s c cutset :
  in_cutset cutset c = false ->
  TrimRight (s ++ String c "") cutset = s ++ String c "".
Proof.
  intros Hc. induction s as [| a s IH].
  - simpl. rewrite Hc. reflexivity.
  - cbn [String.append TrimRight]. rewrite IH.
    destruct s; reflexivity.
Qed.

(** A name that is not empty and has neither a comma nor a space. *)
Definition tidy (name : string) : Prop :=
  name <> ""
  /\ Forall (fun c => in_cutset ", " c = false) (list_ascii_of_string name).

Lemma tidy_head name :
  tidy name -> exists c rest, name = String c rest /\ in_cutset ", " c = false.
Proof.
  intros [Hne Hall]. destruct name as [| c rest]; [contradiction |].
  simpl in Hall. inversion Hall; subst. eauto.
Qed.

Lemma tidy_last name :
  tidy name -> exists s c, name = s ++ String c "" /\ in_cutset ", " c = false.
Proof.
  intros [Hne Hall]. induction name as [| a name IH]; [contradiction |].
  simpl in Hall. inversion Hall as [| ? ? Ha Hall']; subst.
  destruct name as [| b name'].
  - exists "", a. split; [reflexivity | exact Ha].
  - destruct (IH ltac:(discriminate) Hall') as (s & c & Heq & Hc).
    exists (String a s), c. split; [simpl; rewrite <- Heq; reflexivity | exact Hc].
Qed.

Lemma concat_last sep (names : list string) :
  names <> [] -> exists before, String.concat sep names = before ++ last names "".
Proof.
  induction names as [| n names IH]; [contradiction |]. intros _.
  destruct names as [| m names'].
  - exists "". reflexivity.
  - destruct (IH ltac:(discriminate)) as (before & Heq).
    exists (n ++ sep ++ before).
    change (String.concat sep (n :: m :: names'))
      with (n ++ sep ++ String.concat sep (m :: names')).
    change (last (n :: m :: names') "") with (last (m :: names') "").
    rewrite Heq, !append_assoc_string. reflexivity.
Qed.

Lemma buffer_written (roleSizes : list RoleSize.t) (buffer : string) :
  roleSizes <> [] ->
  fold_left (fun buffer existingSize => buffer ++ (RoleSize.Name existingSize ++ ", "))
    roleSizes buffer
  = buffer ++ String.concat ", " (map RoleSize.Name roleSizes) ++ ", ".
Proof.
  revert buffer. induction roleSizes as [| s l IH]; [contradiction |].
  intros buffer _. destruct l as [| s' l'].
  - reflexivity.
  - assert (Hstep : forall (f : string -> RoleSize.t -> string) x l a,
               fold_left f (x :: l) a = fold_left f l (f a x)) by reflexivity.
    rewrite Hstep, IH by discriminate.
    change (String.concat ", " (map RoleSize.Name (s :: s' :: l')))
      with (RoleSize.Name s ++ ", "
              ++ String.concat ", " (map RoleSize.Name (s' :: l'))).
    rewrite !append_assoc_string. reflexivity.
Qed.

Lemma Trim_written (names : list string) :
  names <> [] -> Forall tidy names ->
  Trim (String.concat ", " names ++ ", ") ", " = String.concat ", " names.
Proof.
  intros Hne Hall.
  assert (Hhead : exists c rest,
             String.concat ", " names = String c rest /\ in_cutset ", " c = false).
  { destruct names as [| n l]; [contradiction |].
    inversion Hall as [| ? ? Hn _]; subst.
    destruct (tidy_head n Hn) as (c & rest & -> & Hc).
    destruct l; [exists c, rest | eexists c, _]; split; try exact Hc; reflexivity. }
  assert (Hlast : exists s c,
             String.concat ", " names = s ++ String c "" /\ in_cutset ", " c = false).
  { destruct (concat_last ", " names Hne) as (before & Heq).
    assert (Ht : tidy (last names "")).
    { clear Heq Hhead. induction Hall as [| n l Hn Hl IH]; [contradiction |].
      destruct l; [exact Hn | apply IH; discriminate]. }
    destruct (tidy_last _ Ht) as (s & c & Hs & Hc).
    exists (before ++ s), c. rewrite Heq, Hs, append_assoc_string.
    split; [reflexivity | exact Hc]. }
  destruct Hhead as (c & rest & Hh & Hc).
  destruct Hlast as (s & c' & Hl & Hc').
  unfold Trim. rewrite Hh. cbn [String.append].
  rewrite (TrimLeft_head _ _ _ Hc).
  change (String c (rest ++ ", ")) with (String c rest ++ ", ").
  rewrite TrimRight_cut by (repeat constructor).
  rewrite <- Hh, Hl. apply TrimRight_kept. exact Hc'.
Qed.

(** X19.  When the requested name is not among the sizes the service
    lists, [ResolveRoleSize] answers "Invalid role size: <name>. Available
    role sizes: " followed by the listed names, in the order of the list
    and separated by a comma and a space, provided every listed name is
    non-empty and free of commas and spaces; for an empty list nothing
    follows the colon and the space. *)
Theorem ResolveRoleSize_lists_sizes roleSizeName response roleSizes :
  len roleSizeName <> 0 ->
  sendAzureGetRequest "rolesizes" = Ok response ->
  xml_Unmarshal_RoleSizeList response = (roleSizes, None) ->
  ~ In roleSizeName (map RoleSize.Name roleSizes) ->
  Forall tidy (map RoleSize.Name roleSizes) ->
  ResolveRoleSize roleSizeName
  = Some ("Invalid role size: " ++ roleSizeName ++ ". Available role sizes: "
            ++ String.concat ", " (map RoleSize.Name roleSizes)).
Proof.
  intros H0 Hget Hxml Hnot Htidy.
  unfold ResolveRoleSize, GetRoleSizeList, azureRoleSizeListURL.
  replace (len roleSizeName =? 0) with false by (symmetry; apply Z.eqb_neq; exact H0).
  rewrite Hget, Hxml.
  assert (Hex : existsb
                  (fun roleSize => String.eqb (RoleSize.Name roleSize) roleSizeName)
                  roleSizes = false).
  { apply not_true_is_false. intros H. apply existsb_exists in H.
    destruct H as (s & Hin & Heq). apply String.eqb_eq in Heq. apply Hnot.
    rewrite <- Heq. apply in_map. exact Hin. }
  rewrite Hex. unfold errors_New. f_equal.
  assert (Hfmt : forall a b,
             Sprintf invalidRoleSizeError [a; b]
             = "Invalid role size: " ++ a ++ ". Available role sizes: " ++ b).
  { intros a b. rewrite <- (append_empty b) at 2. reflexivity. }
  rewrite Hfmt.
  assert (Htrim : Trim
                    (fold_left
                       (fun buffer existingSize =>
                          buffer ++ (RoleSize.Name existingSize ++ ", "))
                       roleSizes "") ", "
                  = String.concat ", " (map RoleSize.Name roleSizes)).
  { destruct roleSizes as [| s l]; [reflexivity |].
    rewrite buffer_written by discriminate. cbn [String.append].
    apply Trim_written; [discriminate | exact Htidy]. }
  rewrite Htrim. reflexivity.
Qed.


End Client.

Arguments CreateHostedService {StorageService} dnsName location label.
Arguments DeleteHostedService {StorageService} dnsName.
Arguments waitAsyncOperation {StorageService} requestId.
Arguments sendAzurePostRequest {StorageService} url data.
Arguments sendAzureDeleteRequest {StorageService} url.
Arguments ReadFile {StorageService} filename.
Arguments GetLocation {StorageService} location.
Arguments ResolveImageName {StorageService} imageName.
Arguments GetStorageServiceByLocation {StorageService} location.
Arguments CreateStorageService {StorageService} name location.
Arguments GetBlobEndpoint {StorageService} storageService.
Arguments newUUID {StorageService}.
Arguments Now_Format {StorageService} layout.
Arguments reply {StorageService} c.
Arguments Event {StorageService} made got.
Arguments run {StorageService World} handle {A} p w.
Arguments returned {StorageService World} handle {A} p w.
Arguments calls {StorageService World} handle {A} p w.
Arguments deletions {StorageService} tr.
Arguments createLinuxProvisioningConfig {StorageService} unicode pem_Decode
  dnsName userName userPassword certPath.
Arguments getServiceCertFingerprint {StorageService} pem_Decode certPath.

(** *** The placeholder password *)

(** Tables in which no rune belongs to any class. *)
Definition no_classes : Tables := {|
  Upper := []; Title := []; Lower := []; Number := []; Digit := []
|}.

(** C6.  With an empty password, the configuration set that
    [createLinuxProvisioningConfig] returns has
    [DisableSshPasswordAuthentication] set and carries the password
    "P@ssword1", which is not empty and which the validator accepts under
    any tables that are right on ASCII.  The validator is not run on it:
    the program is the same whatever the tables, also under tables with
    which the validator refuses "P@ssword1", and without a certificate it
    returns no error. *)
Theorem empty_password_gets_placeholder
    (StorageService : Type) (unicode : Tables)
    (pem_Decode : bytes -> option Block.t * bytes)
    (World : Type) (handle : forall c : call StorageService, World -> reply c * World)
    (dnsName userName certPath : string) (w : World) :
  let out :=
    returned handle
      (createLinuxProvisioningConfig unicode pem_Decode dnsName userName "" certPath)
      w in
  ConfigurationSet.DisableSshPasswordAuthentication (fst out) = true
  /\ ConfigurationSet.UserPassword (fst out) = "P@ssword1"
  /\ ConfigurationSet.UserPassword (fst out) <> ""
  /\ (forall t, ascii_faithful t = true -> verifyPassword t "P@ssword1" = None)
  /\ (forall unicode',
        createLinuxProvisioningConfig (StorageService := StorageService)
          unicode' pem_Decode dnsName userName "" certPath
        = createLinuxProvisioningConfig unicode pem_Decode dnsName userName ""
            certPath)
  /\ verifyPassword no_classes "P@ssword1" = Some invalidPasswordError
  /\ (len certPath = 0 -> snd out = None).
Proof.
  intros out.
  destruct (empty_password_fields StorageService unicode pem_Decode World handle
              dnsName userName certPath w) as (H1 & H2 & H3).
  fold out in H1, H2, H3.
  split; [exact H1 |]. split; [exact H2 |].
  split; [rewrite H2; discriminate |].
  split; [exact placeholder_valid |].
  split; [intros unicode'; reflexivity |].
  split; [reflexivity | exact H3].
Qed.

(** ** Concrete runs *)

Module Sample.

(** Values for the declarations taken as parameters above, and stand-ins
    for the library functions: marshalling yields the name of the
    document, and a non-empty file decodes to one block holding its
    bytes. *)
Definition paramNotSpecifiedError : string := "Parameter %s is not specified.".
Definition invalidDnsLengthError : string :=
  "The DNS name must be between 3 and 25 characters.".
Definition azureDeploymentListURL : string := "services/hostedservices/%s/deployments".
Definition azureXmlns : string := "http://schemas.microsoft.com/windowsazure".

Definition xml_Marshal (d : Document) : result bytes :=
  Ok (bytes_of_string
        match d with
        | DocVMDeployment _ => "<Deployment/>"
        | DocServiceCertificate _ => "<CertificateFile/>"
        | DocStartRoleOperation _ => "<StartRoleOperation/>"
        | DocShutdownRoleOperation _ => "<ShutdownRoleOperation/>"
        | DocRestartRoleOperation _ => "<RestartRoleOperation/>"
        end).

Definition pem_Decode (data : bytes) : option Block.t * bytes :=
  match data with
  | [] => (None, [])
  | _ => (Some (Block.mk "CERTIFICATE" data), [])
  end.

Definition base64_EncodeToString (b : bytes) : string := string_of_bytes b.

(** A scripted outside world: what each collaborator answers.  Storage
    services are known by name. *)
Record World : Type := {
  operations : string -> option error;
  files : string -> result bytes;
  locations : string -> result Location.t;
  storage_by_location : result (option string)
}.

(** [rollback] is what the deletion of a hosted service answers. *)
Definition handle (rollback : option error) (c : call string) (w : World)
  : reply c * World :=
  match c return reply c * World with
  | CreateHostedService _ _ _ => (Ok "request-1", w)
  | DeleteHostedService _ => (rollback, w)
  | waitAsyncOperation requestId => (operations w requestId, w)
  | sendAzurePostRequest _ _ => (Ok "request-2", w)
  | sendAzureDeleteRequest _ => (Ok "request-3", w)
  | ReadFile filename => (files w filename, w)
  | GetLocation location => (locations w location, w)
  | ResolveImageName _ => (None, w)
  | GetStorageServiceByLocation _ => (storage_by_location w, w)
  | CreateStorageService name _ => (Ok (Some name), w)
  | GetBlobEndpoint (Some name) =>
      (Ok ("https://" ++ name ++ ".blob.core.windows.net/"), w)
  | GetBlobEndpoint None => (Err "storage service is nil", w)
  | newUUID => (Ok "0f8fad5b", w)
  | Now_Format _ => ("20150102150405", w)
  end.

Definition one_file (name : string) (contents : string) (filename : string)
  : result bytes :=
  if String.eqb filename name then Ok (bytes_of_string contents)
  else Err ("open " ++ filename ++ ": no such file or directory").

Definition west_us (location : string) : result Location.t :=
  if String.eqb location "West US" then Ok (Location.mk ["Small"; "Medium"; "Large"])
  else Err "ResourceNotFound".

Definition failed : error := "Failed: ConflictError, the operation could not be completed".

(** Everything succeeds. *)
Definition calm : World := {|
  operations := fun _ => None;
  files := one_file "cert.pem" "abc";
  locations := west_us;
  storage_by_location := Ok None
|}.

(** The tracker reports the creation of the hosted service as failed. *)
Definition creation_fails : World := {|
  operations := fun requestId =>
                  if String.eqb requestId "request-1" then Some failed else None;
  files := one_file "cert.pem" "abc";
  locations := west_us;
  storage_by_location := Ok None
|}.

(** The tracker reports every operation as failed. *)
Definition operations_fail : World := {|
  operations := fun _ => Some failed;
  files := one_file "cert.pem" "abc";
  locations := west_us;
  storage_by_location := Ok None
|}.

(** The certificate file cannot be read. *)
Definition no_certificate : World := {|
  operations := fun _ => None;
  files := one_file "other.pem" "abc";
  locations := west_us;
  storage_by_location := Ok None
|}.

Definition with_password : Role.t :=
  Role.mk "myservice" "Small" "PersistentVMRole" true OSVirtualHardDisk.zero [] false "".

Definition with_certificate : Role.t :=
  Role.mk "myservice" "Small" "PersistentVMRole" true OSVirtualHardDisk.zero []
    true "cert.pem".

(** A store in which every role carries three stale configuration sets. *)
Definition stale : ConfigurationSet.t :=
  ConfigurationSet.mk "LinuxProvisioningConfiguration" "old" "old" "old" false
    SSH.zero [].

Definition roles : heap :=
  fun _ =>
    Role.mk "myservice" "Small" "PersistentVMRole" true OSVirtualHardDisk.zero
      [stale; stale; stale] false "".

Definition createVM (azureVMConfiguration : option Role.t)
    (dnsName location : string) : Prog string (option error) :=
  CreateAzureVM string paramNotSpecifiedError invalidDnsLengthError
    azureDeploymentListURL azureXmlns xml_Marshal base64_EncodeToString
    azureVMConfiguration dnsName location.

Definition createVMConfiguration (dnsName instanceSize imageName location : string)
  : Prog string (option Role.t * option error) :=
  CreateAzureVMConfiguration string paramNotSpecifiedError invalidDnsLengthError
    dnsName instanceSize imageName location.

Definition addLinuxProvisioningConfig (h : heap) (azureVMConfiguration : option addr)
    (userName password certPath : string) (sshPort : Z)
  : Prog string (heap * (option addr * option error)) :=
  AddAzureLinuxProvisioningConfig string paramNotSpecifiedError latin1 pem_Decode
    h azureVMConfiguration userName password certPath sshPort.

(** The store after a provisioning configuration with password "abcD1"
    has been added to the role at address 0. *)
Definition roles_after_add : heap :=
  fst (returned (handle None)
         (addLinuxProvisioningConfig roles (Some 0%nat) "azureuser" "abcD1" "" 22)
         calm).

End Sample.






(** *** The tracker's verdict in the workflows *)

(** C1, on a run.  The tracker reports the creation of the hosted service
    as failed; [CreateAzureVM] goes on to submit the deployment and
    returns [nil]. *)
Lemma CreateAzureVM_proceeds_after_failed_creation :
  calls (Sample.handle None)
    (Sample.createVM (Some Sample.with_password) "myservice" "West US")
    Sample.creation_fails
  = [ Event (CreateHostedService "myservice" "West US" "") (Ok "request-1");
      Event (waitAsyncOperation "request-1") (Some Sample.failed);
      Event (sendAzurePostRequest "services/hostedservices/myservice/deployments"
               (bytes_of_string "<Deployment/>")) (Ok "request-2");
      Event (waitAsyncOperation "request-2") None ]
  /\ returned (Sample.handle None)
       (Sample.createVM (Some Sample.with_password) "myservice" "West US")
       Sample.creation_fails
     = None.
Proof. split; reflexivity. Qed.

(** C2, on a run.  The request is accepted and the tracker reports the
    operation as failed; each of the four role operations returns [nil]. *)
Lemma role_operations_return_nil_after_failed_operation :
  (calls (Sample.handle None)
     (StartRole string Sample.paramNotSpecifiedError Sample.azureXmlns
        Sample.xml_Marshal "myservice" "mydeployment" "myrole")
     Sample.operations_fail
   = [ Event (sendAzurePostRequest
                "services/hostedservices/myservice/deployments/mydeployment/roleinstances/myrole/Operations"
                (bytes_of_string "<StartRoleOperation/>")) (Ok "request-2");
       Event (waitAsyncOperation "request-2") (Some Sample.failed) ]
   /\ returned (Sample.handle None)
        (StartRole string Sample.paramNotSpecifiedError Sample.azureXmlns
           Sample.xml_Marshal "myservice" "mydeployment" "myrole")
        Sample.operations_fail
      = None)
  /\ returned (Sample.handle None)
       (ShutdownRole string Sample.paramNotSpecifiedError Sample.azureXmlns
          Sample.xml_Marshal "myservice" "mydeployment" "myrole")
       Sample.operations_fail
     = None
  /\ returned (Sample.handle None)
       (RestartRole string Sample.paramNotSpecifiedError Sample.azureXmlns
          Sample.xml_Marshal "myservice" "mydeployment" "myrole")
       Sample.operations_fail
     = None
  /\ (calls (Sample.handle None)
        (DeleteRole string Sample.paramNotSpecifiedError
           "myservice" "mydeployment" "myrole")
        Sample.operations_fail
      = [ Event (sendAzureDeleteRequest
                   "services/hostedservices/myservice/deployments/mydeployment/roles/myrole")
            (Ok "request-3");
          Event (waitAsyncOperation "request-3") (Some Sample.failed) ]
      /\ returned (Sample.handle None)
           (DeleteRole string Sample.paramNotSpecifiedError
              "myservice" "mydeployment" "myrole")
           Sample.operations_fail
         = None).
Proof. repeat split; reflexivity. Qed.

(** The certificate upload, in contrast, hands the tracker's verdict to
    its caller. *)
Lemma uploadServiceCert_returns_verdict :
  returned (Sample.handle None)
    (uploadServiceCert string Sample.azureXmlns Sample.xml_Marshal
       Sample.base64_EncodeToString "myservice" "cert.pem")
    Sample.operations_fail
  = Some Sample.failed.
Proof. reflexivity. Qed.

(** *** Compensation, on runs *)

(** C3 at a run in which the certificate file cannot be read. *)
Lemma cert_upload_failure_compensated_once_witness :
  returned (Sample.handle None)
    (Sample.createVM (Some Sample.with_certificate) "myservice" "West US")
    Sample.no_certificate
  = Some "open cert.pem: no such file or directory"
  /\ deletions
       (calls (Sample.handle None)
          (Sample.createVM (Some Sample.with_certificate) "myservice" "West US")
          Sample.no_certificate)
     = 1%nat
  /\ exists before r,
       calls (Sample.handle None)
         (Sample.createVM (Some Sample.with_certificate) "myservice" "West US")
         Sample.no_certificate
       = (before ++ [Event (DeleteHostedService "myservice") r])%list.
Proof.
  apply (cert_upload_failure_compensated_once string
           Sample.paramNotSpecifiedError Sample.invalidDnsLengthError
           Sample.azureDeploymentListURL Sample.azureXmlns Sample.xml_Marshal
           Sample.base64_EncodeToString Sample.World (Sample.handle None)
           Sample.with_certificate "myservice" "West US" Sample.no_certificate
           "request-1" Sample.no_certificate None Sample.no_certificate
           "open cert.pem: no such file or directory").
  - split; vm_compute; discriminate.
  - vm_compute; discriminate.
  - reflexivity.
  - reflexivity.
  - reflexivity.
  - reflexivity.
Defined.

(** C4 as stated fails.  The certificate upload fails and the deletion of
    the hosted service fails in its turn, with "rollback failed"; the
    caller gets the upload error alone, the very value it gets when the
    deletion succeeds, and so cannot learn that the rollback failed. *)
Lemma failed_compensation_is_dropped :
  calls (Sample.handle (Some "rollback failed"))
    (Sample.createVM (Some Sample.with_certificate) "myservice" "West US")
    Sample.no_certificate
  = [ Event (CreateHostedService "myservice" "West US" "") (Ok "request-1");
      Event (waitAsyncOperation "request-1") None;
      Event (ReadFile "cert.pem") (Err "open cert.pem: no such file or directory");
      Event (DeleteHostedService "myservice") (Some "rollback failed") ]
  /\ returned (Sample.handle (Some "rollback failed"))
       (Sample.createVM (Some Sample.with_certificate) "myservice" "West US")
       Sample.no_certificate
     = Some "open cert.pem: no such file or directory"
  /\ returned (Sample.handle None)
       (Sample.createVM (Some Sample.with_certificate) "myservice" "West US")
       Sample.no_certificate
     = Some "open cert.pem: no such file or directory".
Proof. repeat split; reflexivity. Qed.

(** C4 (amended) at the same run: with and without a failing rollback the
    return value is the same, the error of the certificate upload that
    made the run delete the hosted service. *)
Lemma compensation_outcome_not_returned_witness :
  returned (Sample.handle (Some "rollback failed"))
    (Sample.createVM (Some Sample.with_certificate) "myservice" "West US")
    Sample.no_certificate
  = returned (Sample.handle None)
      (Sample.createVM (Some Sample.with_certificate) "myservice" "West US")
      Sample.no_certificate
  /\ exists role requestId w1 verdict w2 between r e,
       Some Sample.with_certificate = Some role
       /\ Sample.handle None (CreateHostedService "myservice" "West US" "")
            Sample.no_certificate
          = (Ok requestId, w1)
       /\ Sample.handle None (waitAsyncOperation requestId) w1 = (verdict, w2)
       /\ compensation_cause string Sample.azureDeploymentListURL Sample.azureXmlns
            Sample.xml_Marshal Sample.base64_EncodeToString Sample.World
            (Sample.handle None) role "myservice" w2 between e
       /\ calls (Sample.handle None)
            (Sample.createVM (Some Sample.with_certificate) "myservice" "West US")
            Sample.no_certificate
          = (Event (CreateHostedService "myservice" "West US" "") (Ok requestId)
             :: Event (waitAsyncOperation requestId) verdict
             :: between ++ [Event (DeleteHostedService "myservice") r])%list
       /\ returned (Sample.handle None)
            (Sample.createVM (Some Sample.with_certificate) "myservice" "West US")
            Sample.no_certificate
          = Some e
       /\ returned (Sample.handle (Some "rollback failed"))
            (Sample.createVM (Some Sample.with_certificate) "myservice" "West US")
            Sample.no_certificate
          = Some e.
Proof.
  destruct (compensation_outcome_not_returned string
              Sample.paramNotSpecifiedError Sample.invalidDnsLengthError
              Sample.azureDeploymentListURL Sample.azureXmlns Sample.xml_Marshal
              Sample.base64_EncodeToString Sample.World (Sample.handle None)
              (Sample.handle (Some "rollback failed"))
              (Some Sample.with_certificate) "myservice" "West US"
              Sample.no_certificate) as [Hsame Hcause].
  - intros c w Hc. destruct c; try reflexivity.
    exfalso. apply (Hc dnsName). reflexivity.
  - split; [exact Hsame |]. apply Hcause. vm_compute. discriminate.
Defined.

(** *** Configuration assembly, on runs *)

(** C7 at a certificate file whose block holds the bytes "abc". *)
Lemma fingerprint_is_sha1_upper_hex_witness :
  returned (Sample.handle None)
    (getServiceCertFingerprint Sample.pem_Decode "cert.pem") Sample.calm
  = ("A9993E364706816ABA3E25717850C26C9CD0D89D", None).
Proof.
  exact (proj1 (fingerprint_is_sha1_upper_hex string Sample.pem_Decode
                  Sample.World (Sample.handle None) "cert.pem" Sample.calm
                  (bytes_of_string "abc") Sample.calm
                  (Block.mk "CERTIFICATE" (bytes_of_string "abc")) []
                  eq_refl eq_refl)).
Defined.

(** C8 at a size that "West US" does not offer. *)
Lemma absent_size_fails_before_creation_witness :
  returned (Sample.handle None)
    (Sample.createVMConfiguration "myservice" "ExtraLarge" "ubuntu-14.04" "West US")
    Sample.calm
  = (None, Some "Role size: ExtraLarge not available in location: West US.")
  /\ calls (Sample.handle None)
       (Sample.createVMConfiguration "myservice" "ExtraLarge" "ubuntu-14.04"
          "West US")
       Sample.calm
     = [Event (GetLocation "West US") (Ok (Location.mk ["Small"; "Medium"; "Large"]))].
Proof.
  assert (Habsent : ~ In "ExtraLarge" ["Small"; "Medium"; "Large"]).
  { simpl. intros [H | [H | [H | []]]]; discriminate H. }
  destruct (absent_size_fails_before_creation string
              Sample.paramNotSpecifiedError Sample.invalidDnsLengthError
              Sample.World (Sample.handle None)
              "myservice" "ExtraLarge" "ubuntu-14.04" "West US" Sample.calm
              (Location.mk ["Small"; "Medium"; "Large"]) Sample.calm)
    as (H1 & _ & H3).
  - split; vm_compute; discriminate.
  - vm_compute; discriminate.
  - vm_compute; discriminate.
  - vm_compute; discriminate.
  - reflexivity.
  - exact Habsent.
  - split; [exact H1 | exact H3].
Defined.

(** C9 at a location without a storage service: one is created, then the
    link is formed from its endpoint. *)
Example getVHDMediaLink_creates_then_derives :
  calls (Sample.handle None) (getVHDMediaLink string "myservice" "West US") Sample.calm
  = [ Event (GetStorageServiceByLocation "West US") (Ok None);
      Event newUUID (Ok "0f8fad5b");
      Event (CreateStorageService "portalvhds0f8fad5b" "West US")
        (Ok (Some "portalvhds0f8fad5b"));
      Event (GetBlobEndpoint (Some "portalvhds0f8fad5b"))
        (Ok "https://portalvhds0f8fad5b.blob.core.windows.net/");
      Event (Now_Format "20060102150405") "20150102150405" ]
  /\ returned (Sample.handle None) (getVHDMediaLink string "myservice" "West US")
       Sample.calm
     = ("https://portalvhds0f8fad5b.blob.core.windows.net/vhds/myservice-20150102150405.vhd",
        None).
Proof. split; reflexivity. Qed.

(** C10 at a role that carried three configuration sets. *)
Lemma AddAzureLinuxProvisioningConfig_replaces_sets_witness :
  exists a provisioningConfig networkConfig,
    Some 0%nat = Some a /\ Some 0%nat = Some a
    /\ Role.ConfigurationSets (Sample.roles_after_add a)
       = [provisioningConfig; networkConfig]
    /\ ConfigurationSet.ConfigurationSetType provisioningConfig
       = "LinuxProvisioningConfiguration"
    /\ ConfigurationSet.ConfigurationSetType networkConfig = "NetworkConfiguration"
    /\ provisioning_sets (Sample.roles_after_add a) = [provisioningConfig]
    /\ network_sets (Sample.roles_after_add a) = [networkConfig]
    /\ (forall a', a' <> a -> Sample.roles_after_add a' = Sample.roles a').
Proof.
  exact (AddAzureLinuxProvisioningConfig_replaces_sets string
           Sample.paramNotSpecifiedError latin1 Sample.pem_Decode
           Sample.World (Sample.handle None)
           Sample.roles (Some 0%nat) "azureuser" "abcD1" "" 22 Sample.calm
           Sample.roles_after_add (Some 0%nat) eq_refl).
Defined.

(** ** Further concrete runs *)

Module Further.

(** A marshaller that refuses every document. *)
Definition xml_Marshal_refusing (d : Document) : result bytes :=
  Err "xml: unsupported type".

Definition json_Marshal_dockerPublicConfig (dockerPort version : Z) : result bytes :=
  Ok (bytes_of_string "{}").

Definition no_extensions : extensions := fun _ => [].

Definition sendAzureGetRequest (path : string) : result bytes :=
  Ok (bytes_of_string "<RoleSizes/>").

Definition xml_Unmarshal_RoleSizeList (response : bytes)
  : list RoleSize.t * option error :=
  ([RoleSize.mk "Small"; RoleSize.mk "Medium"], None).

End Further.

(** X3 at a run in which everything succeeds. *)
Lemma CreateAzureVM_success_means_deployed_witness :
  exists role vMDeploymentBytes requestId between requestId' verdict,
    Some Sample.with_password = Some role
    /\ Sample.xml_Marshal
         (DocVMDeployment (createVMDeploymentConfig Sample.azureXmlns role))
       = Ok vMDeploymentBytes
    /\ calls (Sample.handle None)
         (Sample.createVM (Some Sample.with_password) "myservice" "West US")
         Sample.calm
       = (Event (CreateHostedService "myservice" "West US" "") (Ok requestId)
          :: between
          ++ [ Event (sendAzurePostRequest
                        (Sprintf Sample.azureDeploymentListURL [Role.RoleName role])
                        vMDeploymentBytes) (Ok requestId');
               Event (waitAsyncOperation requestId') verdict ])%list
    /\ deletions
         (calls (Sample.handle None)
            (Sample.createVM (Some Sample.with_password) "myservice" "West US")
            Sample.calm)
       = 0%nat.
Proof.
  exact (CreateAzureVM_success_means_deployed string
           Sample.paramNotSpecifiedError Sample.invalidDnsLengthError
           Sample.azureDeploymentListURL Sample.azureXmlns Sample.xml_Marshal
           Sample.base64_EncodeToString Sample.World (Sample.handle None)
           (Some Sample.with_password) "myservice" "West US" Sample.calm eq_refl).
Defined.

(** X4 at a run in which the deployment document cannot be marshalled. *)
Lemma deployment_failure_compensated_once_witness :
  returned (Sample.handle None)
    (CreateAzureVM string Sample.paramNotSpecifiedError Sample.invalidDnsLengthError
       Sample.azureDeploymentListURL Sample.azureXmlns Further.xml_Marshal_refusing
       Sample.base64_EncodeToString (Some Sample.with_password) "myservice" "West US")
    Sample.calm
  = Some "xml: unsupported type"
  /\ deletions
       (calls (Sample.handle None)
          (CreateAzureVM string Sample.paramNotSpecifiedError
             Sample.invalidDnsLengthError Sample.azureDeploymentListURL
             Sample.azureXmlns Further.xml_Marshal_refusing
             Sample.base64_EncodeToString (Some Sample.with_password) "myservice"
             "West US")
          Sample.calm)
     = 1%nat.
Proof.
  apply (deployment_failure_compensated_once string
           Sample.paramNotSpecifiedError Sample.invalidDnsLengthError
           Sample.azureDeploymentListURL Sample.azureXmlns Further.xml_Marshal_refusing
           Sample.base64_EncodeToString Sample.World (Sample.handle None)
           Sample.with_password "myservice" "West US" Sample.calm
           "request-1" Sample.calm None Sample.calm "xml: unsupported type").
  - split; vm_compute; discriminate.
  - vm_compute; discriminate.
  - reflexivity.
  - reflexivity.
  - discriminate.
  - left. reflexivity.
Defined.

(** X10 at the role of [Sample.roles], given the password "abcD1" and no
    certificate. *)
Lemma AddAzureLinuxProvisioningConfig_result_witness :
  exists a ssh,
    Some 0%nat = Some a /\ Some 0%nat = Some a
    /\ Sample.roles_after_add a
       = Role.mk (Role.RoleName (Sample.roles a)) (Role.RoleSize (Sample.roles a))
           (Role.RoleType (Sample.roles a)) (Role.ProvisionGuestAgent (Sample.roles a))
           (Role.OSVirtualHardDisk (Sample.roles a))
           [ linuxSet (Role.RoleName (Sample.roles a)) "azureuser"
               (if len "abcD1" =? 0 then "P@ssword1" else "abcD1")
               (len "abcD1" =? 0) ssh;
             ConfigurationSet.mk "NetworkConfiguration" "" "" "" false SSH.zero
               [InputEndpoint.mk "ssh" "tcp" 22 22] ]
           ((0 <? len "") || Role.UseCertAuth (Sample.roles a))
           (if 0 <? len "" then "" else Role.CertPath (Sample.roles a))
    /\ (len "abcD1" <> 0 -> verifyPassword latin1 "abcD1" = None)
    /\ (len "" = 0 -> ssh = SSH.zero)
    /\ (0 < len "" ->
        checkServiceCertExtension "" = None
        /\ exists certData rest block,
             calls (Sample.handle None)
               (Sample.addLinuxProvisioningConfig Sample.roles (Some 0%nat)
                  "azureuser" "abcD1" "" 22)
               Sample.calm
             = [Event (ReadFile "") (Ok certData)]
             /\ Sample.pem_Decode certData = (Some block, rest)
             /\ ssh = SSH.mk [PublicKey.mk (SprintfX (sha1_Sum (Block.Bytes block)))
                                ("/home/" ++ "azureuser" ++ "/.ssh/authorized_keys")]).
Proof.
  exact (AddAzureLinuxProvisioningConfig_result string
           Sample.paramNotSpecifiedError latin1 Sample.pem_Decode
           Sample.World (Sample.handle None)
           Sample.roles (Some 0%nat) "azureuser" "abcD1" "" 22 Sample.calm
           Sample.roles_after_add (Some 0%nat) eq_refl).
Defined.

(** X17 at the same role, with docker on port 2375. *)
Lemma docker_after_linux_provisioning_witness :
  exists a provisioningConfig,
    Some 0%nat = Some a
    /\ Role.ConfigurationSets (Sample.roles_after_add a)
       = [ provisioningConfig;
           ConfigurationSet.mk "NetworkConfiguration" "" "" "" false SSH.zero
             [InputEndpoint.mk "ssh" "tcp" 22 22] ]
    /\ ConfigurationSet.ConfigurationSetType provisioningConfig
       = "LinuxProvisioningConfiguration"
    /\ Role.ConfigurationSets
         (fst (fst (SetAzureDockerVMExtension Sample.paramNotSpecifiedError
                      Sample.base64_EncodeToString
                      Further.json_Marshal_dockerPublicConfig
                      Sample.roles_after_add Further.no_extensions (Some 0%nat)
                      2375 "")) a)
       = [ provisioningConfig;
           ConfigurationSet.mk "NetworkConfiguration" "" "" "" false SSH.zero
             [ InputEndpoint.mk "ssh" "tcp" 22 22;
               InputEndpoint.mk "docker" "tcp" 2375 2375 ] ]
    /\ (forall configJson,
          Further.json_Marshal_dockerPublicConfig 2375 2 = Ok configJson ->
          snd (SetAzureDockerVMExtension Sample.paramNotSpecifiedError
                 Sample.base64_EncodeToString Further.json_Marshal_dockerPublicConfig
                 Sample.roles_after_add Further.no_extensions (Some 0%nat) 2375 "")
          = (Some a, None)).
Proof.
  exact (docker_after_linux_provisioning string
           Sample.paramNotSpecifiedError latin1 Sample.pem_Decode
           Sample.base64_EncodeToString Further.json_Marshal_dockerPublicConfig
           Sample.World (Sample.handle None)
           Sample.roles Further.no_extensions (Some 0%nat) "azureuser" "abcD1" "" 22
           2375 "" Sample.calm Sample.roles_after_add (Some 0%nat) eq_refl).
Defined.

(** X19 at a service that lists "Small" and "Medium". *)
Lemma ResolveRoleSize_lists_sizes_witness :
  ResolveRoleSize Sample.paramNotSpecifiedError Further.sendAzureGetRequest
    Further.xml_Unmarshal_RoleSizeList "Huge"
  = Some "Invalid role size: Huge. Available role sizes: Small, Medium".
Proof.
  apply (ResolveRoleSize_lists_sizes Sample.paramNotSpecifiedError
           Further.sendAzureGetRequest Further.xml_Unmarshal_RoleSizeList
           "Huge" (bytes_of_string "<RoleSizes/>")
           [RoleSize.mk "Small"; RoleSize.mk "Medium"]).
  - vm_compute; discriminate.
  - reflexivity.
  - reflexivity.
  - simpl. intros [H | [H | []]]; discriminate H.
  - repeat constructor; discriminate.
Defined.
